(** * novelWriter: the theme and icon classes of nw/gui/theme.py

    A shallow embedding of [GuiTheme] and [GuiIcons] and the properties of
    their loaders, colour parsers, theme listings and icon cache.

    Conventions of the embedding.
    - A Python [str] is a [string], one [ascii] per character: the code
      points 0 to 255.
    - A Python list of ints is a [list Z]; a [dict] keyed by [str] is a
      [gmap string _]; a [configparser.ConfigParser] holds its default
      section and its sections as association lists in insertion order.
    - A call that can raise has an [Outcome]: the value it returns or the
      exception that leaves it. A method that changes its object before it
      raises gives the object as it is at that moment.
    - Mutable objects outside the two classes (the logger, the alert box of
      the parent window, [qApp], the allocation of fresh [QIcon] objects)
      live in a [World] threaded through a state monad.
    - What the code only reads (nw.CONFIG, the file system, Qt queries) is an
      [Env] passed to every method. *)

From Stdlib Require Import ZArith String Ascii List Bool Lia Sorted.
From Stdlib Require Import Floats.
From Stdlib.Strings Require Byte.
From stdpp Require Import gmap strings list.

Set Warnings "-inexact-float".

Local Open Scope string_scope.
Local Open Scope Z_scope.

(* ===================================================================== *)
(** * Exceptions *)
(* ===================================================================== *)

(** The exceptions that leave the methods of the module. *)
Inductive Exception :=
| OSError                           (* os.listdir *)
| ValueError                        (* int(nan) *)
| OverflowError                     (* int(inf); an argument of QColor *)
| NoSectionError                    (* configparser *)
| NoOptionError
| InterpolationSyntaxError
| InterpolationMissingOptionError
| InterpolationDepthError.

Inductive Outcome (A : Type) :=
| Return (a : A)
| Raise (e : Exception).
Arguments Return {A} a.
Arguments Raise {A} e.

Definition is_Return {A} (o : Outcome A) : Prop :=
  match o with Return _ => True | Raise _ => False end.

(* ===================================================================== *)
(** * Python built-ins used by the module *)
(* ===================================================================== *)

Module Py.

(** [s.split(sep)] for a one-character separator: never returns the empty
    list, and [len] of the result is one more than the number of
    separators in [s]. *)
Fixpoint split (sep : ascii) (s : string) : list string :=
  match s with
  | EmptyString => [EmptyString]
  | String c s' =>
      if Ascii.eqb c sep then EmptyString :: split sep s'
      else match split sep s' with
           | w :: ws => String c w :: ws
           | [] => [String c EmptyString]
           end
  end.

(** Characters that [int()] skips on both sides of the number: 0x09-0x0D
    and the space, and the two white-space characters above 0x7F, 0x85
    and 0xA0. The separators 0x1C-0x1F, which [str.strip] removes, are not
    among them. *)
Definition is_space (c : ascii) : bool :=
  let n := N.to_nat (N_of_ascii c) in
  ((9 <=? n)%nat && (n <=? 13)%nat) || (n =? 32)%nat
  || (n =? 133)%nat || (n =? 160)%nat.

Definition digit_val (c : ascii) : option Z :=
  let n := Z.of_N (N_of_ascii c) in
  if (48 <=? n) && (n <=? 57) then Some (n - 48) else None.

Fixpoint lstrip (l : list ascii) : list ascii :=
  match l with
  | c :: l' => if is_space c then lstrip l' else l
  | [] => []
  end.

Definition strip (l : list ascii) : list ascii :=
  rev (lstrip (rev (lstrip l))).

(** Decimal digits, single underscores allowed between two digits: the
    value and the number of digits. [prev] tells whether the previous
    character was a digit. *)
Fixpoint digits (acc : Z) (n : nat) (prev : bool) (l : list ascii)
  : option (Z * nat) :=
  match l with
  | [] => if prev then Some (acc, n) else None
  | c :: l' =>
      match digit_val c with
      | Some d => digits (10 * acc + d) (S n) true l'
      | None =>
          if Ascii.eqb c "_"%char then
            (if prev then digits acc n false l' else None)
          else None
      end
  end.

(** [sys.get_int_max_str_digits()]: the interpreter refuses to convert a
    string of more digits (CPython 3.11, default setting). *)
Definition int_max_str_digits : nat := 4300.

Definition number (l : list ascii) : option Z :=
  match digits 0 0 false l with
  | Some (v, n) => if (n <=? int_max_str_digits)%nat then Some v else None
  | None => None
  end.

(** [int(s)] in base 10; [None] stands for the [ValueError]. *)
Definition int (s : string) : option Z :=
  match strip (list_ascii_of_string s) with
  | c :: l' =>
      if Ascii.eqb c "-"%char then Z.opp <$> number l'
      else if Ascii.eqb c "+"%char then number l'
      else number (c :: l')
  | [] => None
  end.

(** [int(x)] for a float: truncation towards zero; [None] stands for the
    [ValueError] (nan) or [OverflowError] (infinity). *)
Definition int_of_float (x : float) : option Z :=
  match Prim2SF x with
  | S754_zero _ => Some 0
  | S754_finite sg m e =>
      let a := match e with
               | Zneg p => Z.pos m / 2 ^ Z.pos p
               | _ => Z.pos m * 2 ^ e
               end in
      Some (if sg then - a else a)
  | S754_infinity _ | S754_nan => None
  end.

(** The exception of [int(x)] when it raises. *)
Definition int_of_float_error (x : float) : Exception :=
  match Prim2SF x with
  | S754_nan => ValueError
  | _ => OverflowError
  end.

(** [s.lower()] *)
Definition lower_char (c : ascii) : ascii :=
  let n := N_of_ascii c in
  if ((65 <=? n)%N && (n <=? 90)%N)
     || ((192 <=? n)%N && (n <=? 222)%N && negb (n =? 215)%N)
  then ascii_of_N (n + 32) else c.

Fixpoint lower (s : string) : string :=
  match s with
  | EmptyString => EmptyString
  | String c s' => String (lower_char c) (lower s')
  end.

(** [c in s] for a character. *)
Fixpoint contains (c : ascii) (s : string) : bool :=
  match s with
  | EmptyString => false
  | String c' s' => Ascii.eqb c' c || contains c s'
  end.

(** [os.path.join] (posixpath) for two and three components. *)
Definition ends_with_sep (s : string) : bool :=
  match rev (list_ascii_of_string s) with
  | c :: _ => Ascii.eqb c "/"%char
  | [] => false
  end.

Definition join (a b : string) : string :=
  match b with
  | String "/"%char _ => b
  | _ => if String.eqb a "" || ends_with_sep a then a +:+ b
         else a +:+ "/" +:+ b
  end.

Definition join3 (a b c : string) : string := join (join a b) c.
Definition join4 (a b c d : string) : string := join (join3 a b c) d.

(** [sorted(l, key=...)]: a stable sort; [str] keys compare
    lexicographically by character code. *)
Section Sorted.
Context {A : Type} (key : A -> string).

Fixpoint insert_sorted (x : A) (l : list A) : list A :=
  match l with
  | [] => [x]
  | y :: l' =>
      if String.leb (key x) (key y) then x :: y :: l'
      else y :: insert_sorted x l'
  end.

Definition sorted (l : list A) : list A := foldr insert_sorted [] l.
End Sorted.

(** [s[:-n]] *)
Definition drop_last (n : nat) (s : string) : string :=
  String.substring 0 (String.length s - n) s.

(** [s.endswith(suffix)] *)
Definition endswith (s suffix : string) : bool :=
  let n := String.length s in
  let m := String.length suffix in
  (m <=? n)%nat && String.eqb (String.substring (n - m) m s) suffix.

End Py.

(* ===================================================================== *)
(** * configparser.ConfigParser *)
(* ===================================================================== *)

(** The parser object keeps what every [read_file] call has put into it:
    the options of the default section and of the other sections
    accumulate over calls. Values are kept as written; [get] and [items]
    expand the [%] references of a value when they hand it out
    ([BasicInterpolation]) and raise when it cannot be expanded. *)
Module ConfigParser.

Definition Options := list (string * string).

Record t := {
  defaults : Options;                    (* self._defaults *)
  sections : list (string * Options);    (* self._sections *)
}.

Definition empty : t := {| defaults := []; sections := [] |}.

Definition default_section : string := "DEFAULT".

Definition MAX_INTERPOLATION_DEPTH : nat := 10.

Fixpoint assoc {V : Type} (k : string) (l : list (string * V)) : option V :=
  match l with
  | [] => None
  | (k', v) :: l' => if String.eqb k k' then Some v else assoc k l'
  end.

(** [d[k] = v] on an insertion-ordered dict. *)
Fixpoint assoc_set {V : Type} (k : string) (v : V) (l : list (string * V))
  : list (string * V) :=
  match l with
  | [] => [(k, v)]
  | (k', v') :: l' =>
      if String.eqb k k' then (k, v) :: l' else (k', v') :: assoc_set k v l'
  end.

(** [d.update(os)] *)
Definition update (d os : Options) : Options :=
  foldl (fun acc kv => assoc_set kv.1 kv.2 acc) d os.

Definition optionxform (optionstr : string) : string := Py.lower optionstr.

Definition has_section (p : t) (sec : string) : bool :=
  match assoc sec (sections p) with Some _ => true | None => false end.

Definition has_key (k : string) (d : Options) : bool :=
  match assoc k d with Some _ => true | None => false end.

Definition has_option (p : t) (sec opt : string) : bool :=
  if String.eqb sec "" || String.eqb sec default_section then
    has_key (optionxform opt) (defaults p)
  else
    match assoc sec (sections p) with
    | None => false
    | Some os =>
        has_key (optionxform opt) os || has_key (optionxform opt) (defaults p)
    end.

(** ** Interpolation *)

Section Interpolation.
(** [map[var]]: the options that a reference can name. *)
Variable map : string -> option string.

(** [_interpolate_some]: [fuel] is the number of nested expansions still
    allowed. The scan of [rest] is either in the text ([name = None]) or
    inside a reference [%(name)s], after the opening parenthesis. *)
Fixpoint interpolate_some (fuel : nat) : option string -> string -> Outcome string :=
  match fuel with
  | O => fun _ _ => Raise InterpolationDepthError
  | S fuel' =>
      fix scan (name : option string) (rest : string) {struct rest}
        : Outcome string :=
        match name, rest with
        | None, EmptyString => Return EmptyString
        | None, String c rest' =>
            if Ascii.eqb c "%"%char then
              match rest' with
              | String c' rest'' =>
                  if Ascii.eqb c' "%"%char then
                    match scan None rest'' with
                    | Return out => Return (String "%"%char out)
                    | Raise e => Raise e
                    end
                  else if Ascii.eqb c' "("%char then scan (Some EmptyString) rest''
                  else Raise InterpolationSyntaxError
              | EmptyString => Raise InterpolationSyntaxError
              end
            else
              match scan None rest' with
              | Return out => Return (String c out)
              | Raise e => Raise e
              end
        | Some _, EmptyString => Raise InterpolationSyntaxError
        | Some n, String c rest' =>
            if Ascii.eqb c ")"%char then
              match n, rest' with
              | String _ _, String "s"%char rest'' =>
                  match map (optionxform n) with
                  | None => Raise InterpolationMissingOptionError
                  | Some v =>
                      match (if Py.contains "%"%char v
                             then interpolate_some fuel' None v else Return v) with
                      | Raise e => Raise e
                      | Return out =>
                          match scan None rest'' with
                          | Return out' => Return (out +:+ out')
                          | Raise e => Raise e
                          end
                      end
                  end
              | _, _ => Raise InterpolationSyntaxError
              end
            else scan (Some (n +:+ String c EmptyString)) rest'
        end
  end.

(** [before_get] *)
Definition interpolate (value : string) : Outcome string :=
  interpolate_some MAX_INTERPOLATION_DEPTH None value.

(** The list comprehension of [items]. *)
Fixpoint interpolate_all (l : Options) : Outcome Options :=
  match l with
  | [] => Return []
  | (option, value) :: l' =>
      match interpolate value with
      | Raise e => Raise e
      | Return v =>
          match interpolate_all l' with
          | Raise e => Raise e
          | Return r => Return ((option, v) :: r)
          end
      end
  end.
End Interpolation.

(** The options of a section itself; the default section has none of its
    own. [None]: there is no such section. *)
Definition section_dict (p : t) (sec : string) : option Options :=
  match assoc sec (sections p) with
  | Some os => Some os
  | None => if String.eqb sec default_section then Some [] else None
  end.

(** [p.get(sec, opt)]: the option is looked up in the section, then in the
    default section, and so are the references of its value. *)
Definition get (p : t) (sec opt : string) : Outcome string :=
  match section_dict p sec with
  | None => Raise NoSectionError
  | Some os =>
      let d := fun k =>
        match assoc k os with Some v => Some v | None => assoc k (defaults p) end in
      match d (optionxform opt) with
      | None => Raise NoOptionError
      | Some value => interpolate d value
      end
  end.

(** [p.items(sec)]: the defaults, updated with the options of the section,
    every value expanded. *)
Definition items (p : t) (sec : string) : Outcome Options :=
  match section_dict p sec with
  | None => Raise NoSectionError
  | Some os =>
      let d := update (defaults p) os in
      interpolate_all (fun k => assoc k d) d
  end.

(** ** Reading *)

(** What parsing one file hands to the parser: the sections of the file in
    order, each with its options (names in lower case) in order.
    [rr_error] is the message of the exception that [read_file(open(...))]
    raises, if any: a file that cannot be opened or that lacks a section
    header contributes nothing ([rr_content = []]); a file with a malformed
    line contributes the lines that did parse and raises at the end. *)
Record ReadResult := {
  rr_content : list (string * Options);
  rr_error : option string;
}.

Definition merge_section (p : t) (sec : string) (os : Options) : t :=
  if String.eqb sec default_section then
    {| defaults := update (defaults p) os; sections := sections p |}
  else
    let old := match assoc sec (sections p) with Some o => o | None => [] end in
    {| defaults := defaults p;
       sections := assoc_set sec (update old os) (sections p) |}.

Definition merge (p : t) (c : list (string * Options)) : t :=
  foldl (fun acc so => merge_section acc so.1 so.2) p c.

(** [p.read_file(open(path))]: the new parser state, and the exception. *)
Definition read_file (p : t) (r : ReadResult) : t * option string :=
  (merge p (rr_content r), rr_error r).

End ConfigParser.

(* ===================================================================== *)
(** * Qt objects *)
(* ===================================================================== *)

Inductive StandardPixmap :=
| SP_DriveHDIcon | SP_FileIcon | SP_DirIcon | SP_DirOpenIcon
| SP_DialogDiscardButton | SP_DialogCloseButton | SP_DialogApplyButton
| SP_LineEditClearButton | SP_DialogSaveButton | SP_MessageBoxWarning.

(** Where the pixels of an icon come from. *)
Inductive IconSource :=
| NullIcon                              (* QIcon() *)
| FromFile (fileName : string)          (* QIcon(fileName) *)
| FromStyle (sp : StandardPixmap)       (* qApp.style().standardIcon(sp) *)
| FromTheme (name : string).            (* QIcon().fromTheme(name) *)

(** An icon object: every construction yields a new object, told apart
    from all others by [icon_id]. Two handles are identical (Python [is])
    when they are equal as records. *)
Record QIcon := {
  icon_id : nat;
  icon_src : IconSource;
}.

Inductive ColorRole :=
| Window | WindowText | Base | AlternateBase | Text | ToolTipBase
| ToolTipText | Button | ButtonText | BrightText | Highlight
| HighlightedText | Link | LinkVisited.

#[global] Instance ColorRole_eq_dec : EqDecision ColorRole.
Proof. solve_decision. Defined.

(** A [QColor]: three channels of 0..255 each, or the invalid colour. *)
Inductive QColor :=
| QColor_invalid
| QColor_rgb (r g b : Byte.byte).

(** An [int] that fits the C [int] of the Qt signature. *)
Definition c_int (z : Z) : bool :=
  (-2147483648 <=? z) && (z <=? 2147483647).

Definition channel (z : Z) : option Byte.byte :=
  if (0 <=? z) && (z <=? 255) then Byte.of_N (Z.to_N z) else None.

(** [QColor(r, g, b)]: PyQt raises [OverflowError] for an argument that
    does not fit a C [int]; Qt makes the colour invalid when a channel is
    outside 0..255. *)
Definition QColor_new (r g b : Z) : Outcome QColor :=
  if c_int r && c_int g && c_int b then
    Return match channel r, channel g, channel b with
           | Some x, Some y, Some z => QColor_rgb x y z
           | _, _, _ => QColor_invalid
           end
  else Raise OverflowError.

(** [c.red()], [c.green()], [c.blue()]; the invalid colour reads 0, 0, 0. *)
Definition QColor_channels (c : QColor) : list Z :=
  match c with
  | QColor_invalid => [0; 0; 0]
  | QColor_rgb r g b =>
      [Z.of_N (Byte.to_N r); Z.of_N (Byte.to_N g); Z.of_N (Byte.to_N b)]
  end.

(** A palette: the roles that were set; the others keep the platform
    default. *)
Definition QPalette := ColorRole -> option QColor.

Definition QPalette_new : QPalette := fun _ => None.

Definition setColor (pal : QPalette) (role : ColorRole) (c : QColor) : QPalette :=
  fun r => if decide (r = role) then Some c else pal r.

(** [QSvgWidget()] and [QSvgWidget(file)], with the size that
    [setFixedSize] gave it, if any. *)
Record QSvgWidget := {
  svg_file : option string;
  svg_fixedSize : option (Z * Z);
}.

(** [qIcon.pixmap(w, h, QIcon.Normal)]: the icon it was rendered from and
    the size asked for. *)
Record QPixmap := {
  pix_icon : QIcon;
  pix_size : Z * Z;
}.

(** [QFontDatabase]: the font families it knows, and the application font
    files registered with [addApplicationFont], oldest first. *)
Record QFontDatabase := {
  db_families : list string;
  db_appFonts : list string;
}.

(** [db.addApplicationFont(file)]: the id, negative when the file cannot be
    loaded, and the database afterwards. [file_families] tells which
    families a font file provides ([None]: not a loadable font). *)
Definition addApplicationFont (file_families : string -> option (list string))
    (db : QFontDatabase) (file : string) : Z * QFontDatabase :=
  match file_families file with
  | None => (-1, db)
  | Some fams =>
      (Z.of_nat (length (db_appFonts db)),
       {| db_families := db_families db ++ fams;
          db_appFonts := db_appFonts db ++ [file] |})
  end.

(* ===================================================================== *)
(** * The world outside the two classes *)
(* ===================================================================== *)

Inductive LogLevel := VERBOSE | DEBUG | INFO | WARNING | ERROR.

(** A log call: level, format string, and the arguments of [%]. *)
Record LogRecord := {
  log_level : LogLevel;
  log_fmt : string;
  log_args : list string;
}.

Inductive nwAlert := nwAlert_INFO | nwAlert_WARN | nwAlert_ERROR | nwAlert_BUG.

Record World := {
  next_icon : nat;                          (* QIcon objects built so far *)
  log : list LogRecord;                     (* newest first *)
  alerts : list (list string * nwAlert);     (* theParent.makeAlert calls, newest first *)
  app_styleSheet : string;                  (* qApp.setStyleSheet *)
  app_palette : QPalette;                   (* qApp.setPalette *)
}.

Definition M (A : Type) : Type := World -> A * World.

Definition ret {A} (a : A) : M A := fun w => (a, w).
Definition bind {A B} (m : M A) (k : A -> M B) : M B :=
  fun w => let (a, w') := m w in k a w'.

(** A statement of a method that works on the state [S] (the object, or
    one of its attributes): when it raises, the method is left with the
    exception and with the state as it is; otherwise the method goes on. *)
Definition step {S A B} (m : M (Outcome A * S)) (k : S -> M (Outcome B * S))
  : M (Outcome B * S) :=
  bind m (fun r =>
    match r.1 with
    | Raise e => ret (Raise e, r.2)
    | Return _ => k r.2
    end).

(** A statement that works on the attribute [get self] of the object. *)
Definition on_attr {S T A} (get : S -> T) (set : T -> S -> S)
    (m : T -> M (Outcome A * T)) (self : S) : M (Outcome A * S) :=
  bind (m (get self)) (fun r => ret (r.1, set r.2 self)).

Declare Scope py_scope.
Delimit Scope py_scope with py.
Notation "'let*' x := c 'in' k" := (bind c (fun x => k))
  (at level 10, x name, c at level 100, k at level 200) : py_scope.
Notation "'let!' x := c 'in' k" := (step c (fun x => k))
  (at level 10, x name, c at level 100, k at level 200) : py_scope.
Local Open Scope py_scope.

Definition logger (lv : LogLevel) (fmt : string) (args : list string) : M unit :=
  fun w => (tt, {| next_icon := next_icon w;
                   log := {| log_level := lv; log_fmt := fmt; log_args := args |} :: log w;
                   alerts := alerts w;
                   app_styleSheet := app_styleSheet w;
                   app_palette := app_palette w |}).

Definition makeAlert (msg : list string) (lv : nwAlert) : M unit :=
  fun w => (tt, {| next_icon := next_icon w;
                   log := log w;
                   alerts := (msg, lv) :: alerts w;
                   app_styleSheet := app_styleSheet w;
                   app_palette := app_palette w |}).

(** Building a [QIcon]: a fresh object. *)
Definition new_icon (src : IconSource) : M QIcon :=
  fun w => ({| icon_id := next_icon w; icon_src := src |},
            {| next_icon := S (next_icon w);
               log := log w;
               alerts := alerts w;
               app_styleSheet := app_styleSheet w;
               app_palette := app_palette w |}).

Definition qApp_setStyleSheet (css : string) : M unit :=
  fun w => (tt, {| next_icon := next_icon w; log := log w; alerts := alerts w;
                   app_styleSheet := css; app_palette := app_palette w |}).

Definition qApp_setPalette (pal : QPalette) : M unit :=
  fun w => (tt, {| next_icon := next_icon w; log := log w; alerts := alerts w;
                   app_styleSheet := app_styleSheet w; app_palette := pal |}).

Definition qApp_palette : M QPalette := fun w => (app_palette w, w).

(** What the methods read but never write. *)
Record Env := {
  (* nw.CONFIG *)
  conf_assetPath : string;
  conf_themeRoot : string;
  conf_iconPath : string;
  conf_guiTheme : string;
  conf_guiSyntax : string;
  conf_guiIcons : string;
  conf_guiDark : bool;
  (* os, os.path, open *)
  isfile : string -> bool;
  isdir : string -> bool;
  listdir : string -> option (list string);   (* None: os.listdir raises *)
  relpath : string -> string;
  read_text : string -> option string;        (* None: open or read raises *)
  read_conf : string -> ConfigParser.ReadResult;
  (* Qt *)
  hasThemeIcon : string -> bool;              (* QIcon().hasThemeIcon *)
  icon_themeName : string;                    (* QIcon.themeName() *)
  lightnessF : QPalette -> ColorRole -> float; (* pal.<role>().color().lightnessF() *)
}.

(** [s in l] for a list of strings. *)
Definition str_in (s : string) (l : list string) : bool :=
  existsb (String.eqb s) l.

(** A run of assignments [self.<attribute> = read(<name>)], in source
    order, on the record [S] of the attributes. The first [read] that
    raises ends the run; what was assigned before stays assigned. *)
Fixpoint assign_all {S V : Type} (read : string -> M (Outcome V))
    (slots : list (string * (V -> S -> S))) (s : S) : M (Outcome unit * S) :=
  match slots with
  | [] => ret (Return tt, s)
  | (cnfName, set) :: rest =>
      let* r := read cnfName in
      match r with
      | Raise e => ret (Raise e, s)
      | Return v => assign_all read rest (set v s)
      end
  end.

(** The seven metadata attributes that both classes read from [Main]
    ([self.themeName] ... [self.themeLicenseUrl], and the [syntax*] ones). *)
Record ThemeMeta := {
  themeName : string;
  themeDescription : string;
  themeAuthor : string;
  themeCredit : string;
  themeUrl : string;
  themeLicense : string;
  themeLicenseUrl : string;
}.

Definition ThemeMeta_new : ThemeMeta :=
  {| themeName := ""; themeDescription := ""; themeAuthor := "";
     themeCredit := ""; themeUrl := ""; themeLicense := "";
     themeLicenseUrl := "" |}.

(** [_parseLine], the same method in both classes. *)
Definition _parseLine (confParser : ConfigParser.t) (cnfSec cnfName cnfDefault : string)
  : Outcome string :=
  if ConfigParser.has_section confParser cnfSec then
    if ConfigParser.has_option confParser cnfSec cnfName then
      ConfigParser.get confParser cnfSec cnfName
    else Return cnfDefault
  else Return cnfDefault.

(** The assignments under [## Main] of the three loaders. *)
Definition Main_slots : list (string * (string -> ThemeMeta -> ThemeMeta)) :=
  [ ("name", fun v m =>
       {| themeName := v; themeDescription := themeDescription m;
          themeAuthor := themeAuthor m; themeCredit := themeCredit m;
          themeUrl := themeUrl m; themeLicense := themeLicense m;
          themeLicenseUrl := themeLicenseUrl m |});
    ("description", fun v m =>
       {| themeName := themeName m; themeDescription := v;
          themeAuthor := themeAuthor m; themeCredit := themeCredit m;
          themeUrl := themeUrl m; themeLicense := themeLicense m;
          themeLicenseUrl := themeLicenseUrl m |});
    ("author", fun v m =>
       {| themeName := themeName m; themeDescription := themeDescription m;
          themeAuthor := v; themeCredit := themeCredit m;
          themeUrl := themeUrl m; themeLicense := themeLicense m;
          themeLicenseUrl := themeLicenseUrl m |});
    ("credit", fun v m =>
       {| themeName := themeName m; themeDescription := themeDescription m;
          themeAuthor := themeAuthor m; themeCredit := v;
          themeUrl := themeUrl m; themeLicense := themeLicense m;
          themeLicenseUrl := themeLicenseUrl m |});
    ("url", fun v m =>
       {| themeName := themeName m; themeDescription := themeDescription m;
          themeAuthor := themeAuthor m; themeCredit := themeCredit m;
          themeUrl := v; themeLicense := themeLicense m;
          themeLicenseUrl := themeLicenseUrl m |});
    ("license", fun v m =>
       {| themeName := themeName m; themeDescription := themeDescription m;
          themeAuthor := themeAuthor m; themeCredit := themeCredit m;
          themeUrl := themeUrl m; themeLicense := v;
          themeLicenseUrl := themeLicenseUrl m |});
    ("licenseurl", fun v m =>
       {| themeName := themeName m; themeDescription := themeDescription m;
          themeAuthor := themeAuthor m; themeCredit := themeCredit m;
          themeUrl := themeUrl m; themeLicense := themeLicense m;
          themeLicenseUrl := v |}) ].

(** The block under [## Main] of the three loaders. *)
Definition read_Main (confParser : ConfigParser.t) (old : ThemeMeta)
  : M (Outcome unit * ThemeMeta) :=
  let cnfSec := "Main" in
  if ConfigParser.has_section confParser cnfSec then
    assign_all (fun cnfName => ret (_parseLine confParser cnfSec cnfName ""))
               Main_slots old
  else ret (Return tt, old).

(* ===================================================================== *)
(** * class GuiIcons *)
(* ===================================================================== *)

Module GuiIcons.

(** ICON_MAP: key -> (QStyle standard pixmap, freedesktop icon name). *)
Definition ICON_MAP_items : list (string * (option StandardPixmap * option string)) :=
  [ ("cls_none",       (Some SP_DriveHDIcon,         Some "drive-harddisk"));
    ("cls_novel",      (Some SP_DriveHDIcon,         Some "drive-harddisk"));
    ("cls_plot",       (Some SP_DriveHDIcon,         Some "drive-harddisk"));
    ("cls_character",  (Some SP_DriveHDIcon,         Some "drive-harddisk"));
    ("cls_world",      (Some SP_DriveHDIcon,         Some "drive-harddisk"));
    ("cls_timeline",   (Some SP_DriveHDIcon,         Some "drive-harddisk"));
    ("cls_object",     (Some SP_DriveHDIcon,         Some "drive-harddisk"));
    ("cls_entity",     (Some SP_DriveHDIcon,         Some "drive-harddisk"));
    ("cls_custom",     (Some SP_DriveHDIcon,         Some "drive-harddisk"));
    ("cls_trash",      (Some SP_DriveHDIcon,         Some "drive-harddisk"));
    ("proj_document",  (Some SP_FileIcon,            Some "x-office-document"));
    ("proj_folder",    (Some SP_DirIcon,             Some "folder"));
    ("proj_nwx",       (None,                        None));
    ("status_lang",    (None,                        None));
    ("status_time",    (None,                        None));
    ("status_stats",   (None,                        None));
    ("folder-open",    (Some SP_DirOpenIcon,         Some "folder-open"));
    ("delete",         (Some SP_DialogDiscardButton, Some "edit-delete"));
    ("add",            (None,                        Some "list-add"));
    ("remove",         (None,                        Some "list-remove"));
    ("close",          (Some SP_DialogCloseButton,   Some "window-close"));
    ("done",           (Some SP_DialogApplyButton,   None));
    ("search",         (None,                        Some "edit-find"));
    ("search-replace", (None,                        Some "edit-find-replace"));
    ("clear",          (Some SP_LineEditClearButton, Some "clear_left"));
    ("save",           (Some SP_DialogSaveButton,    Some "document-save"));
    ("edit",           (None,                        None));
    ("check",          (None,                        None));
    ("cross",          (None,                        None));
    ("hash",           (None,                        None));
    ("warning",        (Some SP_MessageBoxWarning,   Some "dialog-warning")) ].

Definition ICON_MAP : gmap string (option StandardPixmap * option string) :=
  list_to_map ICON_MAP_items.
#[global] Arguments ICON_MAP : simpl never.

Definition fbackName : string := "fallback".
Definition confName : string := "icons.conf".

Record t := {
  qIcons : gmap string QIcon;
  themeMap : gmap string string;
  themeList : list (string * string);
  iconPath : option string;
  confFile : option string;
  meta : ThemeMeta;
}.

(** The attributes as [__init__] leaves them. *)
Definition init : t :=
  {| qIcons := ∅; themeMap := ∅; themeList := [];
     iconPath := None; confFile := None; meta := ThemeMeta_new |}.

Definition set_qIcons (v : gmap string QIcon) (self : t) : t :=
  {| qIcons := v; themeMap := themeMap self; themeList := themeList self;
     iconPath := iconPath self; confFile := confFile self; meta := meta self |}.

Definition set_themeMap (v : gmap string string) (self : t) : t :=
  {| qIcons := qIcons self; themeMap := v; themeList := themeList self;
     iconPath := iconPath self; confFile := confFile self; meta := meta self |}.

Definition set_paths (ip cf : string) (self : t) : t :=
  {| qIcons := qIcons self; themeMap := themeMap self; themeList := themeList self;
     iconPath := Some ip; confFile := Some cf; meta := meta self |}.

Definition set_meta (v : ThemeMeta) (self : t) : t :=
  {| qIcons := qIcons self; themeMap := themeMap self; themeList := themeList self;
     iconPath := iconPath self; confFile := confFile self; meta := v |}.

(** The loop over [confParser.items("Map")] of [updateTheme]. *)
Fixpoint load_Map (env : Env) (dir : string) (items : list (string * string))
    (tm : gmap string string) : M (gmap string string) :=
  match items with
  | [] => ret tm
  | (iconName, iconFile) :: rest =>
      match ICON_MAP !! iconName with
      | None =>
          let* _ := logger ERROR "Unknown icon name '%s' in config file" [iconName] in
          load_Map env dir rest tm
      | Some _ =>
          let iconPath := Py.join dir iconFile in
          if isfile env iconPath then
            let* _ := logger VERBOSE "Icon slot '%s' using file '%s'" [iconName; iconFile] in
            load_Map env dir rest (<[iconName := iconPath]> tm)
          else
            let* _ := logger ERROR "Icon file '%s' not in theme folder" [iconFile] in
            load_Map env dir rest tm
      end
  end.

(** The block under [cnfSec = "Map"] of [updateTheme]: [items] is
    evaluated before the loop starts; [dir] is [self.iconPath]. *)
Definition load_Map_section (env : Env) (confParser : ConfigParser.t)
    (dir : string) (self : t) : M (Outcome unit * t) :=
  let cnfSec := "Map" in
  if ConfigParser.has_section confParser cnfSec then
    match ConfigParser.items confParser cnfSec with
    | Raise e => ret (Raise e, self)
    | Return l =>
        let* tm := load_Map env dir l (themeMap self) in
        ret (Return tt, set_themeMap tm self)
    end
  else ret (Return tt, self).

Definition updateTheme (env : Env) (self : t) : M (Outcome bool * t) :=
  let* _ := logger DEBUG "Loading icon theme files" [] in
  let self := set_themeMap ∅ self in
  let checkPath := Py.join (conf_iconPath env) (conf_guiIcons env) in
  if isdir env checkPath then
    let* _ := logger DEBUG "Loading icon theme '%s'" [conf_guiIcons env] in
    let cf := Py.join checkPath confName in
    let self := set_paths checkPath cf self in
    let (confParser, exc) :=
      ConfigParser.read_file ConfigParser.empty (read_conf env cf) in
    match exc with
    | Some _ =>
        let* _ := logger ERROR "Could not load icon theme settings from: %s" [cf] in
        ret (Return false, self)
    | None =>
        let! self := on_attr meta set_meta (read_Main confParser) self in
        let! self := load_Map_section env confParser checkPath self in
        let* _ := logger INFO "Loaded icon theme '%s'" [conf_guiIcons env] in
        ret (Return true, self)
    end
  else ret (Return false, self).

(** The last stage of [_loadIcon]: the fallback folder. *)
Definition _loadIcon_fallback (env : Env) (iconKey : string) : M QIcon :=
  let dark := Py.join3 (conf_iconPath env) fbackName (iconKey +:+ "-dark.svg") in
  let light := Py.join3 (conf_iconPath env) fbackName (iconKey +:+ ".svg") in
  if conf_guiDark env && isfile env dark then
    let* _ := logger VERBOSE "Loading icon '%s' from fallback theme" [iconKey] in
    new_icon (FromFile dark)
  else if isfile env light then
    let* _ := logger VERBOSE "Loading icon '%s' from fallback theme" [iconKey] in
    new_icon (FromFile light)
  else
    let* _ := logger WARNING "Did not load an icon for '%s'" [iconKey] in
    new_icon NullIcon.

Definition _loadIcon (env : Env) (self : t) (iconKey : string) : M QIcon :=
  match ICON_MAP !! iconKey with
  | None =>
      let* _ := logger ERROR "Requested unknown icon name '%s'" [iconKey] in
      new_icon NullIcon
  | Some (sp, fd) =>
      match themeMap self !! iconKey with
      | Some f =>
          let* _ := logger VERBOSE "Loading: %s" [relpath env f] in
          new_icon (FromFile f)
      | None =>
          match sp with
          | Some p =>
              let* _ := logger VERBOSE "Loading icon '%s' from Qt QStyle.standardIcon" [iconKey] in
              new_icon (FromStyle p)
          | None =>
              match fd with
              | Some n =>
                  let* _ := logger VERBOSE "Loading icon '%s' from system theme" [iconKey] in
                  if hasThemeIcon env n then new_icon (FromTheme n)
                  else _loadIcon_fallback env iconKey
              | None => _loadIcon_fallback env iconKey
              end
          end
      end
  end.

Definition getIcon (env : Env) (self : t) (iconKey : string) : M (QIcon * t) :=
  match qIcons self !! iconKey with
  | Some q => ret (q, self)
  | None =>
      let* qIcon := _loadIcon env self iconKey in
      ret (qIcon, set_qIcons (<[iconKey := qIcon]> (qIcons self)) self)
  end.

(** ** Further access functions *)

Definition DECO_MAP_items : list (string * (string * string)) :=
  [ ("nwicon", ("icons", "novelwriter.svg")) ].

Definition DECO_MAP : gmap string (string * string) := list_to_map DECO_MAP_items.

(** [str] of a two-element list of strings, as [%s] prints it. *)
Definition str_pair (d : string * string) : string :=
  "['" +:+ d.1 +:+ "', '" +:+ d.2 +:+ "']".

Definition loadDecoration (env : Env) (decoKey : string) (decoSize : option (Z * Z))
  : M QSvgWidget :=
  match DECO_MAP !! decoKey with
  | None =>
      let* _ := logger ERROR "Decoration with name '%s' does not exist" [decoKey] in
      ret {| svg_file := None; svg_fixedSize := None |}
  | Some d =>
      let svgPath := Py.join3 (conf_assetPath env) d.1 d.2 in
      if negb (isfile env svgPath) then
        let* _ := logger ERROR "Decoration file '%s' not in assets folder" [str_pair d] in
        ret {| svg_file := None; svg_fixedSize := None |}
      else
        ret {| svg_file := Some svgPath; svg_fixedSize := decoSize |}
  end.

Definition getPixmap (env : Env) (self : t) (iconKey : string) (iconSize : Z * Z)
  : M (QPixmap * t) :=
  let* r := getIcon env self iconKey in
  ret ({| pix_icon := r.1; pix_size := iconSize |}, r.2).

Definition set_themeList (l : list (string * string)) (self : t) : t :=
  {| qIcons := qIcons self; themeMap := themeMap self; themeList := l;
     iconPath := iconPath self; confFile := confFile self; meta := meta self |}.

(** The [for] loop of [listThemes]; one parser reads every candidate and
    [acc] is [self.themeList]. *)
Fixpoint scan_themes (env : Env) (confParser : ConfigParser.t)
    (dirs : list string) (acc : list (string * string))
  : M (Outcome unit * list (string * string)) :=
  match dirs with
  | [] => ret (Return tt, acc)
  | themeDir :: rest =>
      let themePath := Py.join (conf_iconPath env) themeDir in
      if negb (isdir env themePath) || String.eqb themeDir fbackName then
        scan_themes env confParser rest acc
      else
        let themeConf := Py.join themePath confName in
        let* _ := logger VERBOSE "Checking icon theme config for '%s'" [themeDir] in
        let (confParser', exc) :=
          ConfigParser.read_file confParser (read_conf env themeConf) in
        match exc with
        | Some e =>
            let* _ := makeAlert ["Could not load theme config file."; e] nwAlert_ERROR in
            scan_themes env confParser' rest acc
        | None =>
            if ConfigParser.has_section confParser' "Main"
               && ConfigParser.has_option confParser' "Main" "name" then
              match ConfigParser.get confParser' "Main" "name" with
              | Raise e => ret (Raise e, acc)
              | Return themeName =>
                  let* _ := logger VERBOSE "Theme name is '%s'" [themeName] in
                  if negb (String.eqb themeName "") then
                    scan_themes env confParser' rest (acc ++ [(themeDir, themeName)])
                  else
                    scan_themes env confParser' rest acc
              end
            else scan_themes env confParser' rest acc
        end
  end.

(** [listThemes]. When the loop is left by an exception, [self.themeList]
    holds what was appended before it. *)
Definition listThemes (env : Env) (self : t)
  : M (Outcome (list (string * string)) * t) :=
  match themeList self with
  | _ :: _ => ret (Return (themeList self), self)
  | [] =>
      match listdir env (conf_iconPath env) with
      | None => ret (Raise OSError, self)
      | Some dirs =>
          let! self := on_attr themeList set_themeList
                         (scan_themes env ConfigParser.empty dirs) self in
          let l' := Py.sorted snd (themeList self) in
          ret (Return l', set_themeList l' self)
      end
  end.

End GuiIcons.

(* ===================================================================== *)
(** * class GuiTheme *)
(* ===================================================================== *)

Module GuiTheme.

Definition guiPath : string := "gui".
Definition syntaxPath : string := "syntax".
Definition cssName : string := "style.qss".
Definition confName : string := "theme.conf".

(** The colours of the [GUI] section. *)
Record GuiColours := {
  treeWCount : list Z;
  statNone : list Z;
  statUnsaved : list Z;
  statSaved : list Z;
}.

(** The colours of the [Syntax] section. *)
Record SyntaxColours := {
  colBack : list Z;  colText : list Z;  colLink : list Z;  colHead : list Z;
  colHeadH : list Z; colEmph : list Z;  colDialN : list Z; colDialD : list Z;
  colDialS : list Z; colComm : list Z;  colKey : list Z;   colVal : list Z;
  colSpell : list Z; colTagErr : list Z; colRepTag : list Z; colMod : list Z;
}.

(** The "changeable settings", all assigned together by [updateTheme]. *)
Record Paths := {
  guiTheme : string;
  guiSyntax : string;
  themeRoot : string;
  themePath : string;
  syntaxFile : string;
  confFile : string;
  cssFile : string;
}.

Record t := {
  theIcons : GuiIcons.t;
  guiPalette : QPalette;
  themeList : list (string * string);
  syntaxList : list (string * string);
  themeMeta : ThemeMeta;
  guiCols : GuiColours;
  helpText : list Z;
  syntaxMeta : ThemeMeta;
  syntaxCols : SyntaxColours;
  paths : option Paths;          (* None: the attributes are still None *)
}.

(** The attributes as [__init__] sets them before its first
    [updateTheme] call. *)
Definition init : t :=
  {| theIcons := GuiIcons.init;
     guiPalette := QPalette_new;
     themeList := [];
     syntaxList := [];
     themeMeta := ThemeMeta_new;
     guiCols := {| treeWCount := [0; 0; 0]; statNone := [120; 120; 120];
                   statUnsaved := [120; 120; 40]; statSaved := [40; 120; 0] |};
     helpText := [0; 0; 0];
     syntaxMeta := ThemeMeta_new;
     syntaxCols :=
       {| colBack := [255; 255; 255]; colText := [0; 0; 0]; colLink := [0; 0; 0];
          colHead := [0; 0; 0]; colHeadH := [0; 0; 0]; colEmph := [0; 0; 0];
          colDialN := [0; 0; 0]; colDialD := [0; 0; 0]; colDialS := [0; 0; 0];
          colComm := [0; 0; 0]; colKey := [0; 0; 0]; colVal := [0; 0; 0];
          colSpell := [0; 0; 0]; colTagErr := [0; 0; 0]; colRepTag := [0; 0; 0];
          colMod := [0; 0; 0] |};
     paths := None |}.

Definition set_guiPalette (v : QPalette) (self : t) : t :=
  {| theIcons := theIcons self; guiPalette := v; themeList := themeList self;
     syntaxList := syntaxList self; themeMeta := themeMeta self;
     guiCols := guiCols self; helpText := helpText self;
     syntaxMeta := syntaxMeta self; syntaxCols := syntaxCols self;
     paths := paths self |}.

Definition set_themeMeta (v : ThemeMeta) (self : t) : t :=
  {| theIcons := theIcons self; guiPalette := guiPalette self;
     themeList := themeList self; syntaxList := syntaxList self; themeMeta := v;
     guiCols := guiCols self; helpText := helpText self;
     syntaxMeta := syntaxMeta self; syntaxCols := syntaxCols self;
     paths := paths self |}.

Definition set_guiCols (v : GuiColours) (self : t) : t :=
  {| theIcons := theIcons self; guiPalette := guiPalette self;
     themeList := themeList self; syntaxList := syntaxList self;
     themeMeta := themeMeta self; guiCols := v; helpText := helpText self;
     syntaxMeta := syntaxMeta self; syntaxCols := syntaxCols self;
     paths := paths self |}.

Definition set_syntaxMeta (v : ThemeMeta) (self : t) : t :=
  {| theIcons := theIcons self; guiPalette := guiPalette self;
     themeList := themeList self; syntaxList := syntaxList self;
     themeMeta := themeMeta self; guiCols := guiCols self;
     helpText := helpText self; syntaxMeta := v; syntaxCols := syntaxCols self;
     paths := paths self |}.

Definition set_syntaxCols (v : SyntaxColours) (self : t) : t :=
  {| theIcons := theIcons self; guiPalette := guiPalette self;
     themeList := themeList self; syntaxList := syntaxList self;
     themeMeta := themeMeta self; guiCols := guiCols self;
     helpText := helpText self; syntaxMeta := syntaxMeta self; syntaxCols := v;
     paths := paths self |}.

Definition set_paths (v : Paths) (self : t) : t :=
  {| theIcons := theIcons self; guiPalette := guiPalette self;
     themeList := themeList self; syntaxList := syntaxList self;
     themeMeta := themeMeta self; guiCols := guiCols self;
     helpText := helpText self; syntaxMeta := syntaxMeta self;
     syntaxCols := syntaxCols self; paths := Some v |}.

Definition set_helpText (v : list Z) (self : t) : t :=
  {| theIcons := theIcons self; guiPalette := guiPalette self;
     themeList := themeList self; syntaxList := syntaxList self;
     themeMeta := themeMeta self; guiCols := guiCols self; helpText := v;
     syntaxMeta := syntaxMeta self; syntaxCols := syntaxCols self;
     paths := paths self |}.

Definition set_themeList (v : list (string * string)) (self : t) : t :=
  {| theIcons := theIcons self; guiPalette := guiPalette self; themeList := v;
     syntaxList := syntaxList self; themeMeta := themeMeta self;
     guiCols := guiCols self; helpText := helpText self;
     syntaxMeta := syntaxMeta self; syntaxCols := syntaxCols self;
     paths := paths self |}.

Definition set_syntaxList (v : list (string * string)) (self : t) : t :=
  {| theIcons := theIcons self; guiPalette := guiPalette self;
     themeList := themeList self; syntaxList := v; themeMeta := themeMeta self;
     guiCols := guiCols self; helpText := helpText self;
     syntaxMeta := syntaxMeta self; syntaxCols := syntaxCols self;
     paths := paths self |}.

(** ** Colour entries *)

(** The body of the [try] in [_loadColour] and [_setPalette]:
    [int(inData[0])], [int(inData[1])], [int(inData[2])] in this order;
    [None] when one of them raises ([IndexError] or [ValueError]). *)
Definition read_triple (inData : list string) : option (list Z) :=
  match inData !! 0%nat ≫= Py.int with
  | None => None
  | Some r =>
      match inData !! 1%nat ≫= Py.int with
      | None => None
      | Some g =>
          match inData !! 2%nat ≫= Py.int with
          | None => None
          | Some b => Some [r; g; b]
          end
      end
  end.

(** [_loadColour]: [confParser.get] stands before the [try]. *)
Definition _loadColour (confParser : ConfigParser.t) (cnfSec cnfName : string)
  : M (Outcome (list Z)) :=
  if ConfigParser.has_option confParser cnfSec cnfName then
    match ConfigParser.get confParser cnfSec cnfName with
    | Raise e => ret (Raise e)
    | Return v =>
        let inData := Py.split ","%char v in
        match read_triple inData with
        | Some outData => ret (Return outData)
        | None =>
            let* _ := logger ERROR
              "Could not load theme colours for '%s' from config file" [cnfName] in
            ret (Return [0; 0; 0])
        end
    end
  else
    let* _ := logger WARNING
      "Could not find theme colours for '%s' in config file" [cnfName] in
    ret (Return [0; 0; 0]).

(** [_setPalette] works on [self.guiPalette], passed and returned here.
    [confParser.get] stands before the [try], the call of [QColor] after
    it. *)
Definition _setPalette (confParser : ConfigParser.t) (cnfSec cnfName : string)
    (paletteVal : ColorRole) (pal : QPalette) : M (Outcome unit * QPalette) :=
  if ConfigParser.has_option confParser cnfSec cnfName then
    match ConfigParser.get confParser cnfSec cnfName with
    | Raise e => ret (Raise e, pal)
    | Return v =>
        let inData := Py.split ","%char v in
        match read_triple inData with
        | None =>
            let* _ := logger ERROR
              "Could not load theme colours for '%s' from config file" [cnfName] in
            ret (Return tt, pal)
        | Some [r; g; b] =>
            match QColor_new r g b with
            | Raise e => ret (Raise e, pal)
            | Return c => ret (Return tt, setColor pal paletteVal c)
            end
        | Some _ => ret (Return tt, pal)         (* len(readCol) != 3 *)
        end
    end
  else ret (Return tt, pal).

(** The fourteen [_setPalette] calls of [loadTheme], in source order. *)
Definition palette_entries : list (string * ColorRole) :=
  [ ("window", Window); ("windowtext", WindowText); ("base", Base);
    ("alternatebase", AlternateBase); ("text", Text);
    ("tooltipbase", ToolTipBase); ("tooltiptext", ToolTipText);
    ("button", Button); ("buttontext", ButtonText);
    ("brighttext", BrightText); ("highlight", Highlight);
    ("highlightedtext", HighlightedText); ("link", Link);
    ("linkvisited", LinkVisited) ].

Fixpoint set_palette_entries (confParser : ConfigParser.t) (cnfSec : string)
    (es : list (string * ColorRole)) (pal : QPalette)
  : M (Outcome unit * QPalette) :=
  match es with
  | [] => ret (Return tt, pal)
  | (cnfName, role) :: es' =>
      let! pal := _setPalette confParser cnfSec cnfName role pal in
      set_palette_entries confParser cnfSec es' pal
  end.

(** The assignments under [## GUI] of [loadTheme], in source order. *)
Definition GUI_slots : list (string * (list Z -> GuiColours -> GuiColours)) :=
  [ ("treewordcount", fun c o =>
       {| treeWCount := c; statNone := statNone o; statUnsaved := statUnsaved o;
          statSaved := statSaved o |});
    ("statusnone", fun c o =>
       {| treeWCount := treeWCount o; statNone := c; statUnsaved := statUnsaved o;
          statSaved := statSaved o |});
    ("statusunsaved", fun c o =>
       {| treeWCount := treeWCount o; statNone := statNone o; statUnsaved := c;
          statSaved := statSaved o |});
    ("statussaved", fun c o =>
       {| treeWCount := treeWCount o; statNone := statNone o;
          statUnsaved := statUnsaved o; statSaved := c |}) ].

(** The assignments under [## Syntax] of [loadSyntax], in source order. *)
Definition Syntax_slots : list (string * (list Z -> SyntaxColours -> SyntaxColours)) :=
  [ ("background", fun c o =>
       {| colBack := c; colText := colText o; colLink := colLink o;
          colHead := colHead o; colHeadH := colHeadH o; colEmph := colEmph o;
          colDialN := colDialN o; colDialD := colDialD o; colDialS := colDialS o;
          colComm := colComm o; colKey := colKey o; colVal := colVal o;
          colSpell := colSpell o; colTagErr := colTagErr o;
          colRepTag := colRepTag o; colMod := colMod o |});
    ("text", fun c o =>
       {| colBack := colBack o; colText := c; colLink := colLink o;
          colHead := colHead o; colHeadH := colHeadH o; colEmph := colEmph o;
          colDialN := colDialN o; colDialD := colDialD o; colDialS := colDialS o;
          colComm := colComm o; colKey := colKey o; colVal := colVal o;
          colSpell := colSpell o; colTagErr := colTagErr o;
          colRepTag := colRepTag o; colMod := colMod o |});
    ("link", fun c o =>
       {| colBack := colBack o; colText := colText o; colLink := c;
          colHead := colHead o; colHeadH := colHeadH o; colEmph := colEmph o;
          colDialN := colDialN o; colDialD := colDialD o; colDialS := colDialS o;
          colComm := colComm o; colKey := colKey o; colVal := colVal o;
          colSpell := colSpell o; colTagErr := colTagErr o;
          colRepTag := colRepTag o; colMod := colMod o |});
    ("headertext", fun c o =>
       {| colBack := colBack o; colText := colText o; colLink := colLink o;
          colHead := c; colHeadH := colHeadH o; colEmph := colEmph o;
          colDialN := colDialN o; colDialD := colDialD o; colDialS := colDialS o;
          colComm := colComm o; colKey := colKey o; colVal := colVal o;
          colSpell := colSpell o; colTagErr := colTagErr o;
          colRepTag := colRepTag o; colMod := colMod o |});
    ("headertag", fun c o =>
       {| colBack := colBack o; colText := colText o; colLink := colLink o;
          colHead := colHead o; colHeadH := c; colEmph := colEmph o;
          colDialN := colDialN o; colDialD := colDialD o; colDialS := colDialS o;
          colComm := colComm o; colKey := colKey o; colVal := colVal o;
          colSpell := colSpell o; colTagErr := colTagErr o;
          colRepTag := colRepTag o; colMod := colMod o |});
    ("emphasis", fun c o =>
       {| colBack := colBack o; colText := colText o; colLink := colLink o;
          colHead := colHead o; colHeadH := colHeadH o; colEmph := c;
          colDialN := colDialN o; colDialD := colDialD o; colDialS := colDialS o;
          colComm := colComm o; colKey := colKey o; colVal := colVal o;
          colSpell := colSpell o; colTagErr := colTagErr o;
          colRepTag := colRepTag o; colMod := colMod o |});
    ("straightquotes", fun c o =>
       {| colBack := colBack o; colText := colText o; colLink := colLink o;
          colHead := colHead o; colHeadH := colHeadH o; colEmph := colEmph o;
          colDialN := c; colDialD := colDialD o; colDialS := colDialS o;
          colComm := colComm o; colKey := colKey o; colVal := colVal o;
          colSpell := colSpell o; colTagErr := colTagErr o;
          colRepTag := colRepTag o; colMod := colMod o |});
    ("doublequotes", fun c o =>
       {| colBack := colBack o; colText := colText o; colLink := colLink o;
          colHead := colHead o; colHeadH := colHeadH o; colEmph := colEmph o;
          colDialN := colDialN o; colDialD := c; colDialS := colDialS o;
          colComm := colComm o; colKey := colKey o; colVal := colVal o;
          colSpell := colSpell o; colTagErr := colTagErr o;
          colRepTag := colRepTag o; colMod := colMod o |});
    ("singlequotes", fun c o =>
       {| colBack := colBack o; colText := colText o; colLink := colLink o;
          colHead := colHead o; colHeadH := colHeadH o; colEmph := colEmph o;
          colDialN := colDialN o; colDialD := colDialD o; colDialS := c;
          colComm := colComm o; colKey := colKey o; colVal := colVal o;
          colSpell := colSpell o; colTagErr := colTagErr o;
          colRepTag := colRepTag o; colMod := colMod o |});
    ("hidden", fun c o =>
       {| colBack := colBack o; colText := colText o; colLink := colLink o;
          colHead := colHead o; colHeadH := colHeadH o; colEmph := colEmph o;
          colDialN := colDialN o; colDialD := colDialD o; colDialS := colDialS o;
          colComm := c; colKey := colKey o; colVal := colVal o;
          colSpell := colSpell o; colTagErr := colTagErr o;
          colRepTag := colRepTag o; colMod := colMod o |});
    ("keyword", fun c o =>
       {| colBack := colBack o; colText := colText o; colLink := colLink o;
          colHead := colHead o; colHeadH := colHeadH o; colEmph := colEmph o;
          colDialN := colDialN o; colDialD := colDialD o; colDialS := colDialS o;
          colComm := colComm o; colKey := c; colVal := colVal o;
          colSpell := colSpell o; colTagErr := colTagErr o;
          colRepTag := colRepTag o; colMod := colMod o |});
    ("value", fun c o =>
       {| colBack := colBack o; colText := colText o; colLink := colLink o;
          colHead := colHead o; colHeadH := colHeadH o; colEmph := colEmph o;
          colDialN := colDialN o; colDialD := colDialD o; colDialS := colDialS o;
          colComm := colComm o; colKey := colKey o; colVal := c;
          colSpell := colSpell o; colTagErr := colTagErr o;
          colRepTag := colRepTag o; colMod := colMod o |});
    ("spellcheckline", fun c o =>
       {| colBack := colBack o; colText := colText o; colLink := colLink o;
          colHead := colHead o; colHeadH := colHeadH o; colEmph := colEmph o;
          colDialN := colDialN o; colDialD := colDialD o; colDialS := colDialS o;
          colComm := colComm o; colKey := colKey o; colVal := colVal o;
          colSpell := c; colTagErr := colTagErr o; colRepTag := colRepTag o;
          colMod := colMod o |});
    ("tagerror", fun c o =>
       {| colBack := colBack o; colText := colText o; colLink := colLink o;
          colHead := colHead o; colHeadH := colHeadH o; colEmph := colEmph o;
          colDialN := colDialN o; colDialD := colDialD o; colDialS := colDialS o;
          colComm := colComm o; colKey := colKey o; colVal := colVal o;
          colSpell := colSpell o; colTagErr := c; colRepTag := colRepTag o;
          colMod := colMod o |});
    ("replacetag", fun c o =>
       {| colBack := colBack o; colText := colText o; colLink := colLink o;
          colHead := colHead o; colHeadH := colHeadH o; colEmph := colEmph o;
          colDialN := colDialN o; colDialD := colDialD o; colDialS := colDialS o;
          colComm := colComm o; colKey := colKey o; colVal := colVal o;
          colSpell := colSpell o; colTagErr := colTagErr o; colRepTag := c;
          colMod := colMod o |});
    ("modifier", fun c o =>
       {| colBack := colBack o; colText := colText o; colLink := colLink o;
          colHead := colHead o; colHeadH := colHeadH o; colEmph := colEmph o;
          colDialN := colDialN o; colDialD := colDialD o; colDialS := colDialS o;
          colComm := colComm o; colKey := colKey o; colVal := colVal o;
          colSpell := colSpell o; colTagErr := colTagErr o;
          colRepTag := colRepTag o; colMod := c |}) ].

(** The blocks under [## Palette], [## GUI] and [## Syntax]. *)
Definition load_Palette (confParser : ConfigParser.t) (pal : QPalette)
  : M (Outcome unit * QPalette) :=
  let cnfSec := "Palette" in
  if ConfigParser.has_section confParser cnfSec then
    set_palette_entries confParser cnfSec palette_entries pal
  else ret (Return tt, pal).

Definition load_GUI (confParser : ConfigParser.t) (old : GuiColours)
  : M (Outcome unit * GuiColours) :=
  let cnfSec := "GUI" in
  if ConfigParser.has_section confParser cnfSec then
    assign_all (_loadColour confParser cnfSec) GUI_slots old
  else ret (Return tt, old).

Definition load_Syntax (confParser : ConfigParser.t) (old : SyntaxColours)
  : M (Outcome unit * SyntaxColours) :=
  let cnfSec := "Syntax" in
  if ConfigParser.has_section confParser cnfSec then
    assign_all (_loadColour confParser cnfSec) Syntax_slots old
  else ret (Return tt, old).

(** ** Loaders *)

(** The [try] around the CSS file: [None] when it raises. With the path
    attributes still [None], [path.isfile(None)] raises inside it. *)
Definition read_css (env : Env) (self : t) : option string :=
  match paths self with
  | None => None
  | Some p =>
      if isfile env (cssFile p) then read_text env (cssFile p) else Some ""
  end.

(** The [try] around a config file: the parser, and the exception. *)
Definition read_config (env : Env) (file : option string)
  : ConfigParser.t * option string :=
  match file with
  | None => (ConfigParser.empty, Some "TypeError")
  | Some f => ConfigParser.read_file ConfigParser.empty (read_conf env f)
  end.

Definition loadTheme (env : Env) (self : t) : M (Outcome bool * t) :=
  let* _ := logger DEBUG "Loading theme files" [] in
  let* _ := logger DEBUG "System icon theme is '%s'" [icon_themeName env] in
  match read_css env self with
  | None =>
      let* _ := logger ERROR "Could not load theme css file" [] in
      ret (Return false, self)
  | Some cssData =>
      let cf := confFile <$> paths self in
      let (confParser, exc) := read_config env cf in
      match exc with
      | Some _ =>
          let* _ := logger ERROR "Could not load theme settings from: %s"
                      [default "None" cf] in
          ret (Return false, self)
      | None =>
          let! self := on_attr themeMeta set_themeMeta (read_Main confParser) self in
          let! self := on_attr guiPalette set_guiPalette (load_Palette confParser) self in
          let! self := on_attr guiCols set_guiCols (load_GUI confParser) self in
          let* _ := qApp_setStyleSheet cssData in
          let* _ := qApp_setPalette (guiPalette self) in
          let* _ := logger INFO "Loaded theme '%s'"
                      [default "None" (guiTheme <$> paths self)] in
          ret (Return true, self)
      end
  end.

Definition loadSyntax (env : Env) (self : t) : M (Outcome bool * t) :=
  let sf := syntaxFile <$> paths self in
  let (confParser, exc) := read_config env sf in
  match exc with
  | Some _ =>
      let* _ := logger ERROR "Could not load syntax colours from: %s"
                  [default "None" sf] in
      ret (Return false, self)
  | None =>
      let! self := on_attr syntaxMeta set_syntaxMeta (read_Main confParser) self in
      let! self := on_attr syntaxCols set_syntaxCols (load_Syntax confParser) self in
      let* _ := logger INFO "Loaded syntax theme '%s'"
                  [default "None" (guiSyntax <$> paths self)] in
      ret (Return true, self)
  end.

(** ** The dependent help-text colour *)

Definition helpLCol (backLCol textLCol : float) : float :=
  if (textLCol <? backLCol)%float then
    (textLCol + 0.65 * (backLCol - textLCol))%float
  else
    (backLCol + 0.65 * (textLCol - backLCol))%float.

(** [[int(255*helpLCol)]*3]; [None] when [int] raises. *)
Definition helpText_of (backLCol textLCol : float) : option (list Z) :=
  c ← Py.int_of_float (255 * helpLCol backLCol textLCol)%float;
  Some (replicate 3 c).

(** The seven assignments at the head of [updateTheme]. *)
Definition current_settings (env : Env) : Paths :=
  let root := conf_themeRoot env in
  let tp := Py.join3 root guiPath (conf_guiTheme env) in
  {| guiTheme := conf_guiTheme env;
     guiSyntax := conf_guiSyntax env;
     themeRoot := root;
     themePath := tp;
     syntaxFile := Py.join3 root syntaxPath (conf_guiSyntax env +:+ ".conf");
     confFile := Py.join tp confName;
     cssFile := Py.join tp cssName |}.

(** [updateTheme]: the results of the two loaders are not looked at, their
    exceptions pass through. *)
Definition updateTheme (env : Env) (self : t) : M (Outcome bool * t) :=
  let self := set_paths (current_settings env) self in
  let! self := loadTheme env self in
  let! self := loadSyntax env self in
  let* pal := qApp_palette in
  let backLCol := lightnessF env pal Window in
  let textLCol := lightnessF env pal WindowText in
  match helpText_of backLCol textLCol with
  | Some c => ret (Return true, set_helpText c self)
  | None =>
      ret (Raise (Py.int_of_float_error (255 * helpLCol backLCol textLCol)%float),
           self)
  end.

(** ** Listings *)

(** The name that the (shared) parser holds under [Main] after a read:
    [syntaxName] as the loop body of [listSyntax] computes it. *)
Definition main_name (confParser : ConfigParser.t) : Outcome string :=
  if ConfigParser.has_section confParser "Main" then
    if ConfigParser.has_option confParser "Main" "name" then
      ConfigParser.get confParser "Main" "name"
    else Return ""
  else Return "".

(** The [for] loop of [listThemes]. One parser, created before the loop,
    reads every candidate; [acc] is [self.themeList]. *)
Fixpoint scan_themes (env : Env) (confParser : ConfigParser.t)
    (dirs : list string) (acc : list (string * string))
  : M (Outcome unit * list (string * string)) :=
  match dirs with
  | [] => ret (Return tt, acc)
  | themeDir :: rest =>
      let themeConf := Py.join4 (conf_themeRoot env) guiPath themeDir confName in
      let* _ := logger VERBOSE "Checking theme config for '%s'" [themeDir] in
      let (confParser', exc) :=
        ConfigParser.read_file confParser (read_conf env themeConf) in
      match exc with
      | Some e =>
          let* _ := makeAlert ["Could not load theme config file."; e] nwAlert_ERROR in
          scan_themes env confParser' rest acc
      | None =>
          if ConfigParser.has_section confParser' "Main"
             && ConfigParser.has_option confParser' "Main" "name" then
            match ConfigParser.get confParser' "Main" "name" with
            | Raise e => ret (Raise e, acc)
            | Return themeName =>
                let* _ := logger VERBOSE "Theme name is '%s'" [themeName] in
                if negb (String.eqb themeName "") then
                  scan_themes env confParser' rest (acc ++ [(themeDir, themeName)])
                else
                  scan_themes env confParser' rest acc
            end
          else scan_themes env confParser' rest acc
      end
  end.

(** [listThemes]. When the loop is left by an exception, [self.themeList]
    holds what was appended before it. *)
Definition listThemes (env : Env) (self : t)
  : M (Outcome (list (string * string)) * t) :=
  match themeList self with
  | _ :: _ => ret (Return (themeList self), self)
  | [] =>
      match listdir env (Py.join (conf_themeRoot env) guiPath) with
      | None => ret (Raise OSError, self)
      | Some dirs =>
          let! self := on_attr themeList set_themeList
                         (scan_themes env ConfigParser.empty dirs) self in
          let l' := Py.sorted snd (themeList self) in
          ret (Return l', set_themeList l' self)
      end
  end.

(** The [for] loop of [listSyntax]. The result tells whether the loop was
    left by [return []]; [acc] is [self.syntaxList], which keeps what was
    appended before that, or before an exception. *)
Fixpoint scan_syntax (env : Env) (syntaxDir : string)
    (confParser : ConfigParser.t) (files : list string)
    (acc : list (string * string))
  : M (Outcome bool * list (string * string)) :=
  match files with
  | [] => ret (Return false, acc)
  | syntaxFile :: rest =>
      let syntaxPath := Py.join syntaxDir syntaxFile in
      if negb (isfile env syntaxPath) then
        scan_syntax env syntaxDir confParser rest acc
      else
        let* _ := logger VERBOSE "Checking theme syntax for '%s'" [syntaxFile] in
        let (confParser', exc) :=
          ConfigParser.read_file confParser (read_conf env syntaxPath) in
        match exc with
        | Some e =>
            let* _ := makeAlert ["Could not load syntax file."; e] nwAlert_ERROR in
            ret (Return true, acc)
        | None =>
            match main_name confParser' with
            | Raise e => ret (Raise e, acc)
            | Return syntaxName =>
                if (5 <? String.length syntaxFile)%nat
                   && negb (String.eqb syntaxName "")
                then
                  let acc' := (acc ++ [(Py.drop_last 5 syntaxFile, syntaxName)])%list in
                  let* _ := logger VERBOSE "Syntax name is '%s'" [syntaxName] in
                  scan_syntax env syntaxDir confParser' rest acc'
                else
                  scan_syntax env syntaxDir confParser' rest acc
            end
        end
  end.

Definition listSyntax (env : Env) (self : t)
  : M (Outcome (list (string * string)) * t) :=
  match syntaxList self with
  | _ :: _ => ret (Return (syntaxList self), self)
  | [] =>
      let syntaxDir := Py.join (conf_themeRoot env) syntaxPath in
      match listdir env syntaxDir with
      | None => ret (Raise OSError, self)
      | Some files =>
          let* r := on_attr syntaxList set_syntaxList
                      (scan_syntax env syntaxDir ConfigParser.empty files) self in
          match r.1 with
          | Raise e => ret (Raise e, r.2)
          | Return true => ret (Return [], r.2)
          | Return false =>
              let l' := Py.sorted snd (syntaxList r.2) in
              ret (Return l', set_syntaxList l' r.2)
          end
      end
  end.

(** ** Fonts *)

Definition fontPath : string := "fonts".

(** The inner loop of [loadFonts] over the files of one family folder;
    [ttfList] is passed and returned. *)
Fixpoint collect_ttf (env : Env) (fontDir : string) (files : list string)
    (ttfList : list string) : list string :=
  match files with
  | [] => ttfList
  | fontFile :: rest =>
      let ttfFile := Py.join fontDir fontFile in
      if isfile env ttfFile && Py.endswith fontFile ".ttf" then
        collect_ttf env fontDir rest (ttfList ++ [ttfFile])
      else collect_ttf env fontDir rest ttfList
  end.

(** The outer loop over the family folders; [None] when [os.listdir]
    raises on a family folder. *)
Fixpoint collect_families (env : Env) (families : list string)
    (fontAssets : string) (fams : list string) (ttfList : list string)
  : option (list string) :=
  match fams with
  | [] => Some ttfList
  | fontFam :: rest =>
      let fontDir := Py.join fontAssets fontFam in
      if isdir env fontDir then
        if negb (str_in fontFam families) then
          match listdir env fontDir with
          | None => None
          | Some files =>
              collect_families env families fontAssets rest
                (collect_ttf env fontDir files ttfList)
          end
        else collect_families env families fontAssets rest ttfList
      else collect_families env families fontAssets rest ttfList
  end.

(** The second loop of [loadFonts]: register every collected file. *)
Fixpoint add_fonts (env : Env) (file_families : string -> option (list string))
    (ttfList : list string) (db : QFontDatabase) : M QFontDatabase :=
  match ttfList with
  | [] => ret db
  | ttfFile :: rest =>
      let* _ := logger VERBOSE "Font asset: %s" [relpath env ttfFile] in
      let (fontID, db') := addApplicationFont file_families db ttfFile in
      let* _ :=
        if fontID <? 0 then logger ERROR "Failed to add font: %s" [relpath env ttfFile]
        else ret tt in
      add_fonts env file_families rest db'
  end.

(** [loadFonts], on [self.guiFontDB]; [None] is the exception of
    [os.listdir]. *)
Definition loadFonts (env : Env) (file_families : string -> option (list string))
    (guiFontDB : QFontDatabase) : M (option QFontDatabase) :=
  let fontAssets := Py.join (conf_assetPath env) fontPath in
  match listdir env fontAssets with
  | None => ret None
  | Some fams =>
      match collect_families env (db_families guiFontDB) fontAssets fams [] with
      | None => ret None
      | Some ttfList =>
          let* db := add_fonts env file_families ttfList guiFontDB in
          ret (Some db)
      end
  end.

End GuiTheme.

(* ===================================================================== *)
(** * Specification-side definitions *)
(* ===================================================================== *)

(** ** Sequences of calls on the icon cache *)

(** A run of [getIcon] calls, each with the environment of its moment. *)
Fixpoint getIcons (calls : list (Env * string)) (self : GuiIcons.t) (w : World)
  : GuiIcons.t * World :=
  match calls with
  | [] => (self, w)
  | (env, key) :: rest =>
      let r := GuiIcons.getIcon env self key w in
      getIcons rest r.1.2 r.2
  end.

(** The states of a [GuiIcons] object that [getIcon] and [updateTheme]
    calls can lead to from [__init__]. *)
Inductive reachable : GuiIcons.t -> Prop :=
| reach_init : reachable GuiIcons.init
| reach_getIcon env self key w :
    reachable self -> reachable (GuiIcons.getIcon env self key w).1.2
| reach_updateTheme env self w :
    reachable self -> reachable (GuiIcons.updateTheme env self w).1.2.

(** What the cache holds for keys outside ICON_MAP: empty icons only. *)
Definition unknown_keys_null (self : GuiIcons.t) : Prop :=
  ∀ key q, GuiIcons.ICON_MAP !! key = None ->
           GuiIcons.qIcons self !! key = Some q -> icon_src q = NullIcon.

(** ** The resolution order, as the specification words it *)

Inductive Resolution :=
| Cached (q : QIcon)          (* the handle already in the cache *)
| Load (src : IconSource).    (* a new handle with this source *)

Fixpoint first_match {A : Type} (tiers : list (option A)) : option A :=
  match tiers with
  | [] => None
  | Some a :: _ => Some a
  | None :: rest => first_match rest
  end.

Definition fallback_file (env : Env) (key suffix : string) : string :=
  Py.join3 (conf_iconPath env) GuiIcons.fbackName (key +:+ suffix).

Definition spec_tiers (env : Env) (self : GuiIcons.t) (key : string)
    (hints : option StandardPixmap * option string) : list (option Resolution) :=
  [ (* 1. cache hit *)
    Cached <$> GuiIcons.qIcons self !! key;
    (* 2. theme map *)
    (fun f => Load (FromFile f)) <$> GuiIcons.themeMap self !! key;
    (* 3. platform standard icon, when declared *)
    (fun sp => Load (FromStyle sp)) <$> hints.1;
    (* 4. platform icon theme, when declared and present *)
    hints.2 ≫= (fun n => if hasThemeIcon env n then Some (Load (FromTheme n)) else None);
    (* 5. bundled fallback: the dark file in dark mode, then the light file *)
    (if conf_guiDark env && isfile env (fallback_file env key "-dark.svg")
     then Some (Load (FromFile (fallback_file env key "-dark.svg"))) else None);
    (if isfile env (fallback_file env key ".svg")
     then Some (Load (FromFile (fallback_file env key ".svg"))) else None);
    (* 6. give up *)
    Some (Load NullIcon) ].

Definition spec_resolveIcon (env : Env) (self : GuiIcons.t) (key : string)
    (hints : option StandardPixmap * option string) : option Resolution :=
  first_match (spec_tiers env self key hints).

(** A handle [q] returned in world [w] realises a resolution. *)
Definition realises (w : World) (q : QIcon) (r : option Resolution) : Prop :=
  match r with
  | Some (Cached c) => q = c
  | Some (Load src) => q = {| icon_id := next_icon w; icon_src := src |}
  | None => False
  end.

(** ** Colour values *)

Definition is_int (s : string) : bool :=
  match Py.int s with Some _ => true | None => false end.

(** A value that is not three comma-separated integers: a component that
    is not an integer, or a number of components other than three. *)
Definition malformed (v : string) : bool :=
  let parts := Py.split ","%char v in
  negb (length parts =? 3)%nat || negb (forallb is_int parts).

(** A value with fewer than three components, or with a first, second or
    third component that is not an integer. *)
Definition unreadable (v : string) : bool :=
  let parts := Py.split ","%char v in
  (length parts <? 3)%nat || negb (forallb is_int (take 3 parts)).

(** The colour that a value writes: its first three comma-separated
    components, when there are three and [int()] reads each of them. *)
Definition written_triple (v : string) : option (list Z) :=
  match Py.split ","%char v with
  | x :: y :: z :: _ =>
      match Py.int x, Py.int y, Py.int z with
      | Some r, Some g, Some b => Some [r; g; b]
      | _, _, _ => None
      end
  | _ => None
  end.

(** An entry of the config is stored as the list [c] by a load: the
    colour that its value writes, and [0,0,0] when the option is missing or
    its value writes none. *)
Definition stored_as (confParser : ConfigParser.t) (cnfSec cnfName : string)
    (c : list Z) : Prop :=
  if ConfigParser.has_option confParser cnfSec cnfName then
    exists v, ConfigParser.get confParser cnfSec cnfName = Return v /\
              c = default [0; 0; 0] (written_triple v)
  else c = [0; 0; 0].

(** A load can read the option: it is absent, or [get] returns its
    value. *)
Definition option_ok (confParser : ConfigParser.t) (cnfSec cnfName : string) : Prop :=
  ConfigParser.has_option confParser cnfSec cnfName = true ->
  is_Return (ConfigParser.get confParser cnfSec cnfName).

(** A load can read the options of a section, if the config has it. *)
Definition section_ok (confParser : ConfigParser.t) (cnfSec : string)
    (names : list string) : Prop :=
  ConfigParser.has_section confParser cnfSec = true ->
  forall n, n ∈ names -> option_ok confParser cnfSec n.

(** A load can read a palette entry and build its colour: the entry is
    absent, or [get] returns its value and the channels that the value
    writes fit a C [int]. *)
Definition palette_ok (confParser : ConfigParser.t) (cnfName : string) : Prop :=
  ConfigParser.has_option confParser "Palette" cnfName = true ->
  exists v,
    ConfigParser.get confParser "Palette" cnfName = Return v /\
    forall r g b, written_triple v = Some [r; g; b] ->
                  c_int r && c_int g && c_int b = true.

(** An entry that is missing, that [get] cannot give, or whose value
    cannot be read as a colour: [_setPalette] sets no colour for it. *)
Definition sets_no_colour (confParser : ConfigParser.t) (cnfSec cnfName : string)
  : Prop :=
  ConfigParser.has_option confParser cnfSec cnfName = false \/
  (exists e, ConfigParser.get confParser cnfSec cnfName = Raise e) \/
  (exists v, ConfigParser.get confParser cnfSec cnfName = Return v /\
             unreadable v = true).

Definition is_triple (c : list Z) : Prop := length c = 3%nat.

Definition is_rgb (c : list Z) : Prop :=
  length c = 3%nat /\ Forall (fun x => 0 <= x <= 255) c.

(** Every colour list that a [GuiTheme] object holds. *)
Definition gui_list (g : GuiTheme.GuiColours) : list (list Z) :=
  [ GuiTheme.treeWCount g; GuiTheme.statNone g; GuiTheme.statUnsaved g;
    GuiTheme.statSaved g ].

Definition syntax_list (c : GuiTheme.SyntaxColours) : list (list Z) :=
  [ GuiTheme.colBack c; GuiTheme.colText c; GuiTheme.colLink c;
    GuiTheme.colHead c; GuiTheme.colHeadH c; GuiTheme.colEmph c;
    GuiTheme.colDialN c; GuiTheme.colDialD c; GuiTheme.colDialS c;
    GuiTheme.colComm c; GuiTheme.colKey c; GuiTheme.colVal c;
    GuiTheme.colSpell c; GuiTheme.colTagErr c; GuiTheme.colRepTag c;
    GuiTheme.colMod c ].

Definition held_triples (self : GuiTheme.t) : list (list Z) :=
  gui_list (GuiTheme.guiCols self)
  ++ GuiTheme.helpText self :: syntax_list (GuiTheme.syntaxCols self).

(** Every colour that an object holds, the palette colours by their
    channels, has property [P]. *)
Definition all_triples (P : list Z -> Prop) (self : GuiTheme.t) : Prop :=
  Forall P (held_triples self) /\
  forall role c, GuiTheme.guiPalette self role = Some c -> P (QColor_channels c).

(** ** The help-text grey *)

(** Neither lightness is a NaN: [>] and [<=] are then complementary. *)
Definition ordered (Lb Lt : float) : Prop :=
  (Lt <? Lb)%float = negb (Lb <=? Lt)%float.

(** "Lb + 0.65*(Lt - Lb) if Lb <= Lt, else Lt + 0.65*(Lb - Lt)" *)
Definition spec_helpLum (Lb Lt : float) : float :=
  if (Lb <=? Lt)%float then (Lb + 0.65 * (Lt - Lb))%float
  else (Lt + 0.65 * (Lb - Lt))%float.

(** ** Listings *)

(** The order of a listing: ascending by the key, here the display name. *)
Definition by_key {A : Type} (key : A -> string) (a b : A) : Prop :=
  String.leb (key a) (key b) = true.

(** What the loop of [listThemes] reads for a candidate, and the parser it
    holds after a run of candidates. *)
Definition theme_conf (env : Env) (themeDir : string) : ConfigParser.ReadResult :=
  read_conf env
    (Py.join4 (conf_themeRoot env) GuiTheme.guiPath themeDir GuiTheme.confName).

Definition syntax_dir (env : Env) : string :=
  Py.join (conf_themeRoot env) GuiTheme.syntaxPath.


(** ** Icon objects *)

(** The states and worlds that calls on a [GuiIcons] object lead to, with
    other code building icons or logging in between. *)
Inductive icon_run : GuiIcons.t -> World -> Prop :=
| run_init w : icon_run GuiIcons.init w
| run_getIcon env self key w :
    icon_run self w ->
    icon_run (GuiIcons.getIcon env self key w).1.2 (GuiIcons.getIcon env self key w).2
| run_getPixmap env self key size w :
    icon_run self w ->
    icon_run (GuiIcons.getPixmap env self key size w).1.2
             (GuiIcons.getPixmap env self key size w).2
| run_updateTheme env self w :
    icon_run self w ->
    icon_run (GuiIcons.updateTheme env self w).1.2 (GuiIcons.updateTheme env self w).2
| run_elsewhere self w w' :
    icon_run self w -> (next_icon w <= next_icon w')%nat -> icon_run self w'.

Definition ids_below (self : GuiIcons.t) (w : World) : Prop :=
  forall key q, GuiIcons.qIcons self !! key = Some q -> (icon_id q < next_icon w)%nat.

Definition ids_distinct (self : GuiIcons.t) : Prop :=
  forall k1 k2 q1 q2,
    GuiIcons.qIcons self !! k1 = Some q1 -> GuiIcons.qIcons self !! k2 = Some q2 ->
    k1 <> k2 -> icon_id q1 <> icon_id q2.

(** ** Config values *)

(** The value of an option, if the parser holds one. *)
Definition conf_lookup (p : ConfigParser.t) (sec opt : string) : option string :=
  ConfigParser.assoc sec (ConfigParser.sections p) ≫= ConfigParser.assoc opt.

(** The display name that a config file gives on its own, read by a new
    parser. *)
Definition own_name (r : ConfigParser.ReadResult) : option string :=
  conf_lookup (ConfigParser.read_file ConfigParser.empty r).1 "Main" "name".

Definition last_value (opt : string) (os : ConfigParser.Options) : option string :=
  foldl (fun r kv => if String.eqb opt kv.1 then Some kv.2 else r) None os.

(** The option names of the [Main], [GUI] and [Syntax] sections, the last
    two in the order of [gui_list] and [syntax_list]. *)
Definition meta_names : list string :=
  ["name"; "description"; "author"; "credit"; "url"; "license"; "licenseurl"].

Definition palette_names : list string :=
  ["window"; "windowtext"; "base"; "alternatebase"; "text"; "tooltipbase";
   "tooltiptext"; "button"; "buttontext"; "brighttext"; "highlight";
   "highlightedtext"; "link"; "linkvisited"].

Definition gui_names : list string :=
  ["treewordcount"; "statusnone"; "statusunsaved"; "statussaved"].

Definition syntax_names : list string :=
  ["background"; "text"; "link"; "headertext"; "headertag"; "emphasis";
   "straightquotes"; "doublequotes"; "singlequotes"; "hidden"; "keyword";
   "value"; "spellcheckline"; "tagerror"; "replacetag"; "modifier"].

(** The parser that a loader holds after reading its file. *)
Definition theme_parser (env : Env) (self : GuiTheme.t) : ConfigParser.t :=
  (GuiTheme.read_config env (GuiTheme.confFile <$> GuiTheme.paths self)).1.

Definition syntax_parser (env : Env) (self : GuiTheme.t) : ConfigParser.t :=
  (GuiTheme.read_config env (GuiTheme.syntaxFile <$> GuiTheme.paths self)).1.

Definition icons_parser (env : Env) : ConfigParser.t :=
  (ConfigParser.read_file ConfigParser.empty
     (read_conf env (Py.join (Py.join (conf_iconPath env) (conf_guiIcons env))
                       GuiIcons.confName))).1.

(** ** Outcomes without the log *)

(** The outcome and the attributes of a run of assignments, when the
    outcome of [read] does not depend on the world. *)
Fixpoint assigned {S V : Type} (value : string -> Outcome V)
    (slots : list (string * (V -> S -> S))) (s : S) : Outcome unit * S :=
  match slots with
  | [] => (Return tt, s)
  | (cnfName, set) :: rest =>
      match value cnfName with
      | Raise e => (Raise e, s)
      | Return v => assigned value rest (set v s)
      end
  end.

(** What [_loadColour] returns. *)
Definition colour_value (confParser : ConfigParser.t) (cnfSec cnfName : string)
  : Outcome (list Z) :=
  if ConfigParser.has_option confParser cnfSec cnfName then
    match ConfigParser.get confParser cnfSec cnfName with
    | Raise e => Raise e
    | Return v =>
        Return (default [0; 0; 0] (GuiTheme.read_triple (Py.split ","%char v)))
    end
  else Return [0; 0; 0].

(** The colour that [_setPalette] gives to the role, if it sets it. *)
Definition palette_value (confParser : ConfigParser.t) (cnfSec cnfName : string)
  : Outcome (option QColor) :=
  if ConfigParser.has_option confParser cnfSec cnfName then
    match ConfigParser.get confParser cnfSec cnfName with
    | Raise e => Raise e
    | Return v =>
        match GuiTheme.read_triple (Py.split ","%char v) with
        | Some [r; g; b] =>
            match QColor_new r g b with
            | Raise e => Raise e
            | Return c => Return (Some c)
            end
        | _ => Return None
        end
    end
  else Return None.

(** The palette after a run of [_setPalette] calls. *)
Fixpoint palette_after (confParser : ConfigParser.t) (cnfSec : string)
    (es : list (string * ColorRole)) (pal : QPalette) : Outcome unit * QPalette :=
  match es with
  | [] => (Return tt, pal)
  | (cnfName, role) :: es' =>
      match palette_value confParser cnfSec cnfName with
      | Raise e => (Raise e, pal)
      | Return None => palette_after confParser cnfSec es' pal
      | Return (Some c) => palette_after confParser cnfSec es' (setColor pal role c)
      end
  end.

(** The attribute and the outcome of the blocks under [## Main],
    [## Palette], [## GUI] and [## Syntax]. *)
Definition Main_after (confParser : ConfigParser.t) (old : ThemeMeta)
  : Outcome unit * ThemeMeta :=
  if ConfigParser.has_section confParser "Main" then
    assigned (fun cnfName => _parseLine confParser "Main" cnfName "") Main_slots old
  else (Return tt, old).

Definition Palette_after (confParser : ConfigParser.t) (pal : QPalette)
  : Outcome unit * QPalette :=
  if ConfigParser.has_section confParser "Palette" then
    palette_after confParser "Palette" GuiTheme.palette_entries pal
  else (Return tt, pal).

Definition GUI_after (confParser : ConfigParser.t) (old : GuiTheme.GuiColours)
  : Outcome unit * GuiTheme.GuiColours :=
  if ConfigParser.has_section confParser "GUI" then
    assigned (colour_value confParser "GUI") GuiTheme.GUI_slots old
  else (Return tt, old).

Definition Syntax_after (confParser : ConfigParser.t) (old : GuiTheme.SyntaxColours)
  : Outcome unit * GuiTheme.SyntaxColours :=
  if ConfigParser.has_section confParser "Syntax" then
    assigned (colour_value confParser "Syntax") GuiTheme.Syntax_slots old
  else (Return tt, old).

(** A world that differs from another by log lines only. *)
Definition logged (w w' : World) : Prop :=
  next_icon w' = next_icon w /\ alerts w' = alerts w /\
  app_styleSheet w' = app_styleSheet w /\ app_palette w' = app_palette w.

(** ** Fonts *)

(** A font file that [loadFonts] picks up: a regular file named [*.ttf] in
    a folder of the fonts folder whose name is not a family that the
    database knows. *)
Definition font_asset (env : Env) (known : list string) (fams : list string)
    (f : string) : Prop :=
  exists fam files file,
    fam ∈ fams /\
    isdir env (Py.join (Py.join (conf_assetPath env) GuiTheme.fontPath) fam) = true /\
    str_in fam known = false /\
    listdir env (Py.join (Py.join (conf_assetPath env) GuiTheme.fontPath) fam) = Some files /\
    file ∈ files /\
    isfile env (Py.join (Py.join (Py.join (conf_assetPath env) GuiTheme.fontPath) fam) file)
      = true /\
    Py.endswith file ".ttf" = true /\
    f = Py.join (Py.join (Py.join (conf_assetPath env) GuiTheme.fontPath) fam) file.

(* ===================================================================== *)
(** * Concrete installations used in the examples *)
(* ===================================================================== *)

Module Fixture.

Definition mem (s : string) (l : list string) : bool := existsb (String.eqb s) l.

Definition no_file : ConfigParser.ReadResult :=
  {| ConfigParser.rr_content := [];
     ConfigParser.rr_error := Some "[Errno 2] No such file or directory" |}.

Definition parsed (c : list (string * ConfigParser.Options))
  : ConfigParser.ReadResult :=
  {| ConfigParser.rr_content := c; ConfigParser.rr_error := None |}.

(** The parser after it has read a file of this content. *)
Definition parser_of (c : list (string * ConfigParser.Options)) : ConfigParser.t :=
  ConfigParser.merge ConfigParser.empty c.

(** An installation under /nw: regular files, directories, directory
    listings, config files, the icon names of the platform theme, and the
    lightness of the window and window-text colours. *)
Definition mkEnv (dark : bool) (files dirs : list string)
    (listing : list (string * list string))
    (confs : list (string * ConfigParser.ReadResult))
    (platform_icons : list string) (backL textL : float) : Env :=
  {| conf_assetPath := "/nw/assets";
     conf_themeRoot := "/nw/themes";
     conf_iconPath := "/nw/icons";
     conf_guiTheme := "default";
     conf_guiSyntax := "light";
     conf_guiIcons := "typicons";
     conf_guiDark := dark;
     isfile := fun p => mem p files || mem p (map fst confs);
     isdir := fun p => mem p dirs;
     listdir := fun p => ConfigParser.assoc p listing;
     relpath := fun p => p;
     read_text := fun p => if mem p files then Some "" else None;
     read_conf := fun p => default no_file (ConfigParser.assoc p confs);
     hasThemeIcon := fun n => mem n platform_icons;
     icon_themeName := "hicolor";
     lightnessF := fun _ role =>
       match role with Window => backL | _ => textL end |}.

Definition w0 : World :=
  {| next_icon := 0; log := []; alerts := [];
     app_styleSheet := ""; app_palette := QPalette_new |}.

(** No icon theme installed; only two bundled fallback files. *)
Definition env_bare : Env :=
  mkEnv false ["/nw/icons/fallback/add.svg"; "/nw/icons/fallback/save.svg"]
        [] [] [] [] 0.9 0.1.

(** The icon theme "typicons" maps [add] and [save] to its own files,
    names one unknown key and one missing file, and maps [check] to a file
    outside its folder. *)
Definition icons_conf : list (string * ConfigParser.Options) :=
  [ ("Main", [("name", "Typicons"); ("author", "N. N.")]);
    ("Map", [("add", "plus.svg"); ("save", "disk.svg");
             ("bogus", "plus.svg"); ("edit", "missing.svg");
             ("check", "/nw/elsewhere/check.svg")]) ].

Definition env_typicons : Env :=
  mkEnv false
        ["/nw/icons/fallback/add.svg"; "/nw/icons/fallback/save.svg";
         "/nw/icons/typicons/plus.svg"; "/nw/icons/typicons/disk.svg";
         "/nw/elsewhere/check.svg"]
        ["/nw/icons/typicons"] []
        [("/nw/icons/typicons/icons.conf", parsed icons_conf)]
        [] 0.9 0.1.

(** The same installation after the theme folder was removed. *)
Definition env_removed : Env :=
  mkEnv false ["/nw/icons/fallback/add.svg"] [] [] [] [] 0.9 0.1.

(** A GUI theme and a syntax theme. The palette entry [window] and the
    colour [statusnone] are not colour triples; [statussaved] has a
    fourth component; [treewordcount] and the palette entry [base] have a
    channel above 255. *)
Definition theme_conf_default : list (string * ConfigParser.Options) :=
  [ ("Main", [("name", "Default"); ("license", "CC BY-SA 4.0")]);
    ("Palette", [("window", "abc"); ("windowtext", "10,20,30");
                 ("base", "300,0,0")]);
    ("GUI", [("treewordcount", "300,0,0"); ("statusnone", "12,x,3");
             ("statusunsaved", "1,2"); ("statussaved", "1,2,3,4")]) ].

Definition syntax_conf_light : list (string * ConfigParser.Options) :=
  [ ("Main", [("name", "Light")]);
    ("Syntax", [("background", "255,255,255"); ("text", "0,0,-5")]) ].

Definition env_theme : Env :=
  mkEnv false ["/nw/themes/gui/default/style.qss"] [] []
        [("/nw/themes/gui/default/theme.conf", parsed theme_conf_default);
         ("/nw/themes/syntax/light.conf", parsed syntax_conf_light)]
        [] 0.9 0.1.

(** A theme whose colour [statusnone] has a stray [%]. *)
Definition env_percent : Env :=
  mkEnv false ["/nw/themes/gui/default/style.qss"] [] []
        [("/nw/themes/gui/default/theme.conf",
          parsed [("Palette", [("window", "10,20,30")]);
                  ("GUI", [("treewordcount", "1,2,3"); ("statusnone", "50%,0,0")])])]
        [] 0.9 0.1.

(** The state in which [updateTheme] calls the two loaders. *)
Definition theme_paths : GuiTheme.Paths :=
  {| GuiTheme.guiTheme := "default";
     GuiTheme.guiSyntax := "light";
     GuiTheme.themeRoot := "/nw/themes";
     GuiTheme.themePath := "/nw/themes/gui/default";
     GuiTheme.syntaxFile := "/nw/themes/syntax/light.conf";
     GuiTheme.confFile := "/nw/themes/gui/default/theme.conf";
     GuiTheme.cssFile := "/nw/themes/gui/default/style.qss" |}.

Definition theme0 : GuiTheme.t := GuiTheme.set_paths theme_paths GuiTheme.init.

(** Three GUI themes; the second has no [name] under [Main]. *)
Definition conf_named (n : string) : ConfigParser.ReadResult :=
  parsed [("Main", [("name", n)])].

Definition conf_nameless : ConfigParser.ReadResult :=
  parsed [("Main", [("author", "N. N.")])].

Definition three_themes (order : list string) : Env :=
  mkEnv false [] [] [("/nw/themes/gui", order)]
        [("/nw/themes/gui/a/theme.conf", conf_named "Alpha");
         ("/nw/themes/gui/b/theme.conf", conf_nameless);
         ("/nw/themes/gui/c/theme.conf", conf_named "Gamma")]
        [] 0.9 0.1.



(** The icon object after a successful [updateTheme]. *)
Definition icons1 : GuiIcons.t :=
  (GuiIcons.updateTheme env_typicons GuiIcons.init w0).1.2.

(** Themes whose only colour values are triples within 0..255. *)
Definition env_rgb : Env :=
  mkEnv false ["/nw/themes/gui/default/style.qss"] [] []
        [("/nw/themes/gui/default/theme.conf",
          parsed [("GUI", [("statusnone", "1,2,3")])]);
         ("/nw/themes/syntax/light.conf",
          parsed [("Syntax", [("text", "10,20,30")])])]
        [] 0.9 0.1.

(** Dark mode, with both fallback files of [add] in place, or only the
    light one. *)
Definition env_dark : Env :=
  mkEnv true ["/nw/icons/fallback/add-dark.svg"; "/nw/icons/fallback/add.svg"]
        [] [] [] [] 0.1 0.9.

Definition env_dark_light_only : Env :=
  mkEnv true ["/nw/icons/fallback/add.svg"] [] [] [] [] 0.1 0.9.

(** A theme with neither style sheet nor colour sections, and a world in
    which an earlier theme has set a style sheet. *)
Definition env_bare_theme : Env :=
  mkEnv false [] [] []
        [("/nw/themes/gui/default/theme.conf", parsed [("Palette", [])]);
         ("/nw/themes/syntax/light.conf", parsed [("Other", [])])]
        [] 0.9 0.1.

Definition w1 : World :=
  {| next_icon := 0; log := []; alerts := [];
     app_styleSheet := "QWidget {color: red;}"; app_palette := QPalette_new |}.

(** Two icons resolved one after the other. *)
Definition two_icons : GuiIcons.t * World :=
  let r := GuiIcons.getIcon env_bare GuiIcons.init "add" w0 in
  let r' := GuiIcons.getIcon env_bare r.1.2 "save" r.2 in (r'.1.2, r'.2).

(** The icons folder: the fallback folder, a file and one theme. *)
Definition env_icon_list : Env :=
  mkEnv false [] ["/nw/icons/fallback"; "/nw/icons/typicons"]
        [("/nw/icons", ["fallback"; "README.md"; "typicons"])]
        [("/nw/icons/fallback/icons.conf", conf_named "Fallback");
         ("/nw/icons/typicons/icons.conf", parsed icons_conf)]
        [] 0.9 0.1.

(** An icon theme whose config has a [Map] section only. *)
Definition env_icons_nomain : Env :=
  mkEnv false ["/nw/icons/typicons/plus.svg"] ["/nw/icons/typicons"] []
        [("/nw/icons/typicons/icons.conf", parsed [("Map", [("add", "plus.svg")])])]
        [] 0.9 0.1.

(** The syntax folder: two schemes and a file with a five-letter name. *)
Definition env_syntax : Env :=
  mkEnv false [] [] [("/nw/themes/syntax", ["light.conf"; "notes"; "dark.conf"])]
        [("/nw/themes/syntax/light.conf", conf_named "Light");
         ("/nw/themes/syntax/notes", conf_named "Notes");
         ("/nw/themes/syntax/dark.conf", conf_named "Dark")]
        [] 0.9 0.1.

(** The fonts folder: one new family with a font, a broken font and a
    licence file, one family that the database knows, and a stray file. *)
Definition env_fonts : Env :=
  mkEnv false
        ["/nw/assets/fonts/Cantarell/Cantarell-Regular.ttf";
         "/nw/assets/fonts/Cantarell/broken.ttf";
         "/nw/assets/fonts/Cantarell/LICENSE";
         "/nw/assets/fonts/Known/Known.ttf"; "/nw/assets/fonts/notes.txt"]
        ["/nw/assets/fonts/Cantarell"; "/nw/assets/fonts/Known"]
        [("/nw/assets/fonts", ["Cantarell"; "Known"; "notes.txt"]);
         ("/nw/assets/fonts/Cantarell", ["Cantarell-Regular.ttf"; "broken.ttf"; "LICENSE"]);
         ("/nw/assets/fonts/Known", ["Known.ttf"])]
        [] [] 0.9 0.1.

Definition font_files (f : string) : option (list string) :=
  if String.eqb f "/nw/assets/fonts/Cantarell/Cantarell-Regular.ttf"
  then Some ["Cantarell"] else None.

Definition db0 : QFontDatabase :=
  {| db_families := ["DejaVu Sans"; "Known"]; db_appFonts := [] |}.

End Fixture.

(* ===================================================================== *)
(** * Statements and exceptions *)
(* ===================================================================== *)

Section Statements.

Lemma step_run {S A B} (m : M (Outcome A * S)) (k : S -> M (Outcome B * S)) w :
  step m k w =
    match (m w).1.1 with
    | Raise e => ((Raise e, (m w).1.2), (m w).2)
    | Return _ => k (m w).1.2 (m w).2
    end.
Proof. unfold step, bind, ret. destruct (m w) as [[[a|e] s] w']; reflexivity. Qed.

Lemma on_attr_run {S T A} (get : S -> T) (set : T -> S -> S)
    (m : T -> M (Outcome A * T)) (self : S) w :
  on_attr get set m self w =
    (((m (get self) w).1.1, set (m (get self) w).1.2 self), (m (get self) w).2).
Proof. unfold on_attr, bind, ret. destruct (m (get self) w) as [[a s] w']; reflexivity. Qed.

Lemma assign_all_assigned {S V} (read : string -> M (Outcome V)) value
    (slots : list (string * (V -> S -> S))) :
  (forall n w, (read n w).1 = value n) ->
  forall s w, (assign_all read slots s w).1 = assigned value slots s.
Proof.
  intros Hr. induction slots as [|[n set] rest IH]; intros s w; cbn [assign_all assigned].
  - reflexivity.
  - unfold bind. specialize (Hr n w). destruct (read n w) as [o w']. cbn [fst] in Hr.
    subst o. destruct (value n); [apply IH | reflexivity].
Qed.

Lemma assigned_Return {S V} (value : string -> Outcome V)
    (slots : list (string * (V -> S -> S))) : forall s,
  (assigned value slots s).1 = Return tt <->
  forall n, n ∈ map fst slots -> is_Return (value n).
Proof.
  induction slots as [|[n set] rest IH]; intros s; cbn [assigned map fst].
  - split; [|reflexivity]. intros _ n H. now apply elem_of_nil in H.
  - destruct (value n) as [v|e] eqn:E.
    + rewrite IH. split.
      * intros H n' Hn'. apply elem_of_cons in Hn'. destruct Hn' as [->|Hn'].
        -- now rewrite E.
        -- now apply H.
      * intros H n' Hn'. apply H. now right.
    + split; [discriminate|]. intros H.
      specialize (H n (list_elem_of_here _ _)). rewrite E in H. destruct H.
Qed.

Lemma assigned_outcome {S V} (value : string -> Outcome V)
    (slots : list (string * (V -> S -> S))) : forall s,
  (assigned value slots s).1 <> Return tt -> exists e, (assigned value slots s).1 = Raise e.
Proof.
  intros s H. destruct (assigned value slots s).1 as [[]|e]; [congruence|eauto].
Qed.
End Statements.

(* ===================================================================== *)
(** * The icon cache *)
(* ===================================================================== *)

Section IconCache.
Import GuiIcons Fixture.

Lemma getIcon_hit env self key q w :
  qIcons self !! key = Some q -> getIcon env self key w = ((q, self), w).
Proof. intros H. unfold getIcon. now rewrite H. Qed.

Lemma getIcon_miss env self key w :
  qIcons self !! key = None ->
  getIcon env self key w =
    ((( _loadIcon env self key w).1,
      set_qIcons (<[key := (_loadIcon env self key w).1]> (qIcons self)) self),
     (_loadIcon env self key w).2).
Proof.
  intros H. unfold getIcon, bind, ret. rewrite H.
  now destruct (_loadIcon env self key w).
Qed.

Lemma getIcon_stores env self key w :
  qIcons (getIcon env self key w).1.2 !! key = Some (getIcon env self key w).1.1.
Proof.
  destruct (qIcons self !! key) as [q|] eqn:H.
  - now rewrite (getIcon_hit _ _ _ _ _ H).
  - rewrite (getIcon_miss _ _ _ _ H). cbn [fst snd qIcons set_qIcons].
    apply lookup_insert_eq.
Qed.

Lemma getIcon_keeps env self key' w key q :
  qIcons self !! key = Some q ->
  qIcons (getIcon env self key' w).1.2 !! key = Some q.
Proof.
  intros H. destruct (qIcons self !! key') as [q'|] eqn:H'.
  - now rewrite (getIcon_hit _ _ _ _ _ H').
  - rewrite (getIcon_miss _ _ _ _ H'). cbn [fst snd qIcons set_qIcons].
    rewrite lookup_insert_ne; [exact H|]. congruence.
Qed.

Lemma getIcons_keeps calls : forall self w key q,
  qIcons self !! key = Some q ->
  qIcons (getIcons calls self w).1 !! key = Some q.
Proof.
  induction calls as [|[env k] rest IH]; intros self w key q H; cbn [getIcons].
  - exact H.
  - apply IH. now apply getIcon_keeps.
Qed.

Lemma load_Map_section_qIcons env p dir self w :
  qIcons (load_Map_section env p dir self w).1.2 = qIcons self.
Proof.
  unfold load_Map_section, bind, ret.
  destruct (ConfigParser.has_section _ _); [|reflexivity].
  destruct (ConfigParser.items _ _); [|reflexivity].
  now destruct (load_Map _ _ _ _ _).
Qed.

(** [updateTheme] leaves the cache as it is, whatever its outcome. *)
Lemma updateTheme_qIcons env self w :
  qIcons (updateTheme env self w).1.2 = qIcons self.
Proof.
  unfold updateTheme, bind, ret. cbn [logger].
  destruct (isdir env _); [|reflexivity].
  unfold ConfigParser.read_file.
  destruct (ConfigParser.rr_error _); [reflexivity|].
  rewrite step_run, on_attr_run. cbn [fst snd].
  destruct (read_Main _ _ _) as [[[[]|e] m] w1]; cbn [fst snd]; [|reflexivity].
  rewrite step_run.
  match goal with |- context [load_Map_section env ?p ?d ?s0 w1] =>
    pose proof (load_Map_section_qIcons env p d s0 w1) as E;
    destruct (load_Map_section env p d s0 w1) as [[[[]|e] s] w2] end;
    exact E.
Qed.

Lemma _loadIcon_unknown env self key w :
  ICON_MAP !! key = None -> icon_src (_loadIcon env self key w).1 = NullIcon.
Proof. intros H. unfold _loadIcon. rewrite H. reflexivity. Qed.

Lemma getIcon_preserves_null env self key w :
  unknown_keys_null self -> unknown_keys_null (getIcon env self key w).1.2.
Proof.
  intros Inv. destruct (qIcons self !! key) as [q|] eqn:H.
  - rewrite (getIcon_hit _ _ _ _ _ H). exact Inv.
  - rewrite (getIcon_miss _ _ _ _ H). cbn [fst snd].
    intros k q Hk. cbn [qIcons set_qIcons]. rewrite lookup_insert.
    case_decide as E.
    + subst k. intros Hq.
      assert (Eq : (_loadIcon env self key w).1 = q) by congruence.
      rewrite <- Eq. apply _loadIcon_unknown. exact Hk.
    + intros Hq. exact (Inv k q Hk Hq).
Qed.

Lemma reachable_unknown_keys_null self :
  reachable self -> unknown_keys_null self.
Proof.
  induction 1 as [|env self key w _ IH|env self w _ IH].
  - intros k q _ H. cbn [init qIcons] in H.
    rewrite lookup_empty in H. discriminate H.
  - apply getIcon_preserves_null. exact IH.
  - intros k q Hk. rewrite updateTheme_qIcons. apply IH. exact Hk.
Qed.

(** C9: a second [getIcon] for the same key returns the identical handle
    (same object, same source) as the first, whatever [getIcon] calls for
    any keys come in between; it is served from the cache: it builds no
    icon, logs nothing and leaves the object as it is. *)
Theorem getIcon_twice_identical env self key w calls env' :
  let r1 := getIcon env self key w in
  let s := getIcons calls r1.1.2 r1.2 in
  let r2 := getIcon env' s.1 key s.2 in
  r2.1.1 = r1.1.1 /\ r2.1.2 = s.1 /\ r2.2 = s.2.
Proof.
  intros r1 s r2.
  assert (H : qIcons s.1 !! key = Some r1.1.1).
  { apply getIcons_keeps, getIcon_stores. }
  subst r2. now rewrite (getIcon_hit _ _ _ _ _ H).
Qed.

(** C1, as amended: [updateTheme] does not empty the resolution cache; it
    leaves [qIcons] exactly as it was, whatever its outcome ([True],
    [False] or an exception). A key resolved before the call is served from
    the cache after it: [getIcon] returns the identical handle and resolves
    nothing again (no icon is built, nothing is logged, the object stays as
    it is), whatever the new theme maps the key to. The first part is about
    a key resolved by the call just before [updateTheme], the second about
    any key that the cache holds when [updateTheme] is called. *)
Theorem updateTheme_keeps_cache env0 self key w env env' :
  let r1 := getIcon env0 self key w in
  let r2 := updateTheme env r1.1.2 r1.2 in
  let r3 := getIcon env' r2.1.2 key r2.2 in
  (qIcons r2.1.2 = qIcons r1.1.2 /\ r3.1.1 = r1.1.1 /\ r3.1.2 = r2.1.2 /\ r3.2 = r2.2) /\
  (forall s v q, qIcons s !! key = Some q ->
     let u := updateTheme env s v in
     qIcons u.1.2 = qIcons s /\ getIcon env' u.1.2 key u.2 = ((q, u.1.2), u.2)).
Proof.
  intros r1 r2 r3. split.
  - assert (E : qIcons r2.1.2 = qIcons r1.1.2) by apply updateTheme_qIcons.
    assert (H : qIcons r2.1.2 !! key = Some r1.1.1).
    { rewrite E. apply getIcon_stores. }
    subst r3. now rewrite (getIcon_hit _ _ _ _ _ H).
  - intros s v q H u. split; [apply updateTheme_qIcons|].
    apply getIcon_hit. subst u. now rewrite updateTheme_qIcons.
Qed.

(** [add], cached from the fallback folder, when the theme typicons is
    loaded. *)
Lemma updateTheme_keeps_cache_witness :
  let s := (getIcon env_bare init "add" w0).1.2 in
  let q := {| icon_id := 0; icon_src := FromFile "/nw/icons/fallback/add.svg" |} in
  let u := updateTheme env_typicons s w0 in
  qIcons s !! "add" = Some q /\
  u.1.1 = Return true /\
  getIcon env_typicons u.1.2 "add" u.2 = ((q, u.1.2), u.2).
Proof.
  cbv zeta.
  assert (H : qIcons (getIcon env_bare init "add" w0).1.2 !! "add"
              = Some {| icon_id := 0;
                        icon_src := FromFile "/nw/icons/fallback/add.svg" |})
    by (vm_compute; reflexivity).
  split; [exact H|]. split; [vm_compute; reflexivity|].
  destruct (updateTheme_keeps_cache env_bare init "add" w0 env_typicons env_typicons)
    as [_ K].
  exact (proj2 (K _ w0 _ H)).
Defined.

(** C1 fails as stated. First, [add] is resolved from the fallback folder,
    then [updateTheme] loads a theme that maps [add] to its own file: the
    cache is not empty afterwards and [getIcon] returns the old fallback
    icon, not what a new resolution would give. Second, with the theme
    loaded, [add] is resolved and the same theme is loaded again: [getIcon]
    returns the very object it returned before, where a new resolution
    would build another one from the same file. *)
Lemma updateTheme_serves_stale_icon :
  (let r1 := getIcon env_bare init "add" w0 in
   let r2 := updateTheme env_typicons r1.1.2 r1.2 in
   let r3 := getIcon env_typicons r2.1.2 "add" r2.2 in
   r2.1.1 = Return true /\
   themeMap r2.1.2 !! "add" = Some "/nw/icons/typicons/plus.svg" /\
   qIcons r2.1.2 <> ∅ /\
   r3.1.1 = r1.1.1 /\
   icon_src r3.1.1 = FromFile "/nw/icons/fallback/add.svg" /\
   icon_src (_loadIcon env_typicons r2.1.2 "add" r2.2).1
     = FromFile "/nw/icons/typicons/plus.svg") /\
  (let r1 := getIcon env_typicons icons1 "add" w0 in
   let r2 := updateTheme env_typicons r1.1.2 r1.2 in
   let r3 := getIcon env_typicons r2.1.2 "add" r2.2 in
   r2.1.1 = Return true /\
   themeMap r2.1.2 !! "add" = themeMap icons1 !! "add" /\
   r3.1.1 = r1.1.1 /\
   icon_src r1.1.1 = FromFile "/nw/icons/typicons/plus.svg" /\
   icon_src (_loadIcon env_typicons r2.1.2 "add" r2.2).1 = icon_src r1.1.1 /\
   icon_id (_loadIcon env_typicons r2.1.2 "add" r2.2).1 <> icon_id r1.1.1).
Proof.
  cbv zeta. split.
  - repeat split; try (vm_compute; reflexivity).
    intros E. apply (f_equal (fun m => m !! "add")) in E.
    vm_compute in E. discriminate E.
  - repeat split; try (vm_compute; reflexivity).
    vm_compute. discriminate.
Qed.

(** C2, as amended: for a key outside ICON_MAP, [getIcon] returns an
    empty icon, in every state that can be reached, and stores that empty
    icon in the cache under the key. *)
Theorem getIcon_unknown_key env self key w :
  reachable self -> ICON_MAP !! key = None ->
  let r := getIcon env self key w in
  icon_src r.1.1 = NullIcon /\ qIcons r.1.2 !! key = Some r.1.1.
Proof.
  intros R H r. split; [|apply getIcon_stores].
  apply (getIcon_preserves_null env self key w (reachable_unknown_keys_null _ R) key).
  - exact H.
  - apply getIcon_stores.
Qed.

(** The key [bogus] on a new object. *)
Lemma getIcon_unknown_key_witness :
  reachable init /\ ICON_MAP !! "bogus" = None /\
  let r := getIcon env_bare init "bogus" w0 in
  icon_src r.1.1 = NullIcon /\ qIcons r.1.2 !! "bogus" = Some r.1.1.
Proof.
  split; [constructor | split; [vm_compute; reflexivity |]].
  apply (getIcon_unknown_key env_bare init "bogus" w0);
    [constructor | vm_compute; reflexivity].
Defined.

(** C2 fails as stated: after [getIcon] for the unknown key [bogus] the
    cache holds an entry for it. *)
Lemma getIcon_caches_unknown_key :
  let r := getIcon env_bare init "bogus" w0 in
  ICON_MAP !! "bogus" = None /\
  qIcons r.1.2 !! "bogus" = Some {| icon_id := 0; icon_src := NullIcon |} /\
  qIcons r.1.2 !! "bogus" <> None.
Proof.
  cbv zeta. repeat split; try (vm_compute; reflexivity).
  vm_compute. discriminate.
Qed.

Ltac tier := cbn [realises first_match fmap option_fmap option_map
                      mbind option_bind fst snd].

Lemma fallback_realises env key w w' :
  next_icon w' = next_icon w ->
  realises w (_loadIcon_fallback env key w').1
    (first_match
       [ (if conf_guiDark env && isfile env (fallback_file env key "-dark.svg")
          then Some (Load (FromFile (fallback_file env key "-dark.svg"))) else None);
         (if isfile env (fallback_file env key ".svg")
          then Some (Load (FromFile (fallback_file env key ".svg"))) else None);
         Some (Load NullIcon) ]).
Proof.
  intros E. unfold _loadIcon_fallback, fallback_file.
  destruct (conf_guiDark env && isfile env _); [tier; now rewrite <- E|].
  destruct (isfile env _); tier; now rewrite <- E.
Qed.

(** C4: for a key of ICON_MAP, [getIcon] returns what the first matching
    tier of the specified order gives: the cached handle, else a new icon
    from the theme-map file, else the QStyle standard icon when one is
    declared, else the platform theme icon when declared and present, else
    the [-dark.svg] fallback file in dark mode when it exists, else the
    [.svg] fallback file when it exists, else an empty icon. In
    particular a key not yet cached that the theme map sends to a file
    gets an icon of that file, whatever standard icon it declares. *)
Theorem resolve_priority_order env self key hints w :
  ICON_MAP !! key = Some hints ->
  let q := (getIcon env self key w).1.1 in
  realises w q (spec_resolveIcon env self key hints) /\
  (forall F, qIcons self !! key = None -> themeMap self !! key = Some F ->
             icon_src q = FromFile F).
Proof.
  intros H q. subst q. split.
  - unfold spec_resolveIcon, spec_tiers.
    destruct (qIcons self !! key) as [c|] eqn:Hc.
    + rewrite (getIcon_hit _ _ _ _ _ Hc). reflexivity.
    + rewrite (getIcon_miss _ _ _ _ Hc). tier.
      unfold _loadIcon. rewrite H. destruct hints as [sp fd].
      destruct (themeMap self !! key) as [f|]; [reflexivity|].
      destruct sp as [p|]; [reflexivity|]. tier.
      destruct fd as [n|]; tier.
      * unfold bind. cbn [logger]. destruct (hasThemeIcon env n); [reflexivity|].
        tier. apply fallback_realises. reflexivity.
      * apply fallback_realises. reflexivity.
  - intros F Hc Hf. rewrite (getIcon_miss _ _ _ _ Hc). cbn [fst snd].
    unfold _loadIcon. rewrite H, Hf. destruct hints. reflexivity.
Qed.

(** [save] declares a standard icon and is mapped by the theme. *)
Lemma resolve_priority_order_witness :
  ICON_MAP !! "save" = Some (Some SP_DialogSaveButton, Some "document-save") /\
  let self := (updateTheme env_typicons init w0).1.2 in
  let q := (getIcon env_typicons self "save" w0).1.1 in
  realises w0 q (spec_resolveIcon env_typicons self "save"
                   (Some SP_DialogSaveButton, Some "document-save")) /\
  (forall F, qIcons self !! "save" = None -> themeMap self !! "save" = Some F ->
             icon_src q = FromFile F).
Proof.
  split; [vm_compute; reflexivity|].
  apply (resolve_priority_order env_typicons (updateTheme env_typicons init w0).1.2
           "save" (Some SP_DialogSaveButton, Some "document-save") w0).
  vm_compute; reflexivity.
Defined.
End IconCache.

(* ===================================================================== *)
(** * The blocks of the loaders *)
(* ===================================================================== *)

Section Blocks.
Import GuiTheme.

Ltac world :=
  cbn [fst snd next_icon log alerts app_styleSheet app_palette logger makeAlert
       qApp_setStyleSheet qApp_setPalette] in *.

Lemma logged_refl w : logged w w.
Proof. now repeat split. Qed.

Lemma logged_trans w1 w2 w3 : logged w1 w2 -> logged w2 w3 -> logged w1 w3.
Proof. unfold logged. intros (A & B & C & D) (A' & B' & C' & D'). repeat split; congruence. Qed.

Lemma logged_logger lv fmt args w : logged w (logger lv fmt args w).2.
Proof. now repeat split. Qed.

Lemma assign_all_logged {S V} (read : string -> M (Outcome V))
    (slots : list (string * (V -> S -> S))) :
  (forall n w, logged w (read n w).2) ->
  forall s w, logged w (assign_all read slots s w).2.
Proof.
  intros Hr. induction slots as [|[n set] rest IH]; intros s w; cbn [assign_all].
  - apply logged_refl.
  - unfold bind. specialize (Hr n w). destruct (read n w) as [[v|e] w'].
    + eapply logged_trans; [exact Hr | apply IH].
    + exact Hr.
Qed.

Lemma _loadColour_value confParser cnfSec cnfName w :
  (_loadColour confParser cnfSec cnfName w).1 = colour_value confParser cnfSec cnfName.
Proof.
  unfold _loadColour, colour_value, bind, ret.
  destruct (ConfigParser.has_option _ _ _); [|reflexivity].
  destruct (ConfigParser.get _ _ _); [|reflexivity].
  destruct (read_triple _); reflexivity.
Qed.

Lemma _loadColour_logged confParser cnfSec cnfName w :
  logged w (_loadColour confParser cnfSec cnfName w).2.
Proof.
  unfold _loadColour, bind, ret.
  destruct (ConfigParser.has_option _ _ _); [|apply logged_logger].
  destruct (ConfigParser.get _ _ _); [|apply logged_refl].
  destruct (read_triple _); [apply logged_refl|apply logged_logger].
Qed.

Lemma read_Main_value confParser old w :
  (read_Main confParser old w).1 = Main_after confParser old.
Proof.
  unfold read_Main, Main_after. destruct (ConfigParser.has_section _ _); [|reflexivity].
  now apply assign_all_assigned.
Qed.

Lemma read_Main_world confParser old w : (read_Main confParser old w).2 = w.
Proof.
  unfold read_Main. destruct (ConfigParser.has_section _ _); [|reflexivity].
  generalize old. generalize Main_slots. intros slots.
  induction slots as [|[n set] rest IH]; intros s; cbn [assign_all]; [reflexivity|].
  unfold bind, ret. destruct (_parseLine _ _ _ _); [apply IH|reflexivity].
Qed.

Lemma load_GUI_value confParser old w :
  (load_GUI confParser old w).1 = GUI_after confParser old.
Proof.
  unfold load_GUI, GUI_after. destruct (ConfigParser.has_section _ _); [|reflexivity].
  apply assign_all_assigned. intros n w'. apply _loadColour_value.
Qed.

Lemma load_GUI_logged confParser old w : logged w (load_GUI confParser old w).2.
Proof.
  unfold load_GUI. destruct (ConfigParser.has_section _ _); [|apply logged_refl].
  apply assign_all_logged. intros n w'. apply _loadColour_logged.
Qed.

Lemma load_Syntax_value confParser old w :
  (load_Syntax confParser old w).1 = Syntax_after confParser old.
Proof.
  unfold load_Syntax, Syntax_after. destruct (ConfigParser.has_section _ _); [|reflexivity].
  apply assign_all_assigned. intros n w'. apply _loadColour_value.
Qed.

Lemma load_Syntax_logged confParser old w : logged w (load_Syntax confParser old w).2.
Proof.
  unfold load_Syntax. destruct (ConfigParser.has_section _ _); [|apply logged_refl].
  apply assign_all_logged. intros n w'. apply _loadColour_logged.
Qed.

Lemma _setPalette_value confParser cnfSec cnfName role pal w :
  (_setPalette confParser cnfSec cnfName role pal w).1 =
    match palette_value confParser cnfSec cnfName with
    | Raise e => (Raise e, pal)
    | Return None => (Return tt, pal)
    | Return (Some c) => (Return tt, setColor pal role c)
    end.
Proof.
  unfold _setPalette, palette_value, bind, ret.
  destruct (ConfigParser.has_option _ _ _); [|reflexivity].
  destruct (ConfigParser.get _ _ _); [|reflexivity].
  destruct (read_triple _) as [[|r [|g [|b [|x l]]]]|]; try reflexivity.
  destruct (QColor_new r g b); reflexivity.
Qed.

Lemma _setPalette_logged confParser cnfSec cnfName role pal w :
  logged w (_setPalette confParser cnfSec cnfName role pal w).2.
Proof.
  unfold _setPalette, bind, ret.
  destruct (ConfigParser.has_option _ _ _); [|apply logged_refl].
  destruct (ConfigParser.get _ _ _); [|apply logged_refl].
  destruct (read_triple _) as [[|r [|g [|b [|x l]]]]|];
    try apply logged_refl; [|apply logged_logger].
  destruct (QColor_new r g b); apply logged_refl.
Qed.

Lemma set_palette_entries_value confParser cnfSec es : forall pal w,
  (set_palette_entries confParser cnfSec es pal w).1 = palette_after confParser cnfSec es pal.
Proof.
  induction es as [|[n role] es IH]; intros pal w; cbn [set_palette_entries palette_after].
  - reflexivity.
  - rewrite step_run, _setPalette_value.
    destruct (palette_value confParser cnfSec n) as [[c|]|e]; cbn [fst snd];
      [apply IH | apply IH | reflexivity].
Qed.

Lemma set_palette_entries_logged confParser cnfSec es : forall pal w,
  logged w (set_palette_entries confParser cnfSec es pal w).2.
Proof.
  induction es as [|[n role] es IH]; intros pal w; cbn [set_palette_entries].
  - apply logged_refl.
  - rewrite step_run.
    pose proof (_setPalette_logged confParser cnfSec n role pal w) as L.
    destruct (_setPalette confParser cnfSec n role pal w) as [[[[]|e] pal'] w'];
      cbn [fst snd] in *; [|exact L].
    eapply logged_trans; [exact L | apply IH].
Qed.

Lemma load_Palette_value confParser pal w :
  (load_Palette confParser pal w).1 = Palette_after confParser pal.
Proof.
  unfold load_Palette, Palette_after. destruct (ConfigParser.has_section _ _); [|reflexivity].
  apply set_palette_entries_value.
Qed.

Lemma load_Palette_logged confParser pal w : logged w (load_Palette confParser pal w).2.
Proof.
  unfold load_Palette. destruct (ConfigParser.has_section _ _); [|apply logged_refl].
  apply set_palette_entries_logged.
Qed.

(** The outcome of [loadTheme] and the object after it. *)
Lemma loadTheme_run env self w :
  (loadTheme env self w).1 =
    match read_css env self, (read_config env (confFile <$> paths self)).2 with
    | Some _, None =>
        let p := theme_parser env self in
        let m := Main_after p (themeMeta self) in
        let pal := Palette_after p (guiPalette self) in
        let g := GUI_after p (guiCols self) in
        match m.1 with
        | Raise e => (Raise e, set_themeMeta m.2 self)
        | Return _ =>
            match pal.1 with
            | Raise e => (Raise e, set_guiPalette pal.2 (set_themeMeta m.2 self))
            | Return _ =>
                (match g.1 with Raise e => Raise e | Return _ => Return true end,
                 set_guiCols g.2 (set_guiPalette pal.2 (set_themeMeta m.2 self)))
            end
        end
    | _, _ => (Return false, self)
    end.
Proof.
  unfold theme_parser, loadTheme, bind, ret. cbn [logger].
  destruct (read_css env self); [|reflexivity].
  destruct (read_config env _) as [p [e|]]; [reflexivity|]. cbn [fst snd]. cbv zeta.
  rewrite step_run, on_attr_run, read_Main_value, read_Main_world. cbn [fst snd].
  destruct (Main_after p (themeMeta self)) as [[[]|e] m]; cbn [fst snd]; [|reflexivity].
  rewrite step_run, on_attr_run, load_Palette_value. cbn [fst snd guiPalette set_themeMeta].
  destruct (Palette_after p (guiPalette self)) as [[[]|e] pal]; cbn [fst snd]; [|reflexivity].
  rewrite step_run, on_attr_run, load_GUI_value.
  cbn [fst snd guiCols set_themeMeta set_guiPalette].
  destruct (GUI_after p (guiCols self)) as [[[]|e] g]; reflexivity.
Qed.

(** The application style sheet and palette after [loadTheme]. *)
Lemma loadTheme_world env self w :
  let r := loadTheme env self w in
  next_icon r.2 = next_icon w /\ alerts r.2 = alerts w /\
  match r.1.1 with
  | Return true =>
      Some (app_styleSheet r.2) = read_css env self /\
      app_palette r.2 = guiPalette r.1.2
  | _ => app_styleSheet r.2 = app_styleSheet w /\ app_palette r.2 = app_palette w
  end.
Proof.
  unfold loadTheme, bind, ret. cbn [logger]. cbv zeta.
  destruct (read_css env self); [|now repeat split].
  destruct (read_config env _) as [p [e|]]; [now repeat split|].
  rewrite step_run, on_attr_run, read_Main_world. cbn [fst snd].
  destruct (read_Main _ _ _) as [[[[]|e] m] w0]; cbn [fst snd]; [|now repeat split].
  rewrite step_run, on_attr_run. cbn [fst snd].
  match goal with |- context [load_Palette p ?x ?w'] =>
    pose proof (load_Palette_logged p x w') as (L1 & L2 & L3 & L4);
    destruct (load_Palette p x w') as [[[[]|e] pal] w1] end;
    world; [|now repeat split].
  rewrite step_run, on_attr_run. cbn [fst snd].
  match goal with |- context [load_GUI p ?x w1] =>
    pose proof (load_GUI_logged p x w1) as (G1 & G2 & G3 & G4);
    destruct (load_GUI p x w1) as [[[[]|e] g] w2] end;
    world; repeat split; congruence.
Qed.

(** The outcome of [loadSyntax] and the object after it. *)
Lemma loadSyntax_run env self w :
  (loadSyntax env self w).1 =
    match (read_config env (syntaxFile <$> paths self)).2 with
    | None =>
        let p := syntax_parser env self in
        let m := Main_after p (syntaxMeta self) in
        let c := Syntax_after p (syntaxCols self) in
        match m.1 with
        | Raise e => (Raise e, set_syntaxMeta m.2 self)
        | Return _ =>
            (match c.1 with Raise e => Raise e | Return _ => Return true end,
             set_syntaxCols c.2 (set_syntaxMeta m.2 self))
        end
    | Some _ => (Return false, self)
    end.
Proof.
  unfold syntax_parser, loadSyntax, bind, ret.
  destruct (read_config env _) as [p [e|]]; [reflexivity|]. cbn [fst snd]. cbv zeta.
  rewrite step_run, on_attr_run, read_Main_value, read_Main_world. cbn [fst snd].
  destruct (Main_after p (syntaxMeta self)) as [[[]|e] m]; cbn [fst snd]; [|reflexivity].
  rewrite step_run, on_attr_run, load_Syntax_value. cbn [fst snd syntaxCols set_syntaxMeta].
  destruct (Syntax_after p (syntaxCols self)) as [[[]|e] c]; reflexivity.
Qed.

Lemma loadSyntax_world env self w : logged w (loadSyntax env self w).2.
Proof.
  unfold loadSyntax, bind, ret.
  destruct (read_config env _) as [p [e|]]; [apply logged_logger|].
  rewrite step_run, on_attr_run, read_Main_world. cbn [fst snd].
  destruct (read_Main _ _ _) as [[[[]|e] m] w0]; cbn [fst snd]; [|apply logged_refl].
  rewrite step_run, on_attr_run. cbn [fst snd].
  match goal with |- context [load_Syntax p ?x ?w'] =>
    pose proof (load_Syntax_logged p x w') as L;
    destruct (load_Syntax p x w') as [[[[]|e] c] w1] end; cbn [fst snd] in *.
  - eapply logged_trans; [exact L|apply logged_logger].
  - exact L.
Qed.
End Blocks.

(* ===================================================================== *)
(** * Loading themes *)
(* ===================================================================== *)

Section ThemeLoad.
Import GuiTheme Fixture.

Lemma loadTheme_failure env self w :
  (loadTheme env self w).1.1 = Return false ->
  (loadTheme env self w).1.2 = self /\
  app_styleSheet (loadTheme env self w).2 = app_styleSheet w /\
  app_palette (loadTheme env self w).2 = app_palette w.
Proof.
  intros H. pose proof (loadTheme_world env self w) as (_ & _ & W).
  cbv zeta in W. rewrite H in W. split; [|exact W].
  revert H. rewrite loadTheme_run.
  destruct (read_css env self); [|reflexivity].
  destruct (read_config env _).2; [reflexivity|]. cbv zeta.
  destruct (Main_after _ _).1; [|discriminate].
  destruct (Palette_after _ _).1; [|discriminate].
  destruct (GUI_after _ _).1; discriminate.
Qed.

Lemma loadSyntax_failure env self w :
  (loadSyntax env self w).1.1 = Return false ->
  (loadSyntax env self w).1.2 = self /\
  app_styleSheet (loadSyntax env self w).2 = app_styleSheet w /\
  app_palette (loadSyntax env self w).2 = app_palette w.
Proof.
  intros H. pose proof (loadSyntax_world env self w) as (_ & _ & W).
  split; [|exact W].
  revert H. rewrite loadSyntax_run.
  destruct (read_config env _).2; [reflexivity|]. cbv zeta.
  destruct (Main_after _ _).1; [|discriminate].
  destruct (Syntax_after _ _).1; discriminate.
Qed.

Lemma icons_updateTheme_failure env icons w :
  (GuiIcons.updateTheme env icons w).1.1 = Return false ->
  GuiIcons.meta (GuiIcons.updateTheme env icons w).1.2 = GuiIcons.meta icons /\
  GuiIcons.qIcons (GuiIcons.updateTheme env icons w).1.2 = GuiIcons.qIcons icons /\
  GuiIcons.themeList (GuiIcons.updateTheme env icons w).1.2 = GuiIcons.themeList icons /\
  GuiIcons.themeMap (GuiIcons.updateTheme env icons w).1.2 = ∅.
Proof.
  unfold GuiIcons.updateTheme, bind, ret. cbn [logger].
  destruct (isdir env _); [|intros _; repeat split].
  unfold ConfigParser.read_file.
  destruct (ConfigParser.rr_error _); [intros _; repeat split|].
  rewrite step_run, on_attr_run. cbn [fst snd].
  destruct (read_Main _ _ _) as [[[[]|e] m] w1]; cbn [fst snd]; [|discriminate].
  rewrite step_run.
  destruct (GuiIcons.load_Map_section _ _ _ _ _) as [[[[]|e] s] w2]; cbn [fst snd];
    discriminate.
Qed.

(** C3, as amended: when [loadTheme] or [loadSyntax] reports failure, the
    object and the application style sheet and palette are exactly as
    before the call. When [GuiIcons.updateTheme] reports failure, the
    metadata, the icon cache and the theme list are as before, and the
    theme map is empty. *)
Theorem failed_load_keeps_state env self icons w :
  ((loadTheme env self w).1.1 = Return false ->
     (loadTheme env self w).1.2 = self /\
     app_styleSheet (loadTheme env self w).2 = app_styleSheet w /\
     app_palette (loadTheme env self w).2 = app_palette w) /\
  ((loadSyntax env self w).1.1 = Return false ->
     (loadSyntax env self w).1.2 = self /\
     app_styleSheet (loadSyntax env self w).2 = app_styleSheet w /\
     app_palette (loadSyntax env self w).2 = app_palette w) /\
  ((GuiIcons.updateTheme env icons w).1.1 = Return false ->
     GuiIcons.meta (GuiIcons.updateTheme env icons w).1.2 = GuiIcons.meta icons /\
     GuiIcons.qIcons (GuiIcons.updateTheme env icons w).1.2 = GuiIcons.qIcons icons /\
     GuiIcons.themeList (GuiIcons.updateTheme env icons w).1.2
       = GuiIcons.themeList icons /\
     GuiIcons.themeMap (GuiIcons.updateTheme env icons w).1.2 = ∅).
Proof.
  split; [apply loadTheme_failure|].
  split; [apply loadSyntax_failure | apply icons_updateTheme_failure].
Qed.

(** All three loaders fail on an installation without theme files. *)
Lemma failed_load_keeps_state_witness :
  let env := env_removed in
  let self := theme0 in
  ((loadTheme env self w0).1.1 = Return false /\
     (loadTheme env self w0).1.2 = self /\
     app_styleSheet (loadTheme env self w0).2 = app_styleSheet w0 /\
     app_palette (loadTheme env self w0).2 = app_palette w0) /\
  ((loadSyntax env self w0).1.1 = Return false /\
     (loadSyntax env self w0).1.2 = self /\
     app_styleSheet (loadSyntax env self w0).2 = app_styleSheet w0 /\
     app_palette (loadSyntax env self w0).2 = app_palette w0) /\
  ((GuiIcons.updateTheme env icons1 w0).1.1 = Return false /\
     GuiIcons.meta (GuiIcons.updateTheme env icons1 w0).1.2 = GuiIcons.meta icons1 /\
     GuiIcons.qIcons (GuiIcons.updateTheme env icons1 w0).1.2 = GuiIcons.qIcons icons1 /\
     GuiIcons.themeList (GuiIcons.updateTheme env icons1 w0).1.2
       = GuiIcons.themeList icons1 /\
     GuiIcons.themeMap (GuiIcons.updateTheme env icons1 w0).1.2 = ∅).
Proof.
  cbv zeta.
  destruct (failed_load_keeps_state env_removed theme0 icons1 w0) as (H1 & H2 & H3).
  split; [split; [vm_compute; reflexivity | apply H1; vm_compute; reflexivity]|].
  split; [split; [vm_compute; reflexivity | apply H2; vm_compute; reflexivity]|].
  split; [vm_compute; reflexivity | apply H3; vm_compute; reflexivity].
Defined.

(** C3 fails as stated for [GuiIcons.updateTheme]: after a successful
    load the theme folder is removed; the next call reports failure and the
    theme map, which held [add], is empty. *)
Lemma failed_icon_update_empties_themeMap :
  let r := GuiIcons.updateTheme env_removed icons1 w0 in
  GuiIcons.themeMap icons1 !! "add" = Some "/nw/icons/typicons/plus.svg" /\
  r.1.1 = Return false /\
  GuiIcons.themeMap r.1.2 !! "add" = None /\
  GuiIcons.themeMap r.1.2 <> GuiIcons.themeMap icons1.
Proof.
  cbv zeta. repeat split; try (vm_compute; reflexivity).
  intros E. apply (f_equal (fun m => m !! "add")) in E.
  vm_compute in E. discriminate E.
Qed.
End ThemeLoad.

(* ===================================================================== *)
(** * Colour entries *)
(* ===================================================================== *)

Section Colours.
Import GuiTheme Fixture.

(** The case of an absent option or section. *)
Ltac absent :=
  cbn; split; [intros _ H; discriminate H | intros _; first [exact I | reflexivity]].

Lemma read_triple_written v : read_triple (Py.split ","%char v) = written_triple v.
Proof.
  unfold read_triple, written_triple.
  destruct (Py.split ","%char v) as [|a [|b [|c rest]]];
    cbn [lookup list_lookup mbind option_bind]; try reflexivity.
  all: repeat (destruct (Py.int _); cbn [mbind option_bind]; try reflexivity).
Qed.

Lemma written_triple_unreadable v :
  written_triple v = None <-> unreadable v = true.
Proof.
  unfold unreadable, written_triple, is_int.
  destruct (Py.split ","%char v) as [|a [|b [|c rest]]];
    cbn [length take forallb Nat.ltb Nat.leb orb negb andb]; try tauto.
  destruct (Py.int a); [destruct (Py.int b); [destruct (Py.int c)|]|];
    cbn [negb andb orb]; split; (discriminate || reflexivity).
Qed.

Lemma written_triple_shape v c :
  written_triple v = Some c -> exists r g b, c = [r; g; b].
Proof.
  unfold written_triple.
  destruct (Py.split ","%char v) as [|x [|y [|z rest]]]; try discriminate.
  destruct (Py.int x); [|discriminate]. destruct (Py.int y); [|discriminate].
  destruct (Py.int z); [|discriminate]. intros [= <-]. eauto.
Qed.

Lemma colour_value_stored confParser cnfSec cnfName c :
  colour_value confParser cnfSec cnfName = Return c ->
  stored_as confParser cnfSec cnfName c.
Proof.
  unfold colour_value, stored_as.
  destruct (ConfigParser.has_option _ _ _); [|congruence].
  destruct (ConfigParser.get _ _ _) as [v|e]; [|discriminate].
  rewrite read_triple_written. intros [= <-]. now exists v.
Qed.

Lemma stored_as_triple confParser cnfSec cnfName c :
  stored_as confParser cnfSec cnfName c -> is_triple c.
Proof.
  unfold stored_as. destruct (ConfigParser.has_option _ _ _); [|now intros ->].
  intros (v & _ & ->). destruct (written_triple v) as [c'|] eqn:E; [|reflexivity].
  apply written_triple_shape in E. destruct E as (r & g & b & ->). reflexivity.
Qed.

Lemma colour_value_triple confParser cnfSec cnfName c :
  colour_value confParser cnfSec cnfName = Return c -> is_triple c.
Proof. intros H. eapply stored_as_triple, colour_value_stored, H. Qed.

Lemma colour_value_ok confParser cnfSec cnfName :
  is_Return (colour_value confParser cnfSec cnfName) <->
  option_ok confParser cnfSec cnfName.
Proof.
  unfold colour_value, option_ok.
  destruct (ConfigParser.has_option _ _ _);
    [|absent].
  destruct (ConfigParser.get _ _ _); cbn; [tauto|]. split; [tauto|]. intros H. now apply H.
Qed.

Lemma _parseLine_ok confParser cnfSec cnfName d :
  ConfigParser.has_section confParser cnfSec = true ->
  (is_Return (_parseLine confParser cnfSec cnfName d) <->
   option_ok confParser cnfSec cnfName).
Proof.
  unfold _parseLine, option_ok. intros ->.
  destruct (ConfigParser.has_option _ _ _);
    [|absent].
  destruct (ConfigParser.get _ _ _); cbn; [tauto|]. split; [tauto|]. intros H. now apply H.
Qed.

Lemma QColor_new_ok r g b :
  is_Return (QColor_new r g b) <-> c_int r && c_int g && c_int b = true.
Proof.
  unfold QColor_new. destruct (c_int r && c_int g && c_int b); cbn; [tauto|].
  split; [tauto|discriminate].
Qed.

Lemma palette_value_ok confParser cnfName :
  is_Return (palette_value confParser "Palette" cnfName) <->
  palette_ok confParser cnfName.
Proof.
  unfold palette_value, palette_ok.
  destruct (ConfigParser.has_option _ _ _); [|absent].
  destruct (ConfigParser.get _ _ _) as [v|e].
  2:{ cbn. split; [tauto|]. intros H. destruct (H eq_refl) as (v & H' & _). discriminate H'. }
  rewrite read_triple_written.
  destruct (written_triple v) as [c|] eqn:E.
  2:{ cbn. split; [|tauto]. intros _ _. exists v. split; [reflexivity|].
      intros r g b H. rewrite E in H. discriminate H. }
  destruct (written_triple_shape _ _ E) as (r & g & b & ->).
  pose proof (QColor_new_ok r g b) as Q.
  destruct (QColor_new r g b); cbn in *.
  - split; [|tauto]. intros _ _. exists v. split; [reflexivity|].
    intros r' g' b' H. rewrite E in H. injection H as <- <- <-. now apply Q.
  - split; [tauto|]. intros H. destruct (H eq_refl) as (v' & [= <-] & H').
    apply Q. apply H'. exact E.
Qed.

Lemma palette_after_Return confParser cnfSec es : forall pal,
  (palette_after confParser cnfSec es pal).1 = Return tt <->
  forall n, n ∈ map fst es -> is_Return (palette_value confParser cnfSec n).
Proof.
  induction es as [|[n role] es IH]; intros pal; cbn [palette_after map fst].
  - split; [|reflexivity]. intros _ n H. now apply elem_of_nil in H.
  - destruct (palette_value confParser cnfSec n) as [[c|]|e] eqn:E.
    + rewrite IH. split.
      * intros H n' Hn'. apply elem_of_cons in Hn'. destruct Hn' as [->|Hn'];
          [now rewrite E | now apply H].
      * intros H n' Hn'. apply H. now right.
    + rewrite IH. split.
      * intros H n' Hn'. apply elem_of_cons in Hn'. destruct Hn' as [->|Hn'];
          [now rewrite E | now apply H].
      * intros H n' Hn'. apply H. now right.
    + split; [discriminate|]. intros H.
      specialize (H n (list_elem_of_here _ _)). rewrite E in H. destruct H.
Qed.

Lemma Main_after_ok confParser old :
  (Main_after confParser old).1 = Return tt <-> section_ok confParser "Main" meta_names.
Proof.
  unfold Main_after, section_ok.
  destruct (ConfigParser.has_section confParser "Main") eqn:Hs; [|absent].
  rewrite assigned_Return. change (map fst Main_slots) with meta_names. split.
  - intros H _ n Hn. apply (_parseLine_ok _ _ _ "" Hs). now apply H.
  - intros H n Hn. apply (_parseLine_ok _ _ _ "" Hs). now apply H.
Qed.

Lemma GUI_after_ok confParser old :
  (GUI_after confParser old).1 = Return tt <-> section_ok confParser "GUI" gui_names.
Proof.
  unfold GUI_after, section_ok.
  destruct (ConfigParser.has_section confParser "GUI"); [|absent].
  rewrite assigned_Return. change (map fst GUI_slots) with gui_names. split.
  - intros H _ n Hn. apply colour_value_ok. now apply H.
  - intros H n Hn. apply colour_value_ok. now apply H.
Qed.

Lemma Syntax_after_ok confParser old :
  (Syntax_after confParser old).1 = Return tt <->
  section_ok confParser "Syntax" syntax_names.
Proof.
  unfold Syntax_after, section_ok.
  destruct (ConfigParser.has_section confParser "Syntax"); [|absent].
  rewrite assigned_Return. change (map fst Syntax_slots) with syntax_names. split.
  - intros H _ n Hn. apply colour_value_ok. now apply H.
  - intros H n Hn. apply colour_value_ok. now apply H.
Qed.

Lemma Palette_after_ok confParser pal :
  (Palette_after confParser pal).1 = Return tt <->
  (ConfigParser.has_section confParser "Palette" = true ->
   forall n, n ∈ palette_names -> palette_ok confParser n).
Proof.
  unfold Palette_after.
  destruct (ConfigParser.has_section confParser "Palette"); [|absent].
  rewrite palette_after_Return. change (map fst palette_entries) with palette_names. split.
  - intros H _ n Hn. apply palette_value_ok. now apply H.
  - intros H n Hn. apply palette_value_ok. now apply H.
Qed.

Lemma unit_outcome (o : Outcome unit) : o <> Return tt -> exists e, o = Raise e.
Proof. destruct o as [[]|e]; [congruence|eauto]. Qed.

(** [loadTheme] reports success exactly when no option that it reads
    raises. *)
Lemma loadTheme_True env self w :
  is_Some (read_css env self) ->
  (read_config env (confFile <$> paths self)).2 = None ->
  (loadTheme env self w).1.1 <> Return false /\
  ((loadTheme env self w).1.1 = Return true <->
     section_ok (theme_parser env self) "Main" meta_names /\
     (ConfigParser.has_section (theme_parser env self) "Palette" = true ->
        forall n, n ∈ palette_names -> palette_ok (theme_parser env self) n) /\
     section_ok (theme_parser env self) "GUI" gui_names).
Proof.
  intros [css Hc] He. rewrite loadTheme_run, Hc, He. cbv zeta.
  rewrite <- (Main_after_ok _ (themeMeta self)), <- (Palette_after_ok _ (guiPalette self)),
    <- (GUI_after_ok _ (guiCols self)).
  destruct (Main_after _ _).1 as [[]|e1]; cbn [fst snd].
  2:{ split; [discriminate|]. split; [discriminate|]. intros (H & _). discriminate H. }
  destruct (Palette_after _ _).1 as [[]|e2]; cbn [fst snd].
  2:{ split; [discriminate|]. split; [discriminate|]. intros (_ & H & _). discriminate H. }
  destruct (GUI_after _ _).1 as [[]|e3]; cbn [fst snd].
  - split; [discriminate|]. tauto.
  - split; [discriminate|]. split; [discriminate|]. intros (_ & _ & H). discriminate H.
Qed.

Lemma loadSyntax_True env self w :
  (read_config env (syntaxFile <$> paths self)).2 = None ->
  (loadSyntax env self w).1.1 <> Return false /\
  ((loadSyntax env self w).1.1 = Return true <->
     section_ok (syntax_parser env self) "Main" meta_names /\
     section_ok (syntax_parser env self) "Syntax" syntax_names).
Proof.
  intros He. rewrite loadSyntax_run, He. cbv zeta.
  rewrite <- (Main_after_ok _ (syntaxMeta self)), <- (Syntax_after_ok _ (syntaxCols self)).
  destruct (Main_after _ _).1 as [[]|e1]; cbn [fst snd].
  2:{ split; [discriminate|]. split; [discriminate|]. intros (H & _). discriminate H. }
  destruct (Syntax_after _ _).1 as [[]|e3]; cbn [fst snd].
  - split; [discriminate|]. tauto.
  - split; [discriminate|]. split; [discriminate|]. intros (_ & H). discriminate H.
Qed.

(** C5, as amended: a colour entry whose value, as [get] returns it, has
    fewer than three comma-separated components, or a first, second or
    third component that [int()] does not read, makes [_loadColour] return
    exactly [0,0,0] and [_setPalette] leave the palette as it is; neither
    raises. Such an entry never fails the load: once their files are read,
    [loadTheme] and [loadSyntax] never return [False]; they return [True]
    exactly when [get] returns every option that they read and every
    colour written in the [Palette] section fits the C [int] arguments of
    [QColor]; otherwise an exception leaves them. *)
Theorem unreadable_colour_is_black confParser cnfSec cnfName v w :
  ConfigParser.has_option confParser cnfSec cnfName = true ->
  ConfigParser.get confParser cnfSec cnfName = Return v ->
  unreadable v = true ->
  (_loadColour confParser cnfSec cnfName w).1 = Return [0; 0; 0] /\
  (forall role pal,
      (_setPalette confParser cnfSec cnfName role pal w).1 = (Return tt, pal)) /\
  (forall env self w',
      is_Some (read_css env self) ->
      read_config env (confFile <$> paths self) = (confParser, None) ->
      (loadTheme env self w').1.1 <> Return false /\
      ((loadTheme env self w').1.1 = Return true <->
         section_ok confParser "Main" meta_names /\
         (ConfigParser.has_section confParser "Palette" = true ->
            forall n, n ∈ palette_names -> palette_ok confParser n) /\
         section_ok confParser "GUI" gui_names)) /\
  (forall env self w',
      read_config env (syntaxFile <$> paths self) = (confParser, None) ->
      (loadSyntax env self w').1.1 <> Return false /\
      ((loadSyntax env self w').1.1 = Return true <->
         section_ok confParser "Main" meta_names /\
         section_ok confParser "Syntax" syntax_names)).
Proof.
  intros Ho Hg Hu. apply written_triple_unreadable in Hu.
  split; [|split; [|split]].
  - rewrite _loadColour_value. unfold colour_value.
    now rewrite Ho, Hg, read_triple_written, Hu.
  - intros role pal. rewrite _setPalette_value. unfold palette_value.
    now rewrite Ho, Hg, read_triple_written, Hu.
  - intros env self w' Hc Hp.
    assert (P : theme_parser env self = confParser) by (unfold theme_parser; now rewrite Hp).
    rewrite <- P. apply loadTheme_True; [exact Hc | now rewrite Hp].
  - intros env self w' Hp.
    assert (P : syntax_parser env self = confParser) by (unfold syntax_parser; now rewrite Hp).
    rewrite <- P. apply loadSyntax_True. now rewrite Hp.
Qed.

(** [statusnone = 12,x,3] in the default theme. *)
Lemma unreadable_colour_is_black_witness :
  let p := parser_of theme_conf_default in
  ConfigParser.has_option p "GUI" "statusnone" = true /\
  ConfigParser.get p "GUI" "statusnone" = Return "12,x,3" /\
  unreadable "12,x,3" = true /\
  (_loadColour p "GUI" "statusnone" w0).1 = Return [0; 0; 0] /\
  (forall role pal, (_setPalette p "GUI" "statusnone" role pal w0).1 = (Return tt, pal)) /\
  (loadTheme env_theme theme0 w0).1.1 <> Return false /\
  (loadTheme env_theme theme0 w0).1.1 = Return true.
Proof.
  cbv zeta.
  assert (Ho : ConfigParser.has_option (parser_of theme_conf_default) "GUI" "statusnone"
               = true) by (vm_compute; reflexivity).
  assert (Hg : ConfigParser.get (parser_of theme_conf_default) "GUI" "statusnone"
               = Return "12,x,3") by (vm_compute; reflexivity).
  assert (Hu : unreadable "12,x,3" = true) by (vm_compute; reflexivity).
  destruct (unreadable_colour_is_black _ _ _ _ w0 Ho Hg Hu) as (H1 & H2 & H3 & _).
  do 3 (split; [assumption|]). split; [exact H1|]. split; [exact H2|].
  split; [|vm_compute; reflexivity].
  apply (H3 env_theme theme0 w0); [eexists; vm_compute; reflexivity | vm_compute; reflexivity].
Defined.

(** C5 fails as stated: the load succeeds, the four-component value
    [1,2,3,4] is loaded as [1,2,3], and the palette role [window], whose
    value is [abc], stays unset instead of becoming [0,0,0]. *)
Lemma malformed_colour_not_black :
  let r := loadTheme env_theme theme0 w0 in
  let p := parser_of theme_conf_default in
  r.1.1 = Return true /\
  (* statussaved = 1,2,3,4 *)
  ConfigParser.get p "GUI" "statussaved" = Return "1,2,3,4" /\
  malformed "1,2,3,4" = true /\
  statSaved (guiCols r.1.2) = [1; 2; 3] /\
  statSaved (guiCols r.1.2) <> [0; 0; 0] /\
  (* window = abc *)
  ConfigParser.get p "Palette" "window" = Return "abc" /\
  malformed "abc" = true /\
  guiPalette r.1.2 Window = None /\
  QColor_channels <$> guiPalette r.1.2 Window <> Some [0; 0; 0].
Proof.
  cbv zeta. repeat split; try (vm_compute; reflexivity); vm_compute; discriminate.
Qed.

(** A value with a stray [%]: [get] raises, and the exception leaves
    [loadTheme] after the colours before it were assigned and before the
    application palette is set. *)
Lemma stray_percent_raises :
  let r := loadTheme env_percent theme0 w0 in
  r.1.1 = Raise InterpolationSyntaxError /\
  treeWCount (guiCols r.1.2) = [1; 2; 3] /\
  statNone (guiCols r.1.2) = statNone (guiCols theme0) /\
  QColor_channels <$> guiPalette r.1.2 Window = Some [10; 20; 30] /\
  app_palette r.2 Window = None.
Proof. cbv zeta. repeat split; vm_compute; reflexivity. Qed.

Lemma QColor_channels_rgb c : is_rgb (QColor_channels c).
Proof.
  destruct c as [|r g b]; (split; [reflexivity|]); cbn [QColor_channels].
  - repeat constructor; lia.
  - pose proof (Byte.to_N_bounded r). pose proof (Byte.to_N_bounded g).
    pose proof (Byte.to_N_bounded b). repeat constructor; lia.
Qed.

(** The colours of a section after its assignments: each is the old one
    or the value of its option. *)
Ltac fields :=
  cbn [assigned fst snd treeWCount statNone statUnsaved statSaved
       colBack colText colLink colHead colHeadH colEmph colDialN colDialD
       colDialS colComm colKey colVal colSpell colTagErr colRepTag colMod].

Ltac run_assigned :=
  repeat match goal with
         | |- context [colour_value ?p ?s ?n] =>
             let E := fresh "E" in
             destruct (colour_value p s n) eqn:E; fields
         end.

Lemma GUI_after_stored confParser old :
  ConfigParser.has_section confParser "GUI" = true ->
  (GUI_after confParser old).1 = Return tt ->
  Forall2 (stored_as confParser "GUI") gui_names (gui_list (GUI_after confParser old).2).
Proof.
  unfold GUI_after. intros ->. unfold GUI_slots, gui_names, gui_list. fields.
  run_assigned; try discriminate. intros _.
  repeat (constructor; [now apply colour_value_stored|]). constructor.
Qed.

Lemma Syntax_after_stored confParser old :
  ConfigParser.has_section confParser "Syntax" = true ->
  (Syntax_after confParser old).1 = Return tt ->
  Forall2 (stored_as confParser "Syntax") syntax_names
          (syntax_list (Syntax_after confParser old).2).
Proof.
  unfold Syntax_after. intros ->. unfold Syntax_slots, syntax_names, syntax_list. fields.
  run_assigned; try discriminate. intros _.
  repeat (constructor; [now apply colour_value_stored|]). constructor.
Qed.

Ltac each_triple :=
  repeat match goal with
         | H : Forall _ (_ :: _) |- _ =>
             let H1 := fresh in apply Forall_cons_1 in H; destruct H as [H1 H]
         end;
  repeat constructor; assumption.

Lemma assigned_inv {S V} (I : S -> Prop) (Q : V -> Prop) (value : string -> Outcome V)
    (slots : list (string * (V -> S -> S))) :
  (forall n v, value n = Return v -> Q v) ->
  Forall (fun slot => forall v s, Q v -> I s -> I (slot.2 v s)) slots ->
  forall s, I s -> I (assigned value slots s).2.
Proof.
  intros Hq Hs. induction Hs as [|[n set] rest H _ IH]; intros s Hi; cbn [assigned].
  - exact Hi.
  - destruct (value n) as [v|e] eqn:E; [|exact Hi].
    apply IH. apply H; [exact (Hq _ _ E) | exact Hi].
Qed.

Lemma GUI_after_triples confParser old :
  Forall is_triple (gui_list old) ->
  Forall is_triple (gui_list (GUI_after confParser old).2).
Proof.
  unfold GUI_after. destruct (ConfigParser.has_section _ _); [|trivial].
  apply (assigned_inv (fun g => Forall is_triple (gui_list g)) is_triple).
  - intros n v. apply colour_value_triple.
  - unfold GUI_slots, gui_list.
    repeat (constructor;
            [intros v s Hv Hs; cbn [snd treeWCount statNone statUnsaved statSaved];
             each_triple|]).
    constructor.
Qed.

Lemma Syntax_after_triples confParser old :
  Forall is_triple (syntax_list old) ->
  Forall is_triple (syntax_list (Syntax_after confParser old).2).
Proof.
  unfold Syntax_after. destruct (ConfigParser.has_section _ _); [|trivial].
  apply (assigned_inv (fun g => Forall is_triple (syntax_list g)) is_triple).
  - intros n v. apply colour_value_triple.
  - unfold Syntax_slots, syntax_list.
    repeat (constructor;
            [intros v s Hv Hs;
             cbn [snd colBack colText colLink colHead colHeadH colEmph colDialN colDialD
                  colDialS colComm colKey colVal colSpell colTagErr colRepTag colMod];
             each_triple|]).
    constructor.
Qed.

Lemma palette_value_written confParser cnfSec cnfName c :
  palette_value confParser cnfSec cnfName = Return (Some c) ->
  exists v x y z,
    ConfigParser.get confParser cnfSec cnfName = Return v /\
    written_triple v = Some [x; y; z] /\ QColor_new x y z = Return c.
Proof.
  unfold palette_value.
  destruct (ConfigParser.has_option _ _ _); [|discriminate].
  destruct (ConfigParser.get _ _ _) as [v|e]; [|discriminate].
  rewrite read_triple_written.
  destruct (written_triple v) as [[|x [|y [|z [|t l]]]]|] eqn:E; try discriminate.
  destruct (QColor_new x y z) as [c'|e] eqn:Q; [|discriminate].
  intros [= <-]. now exists v, x, y, z.
Qed.

Lemma palette_after_role confParser cnfSec es role : forall pal,
  (palette_after confParser cnfSec es pal).2 role = pal role \/
  exists n c, (n, role) ∈ es /\ palette_value confParser cnfSec n = Return (Some c) /\
              (palette_after confParser cnfSec es pal).2 role = Some c.
Proof.
  induction es as [|[n r] es IH]; intros pal; cbn [palette_after].
  - now left.
  - destruct (palette_value confParser cnfSec n) as [[c|]|e] eqn:E; [| |now left].
    + destruct (IH (setColor pal r c)) as [H|(n' & c' & H1 & H2 & H3)].
      * destruct (decide (role = r)) as [->|Er].
        -- right. exists n, c. split; [left|]. split; [exact E|].
           rewrite H. unfold setColor. now case_decide.
        -- left. rewrite H. unfold setColor. now case_decide.
      * right. exists n', c'. split; [now right|]. now split.
    + destruct (IH pal) as [H|(n' & c' & H1 & H2 & H3)]; [now left|].
      right. exists n', c'. split; [now right|]. now split.
Qed.

(** The attributes that [loadTheme] and [loadSyntax] work on. *)
Lemma loadTheme_attrs env self w :
  let s := (loadTheme env self w).1.2 in
  let p := theme_parser env self in
  helpText s = helpText self /\ syntaxCols s = syntaxCols self /\
  syntaxMeta s = syntaxMeta self /\
  (guiCols s = guiCols self \/ guiCols s = (GUI_after p (guiCols self)).2) /\
  (guiPalette s = guiPalette self \/
   guiPalette s = (Palette_after p (guiPalette self)).2) /\
  ((loadTheme env self w).1.1 = Return true ->
   (Main_after p (themeMeta self)).1 = Return tt /\
   themeMeta s = (Main_after p (themeMeta self)).2 /\
   (Palette_after p (guiPalette self)).1 = Return tt /\
   guiPalette s = (Palette_after p (guiPalette self)).2 /\
   (GUI_after p (guiCols self)).1 = Return tt /\
   guiCols s = (GUI_after p (guiCols self)).2).
Proof.
  cbv zeta. rewrite loadTheme_run.
  destruct (read_css env self); [|repeat split; (now left) || discriminate].
  destruct (read_config env _).2; [repeat split; (now left) || discriminate|]. cbv zeta.
  destruct (Main_after _ _) as [[[]|e1] m]; cbn [fst snd];
    [|repeat split; (now left) || discriminate].
  destruct (Palette_after _ _) as [[[]|e2] pal]; cbn [fst snd];
    [|repeat split; (now left) || (now right) || discriminate].
  destruct (GUI_after _ _) as [[[]|e3] g]; cbn [fst snd];
    repeat split; (now left) || (now right) || discriminate.
Qed.

Lemma loadSyntax_attrs env self w :
  let s := (loadSyntax env self w).1.2 in
  let p := syntax_parser env self in
  helpText s = helpText self /\ guiCols s = guiCols self /\
  guiPalette s = guiPalette self /\ themeMeta s = themeMeta self /\
  (syntaxCols s = syntaxCols self \/
   syntaxCols s = (Syntax_after p (syntaxCols self)).2) /\
  ((loadSyntax env self w).1.1 = Return true ->
   (Main_after p (syntaxMeta self)).1 = Return tt /\
   syntaxMeta s = (Main_after p (syntaxMeta self)).2 /\
   (Syntax_after p (syntaxCols self)).1 = Return tt /\
   syntaxCols s = (Syntax_after p (syntaxCols self)).2).
Proof.
  cbv zeta. rewrite loadSyntax_run.
  destruct (read_config env _).2; [repeat split; (now left) || discriminate|]. cbv zeta.
  destruct (Main_after _ _) as [[[]|e1] m]; cbn [fst snd];
    [|repeat split; (now left) || discriminate].
  destruct (Syntax_after _ _) as [[[]|e3] g]; cbn [fst snd];
    repeat split; (now left) || (now right) || discriminate.
Qed.

Lemma held_triples_parts P self :
  Forall P (held_triples self) <->
  Forall P (gui_list (guiCols self)) /\ P (helpText self) /\
  Forall P (syntax_list (syntaxCols self)).
Proof. unfold held_triples. rewrite Forall_app, Forall_cons. tauto. Qed.

(** C6, as amended: every colour list of the object has exactly three
    integers after a load as before it, whatever the outcome. After a
    successful load with a [GUI] (or [Syntax]) section, each colour of the
    section is exactly what its entry writes, the first three
    comma-separated integers of the value as [int()] reads them, and
    [0,0,0] when the entry is missing or writes no colour: the channels are
    stored without range check or clamping. A palette role holds the colour
    it held before or the [QColor] built from the three integers that its
    entry writes, and a [QColor] always reads three channels within
    0..255: Qt makes it invalid, reading 0, 0, 0, when a channel given to it
    is out of range. *)
Theorem loaded_triples_have_three_channels env self w :
  let r := loadTheme env self w in
  let s := loadSyntax env self w in
  (Forall is_triple (held_triples self) ->
   Forall is_triple (held_triples r.1.2) /\ Forall is_triple (held_triples s.1.2)) /\
  (r.1.1 = Return true ->
   ConfigParser.has_section (theme_parser env self) "GUI" = true ->
   Forall2 (stored_as (theme_parser env self) "GUI") gui_names
           (gui_list (guiCols r.1.2))) /\
  (s.1.1 = Return true ->
   ConfigParser.has_section (syntax_parser env self) "Syntax" = true ->
   Forall2 (stored_as (syntax_parser env self) "Syntax") syntax_names
           (syntax_list (syntaxCols s.1.2))) /\
  (forall role c, guiPalette r.1.2 role = Some c ->
     is_rgb (QColor_channels c) /\
     (guiPalette self role = Some c \/
      exists n v x y z,
        (n, role) ∈ palette_entries /\
        ConfigParser.get (theme_parser env self) "Palette" n = Return v /\
        written_triple v = Some [x; y; z] /\ QColor_new x y z = Return c)).
Proof.
  cbv zeta.
  destruct (loadTheme_attrs env self w) as (T1 & T2 & _ & T3 & T4 & T5).
  destruct (loadSyntax_attrs env self w) as (S1 & S2 & _ & _ & S3 & S4).
  cbv zeta in *. split; [|split; [|split]].
  - intros H. apply held_triples_parts in H. destruct H as (Hg & Hh & Hs).
    split; apply held_triples_parts.
    + rewrite T1, T2. split; [|now split].
      destruct T3 as [-> | ->]; [exact Hg | now apply GUI_after_triples].
    + rewrite S1, S2. split; [exact Hg|]. split; [exact Hh|].
      destruct S3 as [-> | ->]; [exact Hs | now apply Syntax_after_triples].
  - intros Hok Hsec. destruct (T5 Hok) as (_ & _ & _ & _ & G1 & ->).
    now apply GUI_after_stored.
  - intros Hok Hsec. destruct (S4 Hok) as (_ & _ & C1 & ->).
    now apply Syntax_after_stored.
  - intros role c Hc. split; [apply QColor_channels_rgb|].
    destruct T4 as [E | E]; rewrite E in Hc; [now left|].
    unfold Palette_after in Hc.
    destruct (ConfigParser.has_section _ _); [|now left].
    destruct (palette_after_role (theme_parser env self) "Palette" palette_entries role
                (guiPalette self)) as [H | (n & c' & H1 & H2 & H3)].
    + left. now rewrite <- H.
    + right. assert (c' = c) by congruence. subst c'.
      destruct (palette_value_written _ _ _ _ H2) as (v & x & y & z & V1 & V2 & V3).
      exists n, v, x, y, z. repeat split; assumption.
Qed.

(** The default theme: [statussaved = 1,2,3,4] is stored as [1,2,3], the
    unreadable [statusnone] as [0,0,0], and the palette colour written
    [300,0,0] reads [0,0,0]. *)
Lemma loaded_triples_have_three_channels_witness :
  let r := loadTheme env_theme theme0 w0 in
  Forall is_triple (held_triples theme0) /\
  r.1.1 = Return true /\
  Forall is_triple (held_triples r.1.2) /\
  stored_as (theme_parser env_theme theme0) "GUI" "statussaved" [1; 2; 3] /\
  gui_list (guiCols r.1.2) = [[300; 0; 0]; [0; 0; 0]; [0; 0; 0]; [1; 2; 3]] /\
  QColor_channels <$> guiPalette r.1.2 Base = Some [0; 0; 0] /\
  QColor_new 300 0 0 = Return QColor_invalid.
Proof.
  cbv zeta.
  assert (H0 : Forall is_triple (held_triples theme0)) by (repeat constructor).
  assert (Hok : (loadTheme env_theme theme0 w0).1.1 = Return true)
    by (vm_compute; reflexivity).
  assert (Hl : gui_list (guiCols (loadTheme env_theme theme0 w0).1.2)
               = [[300; 0; 0]; [0; 0; 0]; [0; 0; 0]; [1; 2; 3]])
    by (vm_compute; reflexivity).
  destruct (loaded_triples_have_three_channels env_theme theme0 w0) as (T1 & T2 & _ & _).
  cbv zeta in *. destruct (T1 H0) as [T1' _].
  assert (Hs : ConfigParser.has_section (theme_parser env_theme theme0) "GUI" = true)
    by (vm_compute; reflexivity).
  specialize (T2 Hok Hs). rewrite Hl in T2.
  split; [exact H0|]. split; [exact Hok|]. split; [exact T1'|].
  split.
  - unfold gui_names in T2.
    apply Forall2_cons_1 in T2. destruct T2 as [_ T2].
    apply Forall2_cons_1 in T2. destruct T2 as [_ T2].
    apply Forall2_cons_1 in T2. destruct T2 as [_ T2].
    apply Forall2_cons_1 in T2. destruct T2 as [T2 _]. exact T2.
  - split; [exact Hl|]. split; vm_compute; reflexivity.
Defined.

(** C6 fails as stated: both loads succeed and store the channels 300 and
    -5 that the config files give. *)
Lemma loaded_channel_out_of_range :
  let r := loadTheme env_theme theme0 w0 in
  let s := loadSyntax env_theme theme0 w0 in
  all_triples is_rgb theme0 /\
  r.1.1 = Return true /\ s.1.1 = Return true /\
  (* treewordcount = 300,0,0 *)
  treeWCount (guiCols r.1.2) = [300; 0; 0] /\
  (* text = 0,0,-5 *)
  colText (syntaxCols s.1.2) = [0; 0; -5] /\
  ~ all_triples is_rgb r.1.2 /\ ~ all_triples is_rgb s.1.2.
Proof.
  cbv zeta. split.
  { split; [repeat constructor; lia | discriminate]. }
  do 4 (split; [vm_compute; reflexivity|]).
  split; intros [H _].
  - apply Forall_inv in H. destruct H as [_ H]. apply Forall_inv in H.
    vm_compute in H. destruct H as [_ H]. apply H. reflexivity.
  - apply Forall_inv_tail in H. do 5 apply Forall_inv_tail in H.
    apply Forall_inv in H. destruct H as [_ H].
    do 2 apply Forall_inv_tail in H. apply Forall_inv in H.
    vm_compute in H. destruct H as [H _]. apply H. reflexivity.
Qed.

End Colours.

(* ===================================================================== *)
(** * The help-text colour *)
(* ===================================================================== *)

Section HelpText.
Import GuiTheme Fixture.

Lemma helpText_of_spec Lb Lt :
  ordered Lb Lt ->
  helpText_of Lb Lt =
    (c ← Py.int_of_float (255 * spec_helpLum Lb Lt)%float; Some [c; c; c]).
Proof.
  unfold ordered, helpText_of, helpLCol, spec_helpLum. intros ->.
  destruct (Lb <=? Lt)%float; reflexivity.
Qed.

Lemma updateTheme_helpText env self w :
  match updateTheme env self w with
  | ((Return b, self'), w') =>
      b = true /\
      Some (helpText self') =
        helpText_of (lightnessF env (app_palette w') Window)
                    (lightnessF env (app_palette w') WindowText)
  | ((Raise e, self'), w') =>
      let r1 := loadTheme env (set_paths (current_settings env) self) w in
      let r2 := loadSyntax env r1.1.2 r1.2 in
      helpText self' = helpText self /\
      (r1.1.1 = Raise e \/
       (is_Return r1.1.1 /\ r2.1.1 = Raise e) \/
       (is_Return r1.1.1 /\ is_Return r2.1.1 /\
        helpText_of (lightnessF env (app_palette w') Window)
                    (lightnessF env (app_palette w') WindowText) = None))
  end.
Proof.
  unfold updateTheme. rewrite step_run.
  destruct (loadTheme_attrs env (set_paths (current_settings env) self) w) as (A1 & _).
  cbv zeta in A1. cbn [helpText set_paths] in A1.
  destruct (loadTheme env _ w) as [[[b1|e1] s1] w1]; cbn [fst snd] in *.
  2:{ split; [exact A1 | now left]. }
  rewrite step_run.
  destruct (loadSyntax_attrs env s1 w1) as (B1 & _). cbv zeta in B1.
  destruct (loadSyntax env s1 w1) as [[[b2|e2] s2] w2]; cbn [fst snd] in *.
  2:{ split; [congruence|]. right. left. now split. }
  unfold bind, ret, qApp_palette.
  destruct (helpText_of _ _) as [c|] eqn:E.
  - split; [reflexivity|]. cbn [helpText set_helpText]. now rewrite E.
  - split; [congruence|]. right. right. now repeat split.
Qed.

(** C7: the help-text colour has three equal channels,
    [int(255*h)] with [h = Lb + 0.65*(Lt - Lb)] if [Lb <= Lt] and
    [h = Lt + 0.65*(Lb - Lt)] otherwise (binary64 arithmetic); for
    Lb = 0.9 and Lt = 0.1 it is [158,158,158]; and this is the value that
    [updateTheme] stores in [helpText] when it returns, from the lightness
    of the window and window-text colours of the application palette. When
    an exception leaves [updateTheme], [helpText] is as before: a loader
    raised, or [int] raised on the blended level. *)
Theorem helpText_is_gray Lb Lt :
  ordered Lb Lt ->
  helpText_of Lb Lt =
    (c ← Py.int_of_float (255 * spec_helpLum Lb Lt)%float; Some [c; c; c]) /\
  helpText_of 0.9 0.1 = Some [158; 158; 158] /\
  (forall env self w,
      match updateTheme env self w with
      | ((Return b, self'), w') =>
          b = true /\
          Some (helpText self') =
            helpText_of (lightnessF env (app_palette w') Window)
                        (lightnessF env (app_palette w') WindowText)
      | ((Raise e, self'), w') =>
          let r1 := loadTheme env (set_paths (current_settings env) self) w in
          let r2 := loadSyntax env r1.1.2 r1.2 in
          helpText self' = helpText self /\
          (r1.1.1 = Raise e \/
           (is_Return r1.1.1 /\ r2.1.1 = Raise e) \/
           (is_Return r1.1.1 /\ is_Return r2.1.1 /\
            helpText_of (lightnessF env (app_palette w') Window)
                        (lightnessF env (app_palette w') WindowText) = None))
      end).
Proof.
  intros H. split; [now apply helpText_of_spec|].
  split; [vm_compute; reflexivity | apply updateTheme_helpText].
Qed.

(** Background lightness 0.9, text lightness 0.1. *)
Lemma helpText_is_gray_witness :
  ordered 0.9 0.1 /\
  helpText_of 0.9 0.1 =
    (c ← Py.int_of_float (255 * spec_helpLum 0.9 0.1)%float; Some [c; c; c]) /\
  (Py.int_of_float (255 * spec_helpLum 0.9 0.1)%float = Some 158) /\
  match updateTheme env_theme init w0 with
  | ((Return _, self'), _) => helpText self' = [158; 158; 158]
  | ((Raise _, _), _) => False
  end.
Proof.
  assert (O : ordered 0.9 0.1) by (vm_compute; reflexivity).
  destruct (helpText_is_gray 0.9 0.1 O) as (H1 & H2 & H3).
  split; [exact O|]. split; [exact H1|].
  split; vm_compute; reflexivity.
Defined.
End HelpText.

(* ===================================================================== *)
(** * Listings *)
(* ===================================================================== *)

Section Listings.
Import GuiTheme Fixture.

Section SortedListing.
Context {A : Type} (key : A -> string).

Lemma insert_sorted_perm x l : Permutation (Py.insert_sorted key x l) (x :: l).
Proof.
  induction l as [|y l IH]; cbn [Py.insert_sorted]; [reflexivity|].
  destruct (String.leb (key x) (key y)); [reflexivity|].
  rewrite IH. apply perm_swap.
Qed.

Lemma insert_sorted_HdRel a x l :
  by_key key a x -> HdRel (by_key key) a l -> HdRel (by_key key) a (Py.insert_sorted key x l).
Proof.
  intros Hax Hl. destruct l as [|y l]; cbn [Py.insert_sorted].
  - now constructor.
  - destruct (String.leb (key x) (key y)); constructor; [exact Hax|].
    now inversion Hl.
Qed.

Lemma insert_sorted_Sorted x l :
  Sorted (by_key key) l -> Sorted (by_key key) (Py.insert_sorted key x l).
Proof.
  induction 1 as [|y l Hs IH Hd]; cbn [Py.insert_sorted].
  - repeat constructor.
  - destruct (String.leb (key x) (key y)) eqn:E.
    + constructor; [now constructor | now constructor].
    + constructor; [exact IH|].
      apply insert_sorted_HdRel; [|exact Hd].
      destruct (String.leb_total (key x) (key y)) as [H|H]; [congruence | exact H].
Qed.

Lemma sorted_Sorted l : Sorted (by_key key) (Py.sorted key l).
Proof.
  induction l as [|x l IH]; cbn [Py.sorted foldr]; [constructor|].
  now apply insert_sorted_Sorted.
Qed.

Lemma sorted_perm l : Permutation (Py.sorted key l) l.
Proof.
  induction l as [|x l IH]; cbn [Py.sorted foldr]; [reflexivity|].
  fold (Py.sorted key l). now rewrite insert_sorted_perm, IH.
Qed.
End SortedListing.

(** The listing functions, when they scan. *)
Lemma listThemes_run env self w dirs :
  themeList self = [] ->
  listdir env (Py.join (conf_themeRoot env) guiPath) = Some dirs ->
  listThemes env self w =
    let r := scan_themes env ConfigParser.empty dirs [] w in
    match r.1.1 with
    | Raise e => ((Raise e, set_themeList r.1.2 self), r.2)
    | Return _ =>
        ((Return (Py.sorted snd r.1.2), set_themeList (Py.sorted snd r.1.2) self), r.2)
    end.
Proof.
  intros Hs Hl. unfold listThemes. rewrite Hs, Hl, step_run, on_attr_run, Hs. cbv zeta.
  now destruct (scan_themes _ _ _ _ _) as [[[[]|e] l] w1].
Qed.

Lemma listSyntax_run env self w files :
  syntaxList self = [] ->
  listdir env (syntax_dir env) = Some files ->
  listSyntax env self w =
    let r := scan_syntax env (syntax_dir env) ConfigParser.empty files [] w in
    match r.1.1 with
    | Raise e => ((Raise e, set_syntaxList r.1.2 self), r.2)
    | Return true => ((Return [], set_syntaxList r.1.2 self), r.2)
    | Return false =>
        ((Return (Py.sorted snd r.1.2), set_syntaxList (Py.sorted snd r.1.2) self), r.2)
    end.
Proof.
  intros Hs Hl. unfold listSyntax. fold (syntax_dir env).
  rewrite Hs, Hl. unfold bind. rewrite on_attr_run, Hs. cbv zeta.
  now destruct (scan_syntax _ _ _ _ _ _) as [[[[|]|e] l] w1].
Qed.

Lemma icon_listThemes_run env self w dirs :
  GuiIcons.themeList self = [] ->
  listdir env (conf_iconPath env) = Some dirs ->
  GuiIcons.listThemes env self w =
    let r := GuiIcons.scan_themes env ConfigParser.empty dirs [] w in
    match r.1.1 with
    | Raise e => ((Raise e, GuiIcons.set_themeList r.1.2 self), r.2)
    | Return _ =>
        ((Return (Py.sorted snd r.1.2),
          GuiIcons.set_themeList (Py.sorted snd r.1.2) self), r.2)
    end.
Proof.
  intros Hs Hl. unfold GuiIcons.listThemes.
  rewrite Hs, Hl, step_run, on_attr_run, Hs. cbv zeta.
  now destruct (GuiIcons.scan_themes _ _ _ _ _) as [[[[]|e] l] w1].
Qed.

(** What holds of [listThemes] whatever the folders hold: a new listing is
    ascending by display name, and a non-empty listing is kept and returned
    by every later call. *)
Lemma listThemes_sorted env self w l :
  themeList self = [] -> (listThemes env self w).1.1 = Return l ->
  Sorted (by_key snd) l.
Proof.
  intros Hs H.
  destruct (listdir env (Py.join (conf_themeRoot env) guiPath)) as [dirs|] eqn:Hl.
  - rewrite (listThemes_run _ _ _ _ Hs Hl) in H. cbv zeta in H.
    destruct (scan_themes _ _ _ _ _) as [[[[]|e] l1] w1]; cbn [fst snd] in H;
      [|discriminate].
    injection H as <-. apply sorted_Sorted.
  - unfold listThemes in H. rewrite Hs, Hl in H. discriminate H.
Qed.

Lemma listThemes_cached env self w :
  themeList self <> [] -> listThemes env self w = ((Return (themeList self), self), w).
Proof.
  intros H. unfold listThemes. destruct (themeList self); [congruence|reflexivity].
Qed.

(** C8 on three theme folders [a], [b], [c] of which [b] has no [name]
    under [Main]. Read in the order a, b, c, the parser still holds the
    name of [a] when [b] is examined, and [b] is listed under it: three
    entries. Read in the order b, a, c, the list has the two named
    themes. *)
Lemma listThemes_lists_nameless_theme :
  let r := listThemes (three_themes ["a"; "b"; "c"]) init w0 in
  ConfigParser.has_option
    (parser_of (ConfigParser.rr_content (theme_conf (three_themes ["a"; "b"; "c"]) "b")))
    "Main" "name" = false /\
  r.1.1 = Return [("a", "Alpha"); ("b", "Alpha"); ("c", "Gamma")] /\
  (listThemes (three_themes ["b"; "a"; "c"]) init w0).1.1
    = Return [("a", "Alpha"); ("c", "Gamma")].
Proof. cbv zeta. repeat split; vm_compute; reflexivity. Qed.





End Listings.

(* ===================================================================== *)
(** * The theme map and the icon objects *)
(* ===================================================================== *)

Section IconMap.
Import GuiIcons Fixture.

Lemma load_Map_fst env dir items : forall tm w w',
  (load_Map env dir items tm w).1 = (load_Map env dir items tm w').1.
Proof.
  induction items as [|[n f] rest IH]; intros tm w w'; cbn [load_Map]; [reflexivity|].
  destruct (ICON_MAP !! n); [destruct (isfile env _)|]; unfold bind; cbn [logger]; apply IH.
Qed.

Lemma load_Map_next_icon env dir items : forall tm w,
  next_icon (load_Map env dir items tm w).2 = next_icon w.
Proof.
  induction items as [|[n f] rest IH]; intros tm w; cbn [load_Map]; [reflexivity|].
  destruct (ICON_MAP !! n); [destruct (isfile env _)|]; unfold bind; cbn [logger];
    now rewrite IH.
Qed.

Lemma load_Map_entries env dir items : forall tm w key p,
  (load_Map env dir items tm w).1 !! key = Some p ->
  tm !! key = Some p \/
  (is_Some (ICON_MAP !! key) /\ isfile env p = true /\
   exists f, (key, f) ∈ items /\ p = Py.join dir f).
Proof.
  induction items as [|[n f] rest IH]; intros tm w key p; cbn [load_Map].
  - now left.
  - destruct (ICON_MAP !! n) as [h|] eqn:En; [destruct (isfile env _) eqn:Ef|];
      unfold bind; cbn [logger]; intros H; apply IH in H.
    + destruct H as [H|(H1 & H2 & f' & H3 & H4)].
      * rewrite lookup_insert in H. case_decide as E.
        -- subst key. right. split; [rewrite En; eauto|].
           assert (p = Py.join dir f) by congruence. subst p.
           split; [exact Ef|]. exists f. split; [left|reflexivity].
        -- now left.
      * right. repeat split; try assumption. exists f'. split; [now right|assumption].
    + destruct H as [H|(H1 & H2 & f' & H3 & H4)]; [now left|].
      right. repeat split; try assumption. exists f'. split; [now right|assumption].
    + destruct H as [H|(H1 & H2 & f' & H3 & H4)]; [now left|].
      right. repeat split; try assumption. exists f'. split; [now right|assumption].
Qed.

Lemma assigned_outcome_state {S V} (value : string -> Outcome V)
    (slots : list (string * (V -> S -> S))) : forall s s',
  (assigned value slots s).1 = (assigned value slots s').1.
Proof.
  induction slots as [|[n set] rest IH]; intros s s'; cbn [assigned]; [reflexivity|].
  destruct (value n); [apply IH|reflexivity].
Qed.

Lemma Main_after_outcome confParser old old' :
  (Main_after confParser old).1 = (Main_after confParser old').1.
Proof.
  unfold Main_after. destruct (ConfigParser.has_section _ _); [|reflexivity].
  apply assigned_outcome_state.
Qed.

(** The outcome of [updateTheme] and the object after it. *)
Lemma icons_updateTheme_run env self w :
  (updateTheme env self w).1 =
    let dir := Py.join (conf_iconPath env) (conf_guiIcons env) in
    let cf := Py.join dir confName in
    let p := icons_parser env in
    let self0 := set_paths dir cf (set_themeMap ∅ self) in
    if isdir env dir then
      match ConfigParser.rr_error (read_conf env cf) with
      | Some _ => (Return false, self0)
      | None =>
          let m := Main_after p (meta self) in
          let self1 := set_meta m.2 self0 in
          match m.1 with
          | Raise e => (Raise e, self1)
          | Return _ =>
              if ConfigParser.has_section p "Map" then
                match ConfigParser.items p "Map" with
                | Raise e => (Raise e, self1)
                | Return l =>
                    (Return true, set_themeMap (load_Map env dir l ∅ w).1 self1)
                end
              else (Return true, self1)
          end
      end
    else (Return false, set_themeMap ∅ self).
Proof.
  unfold icons_parser, updateTheme, bind, ret. cbn [logger]. cbv zeta.
  destruct (isdir env _); [|reflexivity].
  unfold ConfigParser.read_file. cbn [fst].
  destruct (ConfigParser.rr_error _); [reflexivity|].
  rewrite step_run, on_attr_run, read_Main_value, read_Main_world.
  cbn [fst snd meta set_paths set_themeMap].
  destruct (Main_after _ _) as [[[]|e] m]; cbn [fst snd]; [|reflexivity].
  rewrite step_run. unfold load_Map_section, bind, ret.
  destruct (ConfigParser.has_section _ "Map"); [|reflexivity].
  destruct (ConfigParser.items _ "Map") as [l|e]; [|reflexivity].
  cbn [themeMap set_meta set_paths set_themeMap].
  match goal with |- context [load_Map ?e ?d ?i ?t ?w0] =>
    rewrite (load_Map_fst e d i t w w0); destruct (load_Map e d i t w0) end.
  reflexivity.
Qed.

(** What [updateTheme] leaves in [themeMap]. *)
Lemma updateTheme_themeMap env self w key p :
  themeMap (updateTheme env self w).1.2 !! key = Some p ->
  let dir := Py.join (conf_iconPath env) (conf_guiIcons env) in
  isdir env dir = true /\
  exists l,
    ConfigParser.items (icons_parser env) "Map" = Return l /\
    (load_Map env dir l ∅ w).1 !! key = Some p.
Proof.
  rewrite icons_updateTheme_run. cbv zeta.
  destruct (isdir env _); [|cbn [snd themeMap set_themeMap]; now rewrite lookup_empty].
  destruct (ConfigParser.rr_error _);
    [cbn [snd themeMap set_paths set_themeMap]; now rewrite lookup_empty|].
  destruct (Main_after _ _).1;
    [|cbn [snd themeMap set_meta set_paths set_themeMap]; now rewrite lookup_empty].
  destruct (ConfigParser.has_section _ _);
    [|cbn [snd themeMap set_meta set_paths set_themeMap]; now rewrite lookup_empty].
  destruct (ConfigParser.items _ _) as [l|e];
    [|cbn [snd themeMap set_meta set_paths set_themeMap]; now rewrite lookup_empty].
  cbn [snd themeMap set_themeMap]. intros H. split; [reflexivity|]. now exists l.
Qed.

(** X1: whatever the config holds, every entry that [updateTheme] leaves in
    the theme map has a key of ICON_MAP and a file that exists. The path of
    the file is [os.path.join] of the folder of the selected theme and the
    value that [items] gives for the entry of the [Map] section: it lies in
    the theme folder when the value is a plain file name, and is the value
    itself, wherever that lies, when the value is an absolute path. *)
Theorem themeMap_entries_valid env self w key p :
  themeMap (updateTheme env self w).1.2 !! key = Some p ->
  let dir := Py.join (conf_iconPath env) (conf_guiIcons env) in
  is_Some (ICON_MAP !! key) /\ isfile env p = true /\ isdir env dir = true /\
  exists l f,
    ConfigParser.items (icons_parser env) "Map" = Return l /\
    (key, f) ∈ l /\ p = Py.join dir f /\
    (forall f', f = String "/"%char f' -> p = f).
Proof.
  intros H. apply updateTheme_themeMap in H. cbv zeta in *.
  destruct H as (Hd & l & Hi & H). apply load_Map_entries in H.
  destruct H as [H|(H1 & H2 & f & H3 & H4)]; [now rewrite lookup_empty in H|].
  repeat split; try assumption. exists l, f. repeat split; try assumption.
  intros f' ->. exact H4.
Qed.

(** The entry for [add] of the theme typicons, and an entry with an
    absolute path. *)
Lemma themeMap_entries_valid_witness :
  themeMap (updateTheme env_typicons init w0).1.2 !! "add"
    = Some "/nw/icons/typicons/plus.svg" /\
  is_Some (ICON_MAP !! "add") /\
  isfile env_typicons "/nw/icons/typicons/plus.svg" = true /\
  themeMap (updateTheme env_typicons init w0).1.2 !! "check"
    = Some "/nw/elsewhere/check.svg".
Proof.
  assert (H : themeMap (updateTheme env_typicons init w0).1.2 !! "add"
              = Some "/nw/icons/typicons/plus.svg") by (vm_compute; reflexivity).
  split; [exact H|].
  destruct (themeMap_entries_valid _ _ _ _ _ H) as (H1 & H2 & _).
  split; [assumption|]. split; [assumption|]. vm_compute; reflexivity.
Defined.

(** X3: the theme map after [updateTheme], and its result, depend on the
    installation only, not on the object before the call: no entry of a
    theme selected earlier survives. *)
Theorem themeMap_rebuilt env self w self' w' :
  themeMap (updateTheme env self w).1.2 = themeMap (updateTheme env self' w').1.2 /\
  (updateTheme env self w).1.1 = (updateTheme env self' w').1.1.
Proof.
  rewrite !icons_updateTheme_run. cbv zeta.
  destruct (isdir env _); [|split; reflexivity].
  destruct (ConfigParser.rr_error _); [split; reflexivity|].
  rewrite (Main_after_outcome _ (meta self) (meta self')).
  destruct (Main_after _ (meta self')).1; [|split; reflexivity].
  destruct (ConfigParser.has_section _ _); [|split; reflexivity].
  destruct (ConfigParser.items _ _) as [l|e]; [|split; reflexivity].
  cbn [fst snd themeMap set_themeMap]. split; [apply load_Map_fst|reflexivity].
Qed.

(** X2: an entry of the [Map] section with an unknown key or a missing
    file is skipped on its own: the map is the one that the section without
    this entry gives. *)
Theorem rejected_entry_ignored env dir n f l1 : forall l2 tm w,
  ICON_MAP !! n = None \/ isfile env (Py.join dir f) = false ->
  (load_Map env dir (l1 ++ (n, f) :: l2) tm w).1 = (load_Map env dir (l1 ++ l2) tm w).1.
Proof.
  intros l2 tm w Hrej. revert tm w.
  induction l1 as [|[n1 f1] l1 IH]; intros tm w; cbn [app load_Map].
  - destruct Hrej as [H|H].
    + rewrite H. unfold bind. cbn [logger]. apply load_Map_fst.
    + rewrite H. destruct (ICON_MAP !! n); unfold bind; cbn [logger]; apply load_Map_fst.
  - destruct (ICON_MAP !! n1); [destruct (isfile env (Py.join dir f1))|];
      unfold bind; cbn [logger]; apply IH.
Qed.

(** The unknown key [bogus] between the entries of typicons. *)
Lemma rejected_entry_ignored_witness :
  let dir := "/nw/icons/typicons" in
  let l1 := [("add", "plus.svg"); ("save", "disk.svg")] in
  let l2 := [("edit", "missing.svg")] in
  ICON_MAP !! "bogus" = None /\
  (load_Map env_typicons dir (l1 ++ ("bogus", "plus.svg") :: l2) ∅ w0).1
    = (load_Map env_typicons dir (l1 ++ l2) ∅ w0).1.
Proof.
  cbv zeta. split; [vm_compute; reflexivity|].
  apply (rejected_entry_ignored env_typicons "/nw/icons/typicons" "bogus" "plus.svg").
  left. vm_compute; reflexivity.
Defined.
End IconMap.

Section IconObjects.
Import GuiIcons Fixture.

Lemma _loadIcon_fallback_new env key w :
  icon_id (_loadIcon_fallback env key w).1 = next_icon w /\
  next_icon (_loadIcon_fallback env key w).2 = S (next_icon w).
Proof.
  unfold _loadIcon_fallback.
  destruct (conf_guiDark env && isfile env _); [split; reflexivity|].
  destruct (isfile env _); split; reflexivity.
Qed.

Lemma _loadIcon_new env self key w :
  icon_id (_loadIcon env self key w).1 = next_icon w /\
  next_icon (_loadIcon env self key w).2 = S (next_icon w).
Proof.
  unfold _loadIcon.
  destruct (ICON_MAP !! key) as [[sp fd]|]; [|split; reflexivity].
  destruct (themeMap self !! key); [split; reflexivity|].
  destruct sp; [split; reflexivity|].
  destruct fd as [n|]; [|apply _loadIcon_fallback_new].
  unfold bind. cbn [logger].
  destruct (hasThemeIcon env n); [split; reflexivity|].
  match goal with |- context [_loadIcon_fallback env key ?w'] =>
    exact (_loadIcon_fallback_new env key w') end.
Qed.

Lemma getIcon_next_icon env self key w :
  next_icon (getIcon env self key w).2 =
    match qIcons self !! key with
    | Some _ => next_icon w
    | None => S (next_icon w)
    end.
Proof.
  destruct (qIcons self !! key) as [q|] eqn:H.
  - now rewrite (getIcon_hit _ _ _ _ _ H).
  - rewrite (getIcon_miss _ _ _ _ H). cbn [snd]. apply _loadIcon_new.
Qed.

Lemma updateTheme_next_icon env self w :
  next_icon (updateTheme env self w).2 = next_icon w.
Proof.
  unfold updateTheme, bind, ret. cbn [logger].
  destruct (isdir env _); [|reflexivity].
  unfold ConfigParser.read_file.
  destruct (ConfigParser.rr_error _); [reflexivity|].
  rewrite step_run, on_attr_run, read_Main_world. cbn [fst snd].
  destruct (read_Main _ _ _) as [[[[]|e] m] w1]; cbn [fst snd]; [|reflexivity].
  rewrite step_run. unfold load_Map_section, bind, ret.
  destruct (ConfigParser.has_section _ "Map"); [|reflexivity].
  destruct (ConfigParser.items _ "Map") as [l|e]; [|reflexivity].
  match goal with |- context [load_Map ?e ?d ?i ?t ?w0] =>
    pose proof (load_Map_next_icon e d i t w0) as E; destruct (load_Map e d i t w0) end.
  exact E.
Qed.

Lemma getIcon_ids env self key w :
  ids_below self w /\ ids_distinct self ->
  ids_below (getIcon env self key w).1.2 (getIcon env self key w).2 /\
  ids_distinct (getIcon env self key w).1.2.
Proof.
  intros [Hb Hd]. destruct (qIcons self !! key) as [q|] eqn:H.
  - rewrite (getIcon_hit _ _ _ _ _ H). now split.
  - rewrite (getIcon_miss _ _ _ _ H). cbn [fst snd].
    destruct (_loadIcon_new env self key w) as [Eid Enext].
    split.
    + intros k q. cbn [qIcons set_qIcons]. rewrite lookup_insert, Enext.
      case_decide; [intros Hq; assert (q = (_loadIcon env self key w).1) by congruence;
                    subst q; lia|].
      intros Hq. specialize (Hb k q Hq). lia.
    + intros k1 k2 q1 q2. cbn [qIcons set_qIcons]. rewrite !lookup_insert.
      destruct (decide (key = k1)) as [E1|E1], (decide (key = k2)) as [E2|E2];
        intros Ha Hc Hne.
      * congruence.
      * assert (q1 = (_loadIcon env self key w).1) by congruence. subst q1.
        specialize (Hb k2 q2 Hc). lia.
      * assert (q2 = (_loadIcon env self key w).1) by congruence. subst q2.
        specialize (Hb k1 q1 Ha). lia.
      * exact (Hd k1 k2 q1 q2 Ha Hc Hne).
Qed.

Lemma getPixmap_getIcon env self key size w :
  getPixmap env self key size w =
    (({| pix_icon := (getIcon env self key w).1.1; pix_size := size |},
      (getIcon env self key w).1.2), (getIcon env self key w).2).
Proof.
  unfold getPixmap, bind, ret. now destruct (getIcon env self key w) as [[q s] w'].
Qed.

Lemma icon_run_ids self w : icon_run self w -> ids_below self w /\ ids_distinct self.
Proof.
  induction 1 as [w|env self key w _ IH|env self key size w _ IH|env self w _ IH
                  |self w w' _ IH Hle].
  - split.
    + intros k q H. cbn [init qIcons] in H. rewrite lookup_empty in H. discriminate H.
    + intros k1 k2 q1 q2 H. cbn [init qIcons] in H. rewrite lookup_empty in H.
      discriminate H.
  - now apply getIcon_ids.
  - rewrite getPixmap_getIcon. cbn [fst snd]. now apply getIcon_ids.
  - destruct IH as [Hb Hd]. split.
    + intros k q. rewrite updateTheme_qIcons, updateTheme_next_icon. apply Hb.
    + intros k1 k2 q1 q2. rewrite updateTheme_qIcons. apply Hd.
  - destruct IH as [Hb Hd]. split; [|exact Hd].
    intros k q Hq. specialize (Hb k q Hq). lia.
Qed.

(** X4: in every state that calls on the object lead to, the icons cached
    for two different keys are two different objects, and every cached icon
    was built before the present moment. *)
Theorem cached_icons_distinct self w k1 k2 q1 q2 :
  icon_run self w ->
  qIcons self !! k1 = Some q1 -> qIcons self !! k2 = Some q2 -> k1 <> k2 ->
  icon_id q1 <> icon_id q2 /\ (icon_id q1 < next_icon w)%nat.
Proof.
  intros R H1 H2 Hne. destruct (icon_run_ids self w R) as [Hb Hd].
  split; [exact (Hd k1 k2 q1 q2 H1 H2 Hne) | exact (Hb k1 q1 H1)].
Qed.

(** [add] and [save], resolved one after the other. *)
Lemma cached_icons_distinct_witness :
  exists q1 q2,
    icon_run two_icons.1 two_icons.2 /\
    qIcons two_icons.1 !! "add" = Some q1 /\ qIcons two_icons.1 !! "save" = Some q2 /\
    "add" <> "save" /\
    icon_id q1 <> icon_id q2 /\ (icon_id q1 < next_icon two_icons.2)%nat.
Proof.
  exists {| icon_id := 0; icon_src := FromFile "/nw/icons/fallback/add.svg" |},
         {| icon_id := 1; icon_src := FromStyle SP_DialogSaveButton |}.
  assert (R : icon_run two_icons.1 two_icons.2).
  { unfold two_icons. cbv zeta. cbn [fst snd]. do 2 apply run_getIcon. apply run_init. }
  assert (H1 : qIcons two_icons.1 !! "add"
               = Some {| icon_id := 0; icon_src := FromFile "/nw/icons/fallback/add.svg" |})
    by (vm_compute; reflexivity).
  assert (H2 : qIcons two_icons.1 !! "save"
               = Some {| icon_id := 1; icon_src := FromStyle SP_DialogSaveButton |})
    by (vm_compute; reflexivity).
  assert (Hne : "add" <> "save") by discriminate.
  repeat (split; [assumption|]).
  exact (cached_icons_distinct _ _ _ _ _ _ R H1 H2 Hne).
Defined.

(** X5: [getPixmap] renders the icon that [getIcon] gives and leaves it in
    the cache: a second pixmap of the key, of any size, and a later
    [getIcon] use the same icon object and build nothing. *)
Theorem getPixmap_shares_cache env self key size w env' size' :
  let r1 := getPixmap env self key size w in
  let r2 := getPixmap env' r1.1.2 key size' r1.2 in
  pix_icon r1.1.1 = (getIcon env self key w).1.1 /\
  pix_size r1.1.1 = size /\
  r1.1.2 = (getIcon env self key w).1.2 /\
  pix_icon r2.1.1 = pix_icon r1.1.1 /\ r2.1.2 = r1.1.2 /\ r2.2 = r1.2 /\
  getIcon env' r1.1.2 key r1.2 = ((pix_icon r1.1.1, r1.1.2), r1.2).
Proof.
  cbv zeta. rewrite !getPixmap_getIcon. cbn [fst snd pix_icon pix_size].
  pose proof (getIcon_stores env self key w) as H.
  rewrite (getIcon_hit _ _ _ _ _ H). cbn [fst snd]. repeat split.
Qed.

(** X6: a key of ICON_MAP without a QStyle icon, not cached, not in the
    theme map and not in the platform icon theme, is taken from the fallback
    folder: [<key>-dark.svg] in dark mode when that file exists, else
    [<key>.svg] when that file exists, else the icon is empty. *)
Theorem fallback_scenario env self key fd w :
  ICON_MAP !! key = Some (None, fd) ->
  qIcons self !! key = None -> themeMap self !! key = None ->
  (forall n, fd = Some n -> hasThemeIcon env n = false) ->
  let q := (getIcon env self key w).1.1 in
  let dark := fallback_file env key "-dark.svg" in
  let light := fallback_file env key ".svg" in
  icon_src q =
    if conf_guiDark env && isfile env dark then FromFile dark
    else if isfile env light then FromFile light
    else NullIcon.
Proof.
  intros Hk Hc Hm Hp. cbv zeta. rewrite (getIcon_miss _ _ _ _ Hc). cbn [fst].
  unfold _loadIcon. rewrite Hk, Hm. unfold fallback_file.
  assert (F : forall w', icon_src (_loadIcon_fallback env key w').1 =
            if conf_guiDark env && isfile env (Py.join3 (conf_iconPath env) fbackName (key +:+ "-dark.svg"))
            then FromFile (Py.join3 (conf_iconPath env) fbackName (key +:+ "-dark.svg"))
            else if isfile env (Py.join3 (conf_iconPath env) fbackName (key +:+ ".svg"))
                 then FromFile (Py.join3 (conf_iconPath env) fbackName (key +:+ ".svg"))
                 else NullIcon).
  { intros w'. unfold _loadIcon_fallback.
    destruct (conf_guiDark env && isfile env _); [reflexivity|].
    destruct (isfile env _); reflexivity. }
  destruct fd as [n|]; [|apply F].
  unfold bind. cbn [logger]. rewrite (Hp n eq_refl). apply F.
Qed.

(** [add] in dark mode, with and without its dark file. *)
Lemma fallback_scenario_witness :
  ICON_MAP !! "add" = Some (None, Some "list-add") /\
  hasThemeIcon env_dark "list-add" = false /\
  icon_src (getIcon env_dark init "add" w0).1.1
    = FromFile "/nw/icons/fallback/add-dark.svg" /\
  icon_src (getIcon env_dark_light_only init "add" w0).1.1
    = FromFile "/nw/icons/fallback/add.svg".
Proof.
  assert (K : ICON_MAP !! "add" = Some (None, Some "list-add"))
    by (vm_compute; reflexivity).
  split; [exact K|]. split; [reflexivity|]. split.
  - rewrite (fallback_scenario env_dark init "add" (Some "list-add") w0 K);
      [vm_compute; reflexivity | reflexivity | reflexivity |].
    intros n [= <-]. reflexivity.
  - rewrite (fallback_scenario env_dark_light_only init "add" (Some "list-add") w0 K);
      [vm_compute; reflexivity | reflexivity | reflexivity |].
    intros n [= <-]. reflexivity.
Defined.
End IconObjects.

Section Decoration.
Import GuiIcons Fixture.

Lemma DECO_MAP_lookup key :
  DECO_MAP !! key =
    if decide ("nwicon" = key) then Some ("icons", "novelwriter.svg") else None.
Proof.
  unfold DECO_MAP, DECO_MAP_items. cbn [list_to_map foldr uncurry fst snd].
  rewrite lookup_insert. cbn [fst snd].
  case_decide; [reflexivity|apply lookup_empty].
Qed.

(** X7: [loadDecoration] gives the widget of [icons/novelwriter.svg] under
    the assets folder, with the size asked for, when the key is [nwicon]
    and the file exists, and then logs nothing; in every other case it gives
    an empty widget without a fixed size and logs one error. *)
Theorem loadDecoration_result env decoKey decoSize w :
  let svg := Py.join3 (conf_assetPath env) "icons" "novelwriter.svg" in
  let r := loadDecoration env decoKey decoSize w in
  (decoKey = "nwicon" /\ isfile env svg = true /\
   r = ({| svg_file := Some svg; svg_fixedSize := decoSize |}, w)) \/
  ((decoKey <> "nwicon" \/ isfile env svg = false) /\
   r.1 = {| svg_file := None; svg_fixedSize := None |} /\
   exists rec, log r.2 = rec :: log w /\ log_level rec = ERROR).
Proof.
  cbv zeta. unfold loadDecoration. rewrite DECO_MAP_lookup.
  case_decide as E.
  - cbn [fst snd]. destruct (isfile env _) eqn:Ef; cbn [negb].
    + left. now split.
    + right. split; [now right|]. split; [reflexivity|]. eexists. split; reflexivity.
  - right. split; [left; congruence|]. split; [reflexivity|].
    eexists. split; reflexivity.
Qed.
End Decoration.

(* ===================================================================== *)
(** * What the listings hold *)
(* ===================================================================== *)

Section ListingEntries.
Import Fixture.

Lemma name_not_empty n : negb (String.eqb n "") = true -> n <> "".
Proof. intros H ->. discriminate H. Qed.

Lemma theme_scan_entries env dirs : forall p acc w d n,
  (d, n) ∈ (GuiTheme.scan_themes env p dirs acc w).1.2 ->
  (d, n) ∈ acc \/
  (d ∈ dirs /\ n <> "" /\ ConfigParser.rr_error (theme_conf env d) = None).
Proof.
  induction dirs as [|x dirs IH]; intros p acc w d n; cbn [GuiTheme.scan_themes].
  - now left.
  - unfold ConfigParser.read_file, bind. cbn [logger]. fold (theme_conf env x).
    assert (K : forall p' w',
        (d, n) ∈ (GuiTheme.scan_themes env p' dirs acc w').1.2 ->
        (d, n) ∈ acc \/
        (d ∈ x :: dirs /\ n <> "" /\ ConfigParser.rr_error (theme_conf env d) = None)).
    { intros p' w' H. apply IH in H. destruct H as [H|(H1 & H2 & H3)]; [now left|].
      right. split; [now right|]. now split. }
    destruct (ConfigParser.rr_error (theme_conf env x)) eqn:Ee.
    + cbn [makeAlert]. apply K.
    + destruct (_ && _); [|apply K].
      destruct (ConfigParser.get _ _ _) as [nm|e]; [|unfold ret; cbn [fst snd]; now left].
      cbn [logger]. destruct (negb _) eqn:En; [|apply K].
      intros H. apply IH in H. destruct H as [H|(H1 & H2 & H3)].
      * apply elem_of_app in H. destruct H as [H|H]; [now left|].
        apply list_elem_of_singleton in H. injection H as -> ->.
        right. split; [left|]. split; [now apply name_not_empty|exact Ee].
      * right. split; [now right|]. now split.
Qed.

Lemma icon_scan_entries env dirs : forall p acc w d n,
  (d, n) ∈ (GuiIcons.scan_themes env p dirs acc w).1.2 ->
  (d, n) ∈ acc \/
  (d ∈ dirs /\ n <> "" /\ d <> GuiIcons.fbackName /\
   isdir env (Py.join (conf_iconPath env) d) = true /\
   ConfigParser.rr_error
     (read_conf env (Py.join (Py.join (conf_iconPath env) d) GuiIcons.confName)) = None).
Proof.
  induction dirs as [|x dirs IH]; intros p acc w d n; cbn [GuiIcons.scan_themes].
  - now left.
  - assert (K : forall p' w',
        (d, n) ∈ (GuiIcons.scan_themes env p' dirs acc w').1.2 ->
        (d, n) ∈ acc \/
        (d ∈ x :: dirs /\ n <> "" /\ d <> GuiIcons.fbackName /\
         isdir env (Py.join (conf_iconPath env) d) = true /\
         ConfigParser.rr_error
           (read_conf env (Py.join (Py.join (conf_iconPath env) d) GuiIcons.confName))
           = None)).
    { intros p' w' H. apply IH in H. destruct H as [H|(H1 & H2)]; [now left|].
      right. split; [now right|exact H2]. }
    destruct (isdir env (Py.join (conf_iconPath env) x)) eqn:Ed; cbn [negb orb];
      [|apply K].
    destruct (String.eqb x GuiIcons.fbackName) eqn:Ef; [apply K|].
    apply String.eqb_neq in Ef.
    unfold ConfigParser.read_file, bind. cbn [logger].
    destruct (ConfigParser.rr_error
                (read_conf env (Py.join (Py.join (conf_iconPath env) x)
                                        GuiIcons.confName))) eqn:Ee.
    + cbn [makeAlert]. apply K.
    + destruct (_ && _); [|apply K].
      destruct (ConfigParser.get _ _ _) as [nm|e]; [|unfold ret; cbn [fst snd]; now left].
      cbn [logger]. destruct (negb _) eqn:En; [|apply K].
      intros H. apply IH in H. destruct H as [H|(H1 & H2)].
      * apply elem_of_app in H. destruct H as [H|H]; [now left|].
        apply list_elem_of_singleton in H. injection H as -> ->.
        right. split; [left|]. split; [now apply name_not_empty|].
        repeat split; assumption.
      * right. split; [now right|exact H2].
Qed.

Lemma syntax_scan_entries env dir files : forall p acc w d n,
  (d, n) ∈ (GuiTheme.scan_syntax env dir p files acc w).1.2 ->
  (d, n) ∈ acc \/
  (n <> "" /\ exists f, f ∈ files /\ isfile env (Py.join dir f) = true /\
                        (5 < String.length f)%nat /\ d = Py.drop_last 5 f).
Proof.
  induction files as [|x files IH]; intros p acc w d n; cbn [GuiTheme.scan_syntax].
  - now left.
  - assert (K : forall p' acc' w',
        (d, n) ∈ (GuiTheme.scan_syntax env dir p' files acc' w').1.2 ->
        ((d, n) ∈ acc' -> (d, n) ∈ acc \/
            (n <> "" /\ exists f, f ∈ x :: files /\ isfile env (Py.join dir f) = true /\
                          (5 < String.length f)%nat /\ d = Py.drop_last 5 f)) ->
        (d, n) ∈ acc \/
        (n <> "" /\ exists f, f ∈ x :: files /\ isfile env (Py.join dir f) = true /\
                      (5 < String.length f)%nat /\ d = Py.drop_last 5 f)).
    { intros p' acc' w' H Hacc. apply IH in H.
      destruct H as [H|(H1 & f & H2 & H3)]; [now apply Hacc|].
      right. split; [exact H1|]. exists f. split; [now right|exact H3]. }
    destruct (isfile env (Py.join dir x)) eqn:Ef; cbn [negb].
    2:{ intros H. apply (K _ _ _ H). now left. }
    unfold ConfigParser.read_file, bind. cbn [logger].
    destruct (ConfigParser.rr_error _).
    + cbn [makeAlert ret fst snd]. now left.
    + destruct (GuiTheme.main_name _) as [nm|e]; [|unfold ret; cbn [fst snd]; now left].
      destruct (_ <? _)%nat eqn:El; cbn [andb].
      * destruct (negb _) eqn:En.
        -- cbn [logger]. intros H. apply (K _ _ _ H). intros Hin.
           apply elem_of_app in Hin. destruct Hin as [Hin|Hin]; [now left|].
           apply list_elem_of_singleton in Hin. injection Hin as -> ->.
           right. split; [now apply name_not_empty|].
           exists x. split; [left|]. split; [exact Ef|].
           split; [now apply Nat.ltb_lt|reflexivity].
        -- intros H. apply (K _ _ _ H). now left.
      * intros H. apply (K _ _ _ H). now left.
Qed.

Lemma drop_last_not_empty n f :
  (n < String.length f)%nat -> Py.drop_last n f <> "".
Proof.
  unfold Py.drop_last. intros H.
  destruct (String.length f - n)%nat as [|k] eqn:E; [lia|].
  destruct f as [|c f]; [cbn in H; lia|]. cbn [String.substring]. discriminate.
Qed.

(** X9: a new listing of [GuiTheme.listThemes] is ascending by display
    name; every entry has a non-empty name and is a folder of the themes
    folder whose config was read without an exception. *)
Theorem listThemes_sorted_valid env self w l :
  GuiTheme.themeList self = [] ->
  (GuiTheme.listThemes env self w).1.1 = Return l ->
  Sorted (by_key snd) l /\
  forall d n, (d, n) ∈ l ->
    n <> "" /\ ConfigParser.rr_error (theme_conf env d) = None /\
    exists dirs, listdir env (Py.join (conf_themeRoot env) GuiTheme.guiPath) = Some dirs
                 /\ d ∈ dirs.
Proof.
  intros Hs.
  destruct (listdir env (Py.join (conf_themeRoot env) GuiTheme.guiPath))
    as [dirs|] eqn:Hl;
    [|unfold GuiTheme.listThemes; rewrite Hs, Hl; discriminate].
  rewrite (listThemes_run _ _ _ _ Hs Hl). cbv zeta.
  pose proof (theme_scan_entries env dirs ConfigParser.empty [] w) as E.
  destruct (GuiTheme.scan_themes _ _ _ _ _) as [[[[]|e] l1] w1]; cbn [fst snd] in *;
    [|discriminate].
  intros [= <-]. split; [apply sorted_Sorted|].
  intros d n Hin. rewrite sorted_perm in Hin.
  destruct (E d n Hin) as [H|(H1 & H2 & H3)]; [now apply elem_of_nil in H|].
  repeat split; try assumption. now exists dirs.
Qed.

(** X8: a new listing of [GuiIcons.listThemes] is ascending by display
    name; every entry has a non-empty name and is a directory of the icons
    folder, other than the fallback folder, whose config was read without an
    exception. *)
Theorem iconThemes_sorted_valid env self w l :
  GuiIcons.themeList self = [] ->
  (GuiIcons.listThemes env self w).1.1 = Return l ->
  Sorted (by_key snd) l /\
  forall d n, (d, n) ∈ l ->
    n <> "" /\ d <> "fallback" /\
    isdir env (Py.join (conf_iconPath env) d) = true /\
    ConfigParser.rr_error
      (read_conf env (Py.join (Py.join (conf_iconPath env) d) "icons.conf")) = None /\
    exists dirs, listdir env (conf_iconPath env) = Some dirs /\ d ∈ dirs.
Proof.
  intros Hs.
  destruct (listdir env (conf_iconPath env)) as [dirs|] eqn:Hl;
    [|unfold GuiIcons.listThemes; rewrite Hs, Hl; discriminate].
  rewrite (icon_listThemes_run _ _ _ _ Hs Hl). cbv zeta.
  pose proof (icon_scan_entries env dirs ConfigParser.empty [] w) as E.
  destruct (GuiIcons.scan_themes _ _ _ _ _) as [[[[]|e] l1] w1]; cbn [fst snd] in *;
    [|discriminate].
  intros [= <-]. split; [apply sorted_Sorted|].
  intros d n Hin. rewrite sorted_perm in Hin.
  destruct (E d n Hin) as [H|(H1 & H2 & H3 & H4 & H5)]; [now apply elem_of_nil in H|].
  repeat split; try assumption. now exists dirs.
Qed.

(** X10: a new listing of [listSyntax] is ascending by display name; every
    entry has a non-empty name and a non-empty id, which is the name of a
    regular file of the syntax folder, longer than five characters, without
    its last five characters. *)
Theorem listSyntax_sorted_valid env self w l :
  GuiTheme.syntaxList self = [] ->
  (GuiTheme.listSyntax env self w).1.1 = Return l ->
  Sorted (by_key snd) l /\
  forall d n, (d, n) ∈ l ->
    n <> "" /\ d <> "" /\
    exists files f,
      listdir env (syntax_dir env) = Some files /\ f ∈ files /\
      isfile env (Py.join (syntax_dir env) f) = true /\
      (5 < String.length f)%nat /\ d = Py.drop_last 5 f.
Proof.
  intros Hs.
  destruct (listdir env (syntax_dir env)) as [files|] eqn:Hl;
    [|unfold GuiTheme.listSyntax; fold (syntax_dir env); rewrite Hs, Hl; discriminate].
  rewrite (listSyntax_run _ _ _ _ Hs Hl). cbv zeta.
  pose proof (syntax_scan_entries env (syntax_dir env) files ConfigParser.empty [] w) as E.
  destruct (GuiTheme.scan_syntax _ _ _ _ _ _) as [[[ab|e] l1] w1]; cbn [fst snd] in *;
    [|discriminate].
  destruct ab; cbn [fst snd]; intros [= <-].
  { split; [constructor|]. intros d n Hin. now apply elem_of_nil in Hin. }
  split; [apply sorted_Sorted|].
  intros d n Hin. rewrite sorted_perm in Hin.
  destruct (E d n Hin) as [H|(H1 & f & H2 & H3 & H4 & H5)]; [now apply elem_of_nil in H|].
  split; [exact H1|]. split; [subst d; now apply drop_last_not_empty|].
  exists files, f. repeat split; assumption.
Qed.

(** X11: a listing that is not empty is kept: the next call of the same
    function returns it as it is, whatever the folders hold by then, and
    changes neither the object nor anything else. *)
Theorem listings_cached env self icons w l env' w' :
  ((GuiTheme.listThemes env self w).1.1 = Return l -> l <> [] ->
   GuiTheme.listThemes env' (GuiTheme.listThemes env self w).1.2 w'
     = ((Return l, (GuiTheme.listThemes env self w).1.2), w')) /\
  ((GuiTheme.listSyntax env self w).1.1 = Return l -> l <> [] ->
   GuiTheme.listSyntax env' (GuiTheme.listSyntax env self w).1.2 w'
     = ((Return l, (GuiTheme.listSyntax env self w).1.2), w')) /\
  ((GuiIcons.listThemes env icons w).1.1 = Return l -> l <> [] ->
   GuiIcons.listThemes env' (GuiIcons.listThemes env icons w).1.2 w'
     = ((Return l, (GuiIcons.listThemes env icons w).1.2), w')).
Proof.
  split; [|split].
  - destruct (GuiTheme.themeList self) as [|x xs] eqn:Hs.
    + destruct (listdir env (Py.join (conf_themeRoot env) GuiTheme.guiPath))
        as [dirs|] eqn:Hl;
        [|unfold GuiTheme.listThemes at 1; rewrite Hs, Hl; discriminate].
      rewrite (listThemes_run _ _ _ _ Hs Hl). cbv zeta.
      destruct (GuiTheme.scan_themes _ _ _ _ _) as [[[[]|e] l1] w1]; cbn [fst snd];
        [|discriminate].
      intros [= <-] Hne. unfold GuiTheme.listThemes.
      cbn [GuiTheme.themeList GuiTheme.set_themeList].
      destruct (Py.sorted snd l1); [congruence|reflexivity].
    + unfold GuiTheme.listThemes at 1 3 4. rewrite Hs. unfold ret. cbn [fst snd].
      intros [= <-] _. unfold GuiTheme.listThemes. now rewrite Hs.
  - destruct (GuiTheme.syntaxList self) as [|x xs] eqn:Hs.
    + destruct (listdir env (syntax_dir env)) as [files|] eqn:Hl;
        [|unfold GuiTheme.listSyntax at 1; fold (syntax_dir env); rewrite Hs, Hl;
          discriminate].
      rewrite (listSyntax_run _ _ _ _ Hs Hl). cbv zeta.
      destruct (GuiTheme.scan_syntax _ _ _ _ _ _) as [[[ab|e] l1] w1]; cbn [fst snd];
        [|discriminate].
      destruct ab; cbn [fst snd]; intros [= <-] Hne; [congruence|].
      unfold GuiTheme.listSyntax.
      cbn [GuiTheme.syntaxList GuiTheme.set_syntaxList].
      destruct (Py.sorted snd l1); [congruence|reflexivity].
    + unfold GuiTheme.listSyntax at 1 3 4. rewrite Hs. unfold ret. cbn [fst snd].
      intros [= <-] _. unfold GuiTheme.listSyntax. now rewrite Hs.
  - destruct (GuiIcons.themeList icons) as [|x xs] eqn:Hs.
    + destruct (listdir env (conf_iconPath env)) as [dirs|] eqn:Hl;
        [|unfold GuiIcons.listThemes at 1; rewrite Hs, Hl; discriminate].
      rewrite (icon_listThemes_run _ _ _ _ Hs Hl). cbv zeta.
      destruct (GuiIcons.scan_themes _ _ _ _ _) as [[[[]|e] l1] w1]; cbn [fst snd];
        [|discriminate].
      intros [= <-] Hne. unfold GuiIcons.listThemes.
      cbn [GuiIcons.themeList GuiIcons.set_themeList].
      destruct (Py.sorted snd l1); [congruence|reflexivity].
    + unfold GuiIcons.listThemes at 1 3 4. rewrite Hs. unfold ret. cbn [fst snd].
      intros [= <-] _. unfold GuiIcons.listThemes. now rewrite Hs.
Qed.

(** The two named themes; the icon theme beside the fallback folder; the
    two schemes of the syntax folder. *)
Lemma listThemes_sorted_valid_witness :
  let l := [("a", "Alpha"); ("c", "Gamma")] in
  GuiTheme.themeList GuiTheme.init = [] /\
  (GuiTheme.listThemes (three_themes ["b"; "a"; "c"]) GuiTheme.init w0).1.1 = Return l /\
  Sorted (by_key snd) l /\
  ConfigParser.rr_error (theme_conf (three_themes ["b"; "a"; "c"]) "c") = None.
Proof.
  cbv zeta.
  assert (H : (GuiTheme.listThemes (three_themes ["b"; "a"; "c"]) GuiTheme.init w0).1.1
              = Return [("a", "Alpha"); ("c", "Gamma")]) by (vm_compute; reflexivity).
  destruct (listThemes_sorted_valid (three_themes ["b"; "a"; "c"]) GuiTheme.init w0 _
              eq_refl H) as [S V].
  split; [reflexivity|]. split; [exact H|]. split; [exact S|].
  apply (V "c" "Gamma"). right. left.
Defined.

Lemma iconThemes_sorted_valid_witness :
  let l := [("typicons", "Typicons")] in
  GuiIcons.themeList GuiIcons.init = [] /\
  (GuiIcons.listThemes env_icon_list GuiIcons.init w0).1.1 = Return l /\
  Sorted (by_key snd) l /\ "typicons" <> "fallback".
Proof.
  cbv zeta.
  assert (H : (GuiIcons.listThemes env_icon_list GuiIcons.init w0).1.1
              = Return [("typicons", "Typicons")]) by (vm_compute; reflexivity).
  destruct (iconThemes_sorted_valid env_icon_list GuiIcons.init w0 _ eq_refl H)
    as [S V].
  split; [reflexivity|]. split; [exact H|]. split; [exact S|].
  apply (V "typicons" "Typicons"). left.
Defined.

Lemma listSyntax_sorted_valid_witness :
  let l := [("dark", "Dark"); ("light", "Light")] in
  GuiTheme.syntaxList GuiTheme.init = [] /\
  (GuiTheme.listSyntax env_syntax GuiTheme.init w0).1.1 = Return l /\
  Sorted (by_key snd) l /\ "dark" <> "".
Proof.
  cbv zeta.
  assert (H : (GuiTheme.listSyntax env_syntax GuiTheme.init w0).1.1
              = Return [("dark", "Dark"); ("light", "Light")]) by (vm_compute; reflexivity).
  destruct (listSyntax_sorted_valid env_syntax GuiTheme.init w0 _ eq_refl H) as [S V].
  split; [reflexivity|]. split; [exact H|]. split; [exact S|].
  apply (V "dark" "Dark"). left.
Defined.

(** The listings above, asked for again after the folders are gone. *)
Lemma listings_cached_witness :
  (let r := GuiTheme.listThemes (three_themes ["b"; "a"; "c"]) GuiTheme.init w0 in
   r.1.1 = Return [("a", "Alpha"); ("c", "Gamma")] /\
   GuiTheme.listThemes env_bare r.1.2 w1 = ((r.1.1, r.1.2), w1)) /\
  (let r := GuiTheme.listSyntax env_syntax GuiTheme.init w0 in
   r.1.1 = Return [("dark", "Dark"); ("light", "Light")] /\
   GuiTheme.listSyntax env_bare r.1.2 w1 = ((r.1.1, r.1.2), w1)) /\
  (let r := GuiIcons.listThemes env_icon_list GuiIcons.init w0 in
   r.1.1 = Return [("typicons", "Typicons")] /\
   GuiIcons.listThemes env_bare r.1.2 w1 = ((r.1.1, r.1.2), w1)).
Proof.
  cbv zeta.
  assert (H1 : (GuiTheme.listThemes (three_themes ["b"; "a"; "c"]) GuiTheme.init w0).1.1
               = Return [("a", "Alpha"); ("c", "Gamma")]) by (vm_compute; reflexivity).
  assert (H2 : (GuiTheme.listSyntax env_syntax GuiTheme.init w0).1.1
               = Return [("dark", "Dark"); ("light", "Light")]) by (vm_compute; reflexivity).
  assert (H3 : (GuiIcons.listThemes env_icon_list GuiIcons.init w0).1.1
               = Return [("typicons", "Typicons")]) by (vm_compute; reflexivity).
  split; [|split].
  - split; [exact H1|]. rewrite H1.
    destruct (listings_cached (three_themes ["b"; "a"; "c"]) GuiTheme.init GuiIcons.init
                w0 [("a", "Alpha"); ("c", "Gamma")] env_bare w1) as (C & _ & _).
    apply C; [exact H1|discriminate].
  - split; [exact H2|]. rewrite H2.
    destruct (listings_cached env_syntax GuiTheme.init GuiIcons.init
                w0 [("dark", "Dark"); ("light", "Light")] env_bare w1) as (_ & C & _).
    apply C; [exact H2|discriminate].
  - split; [exact H3|]. rewrite H3.
    destruct (listings_cached env_icon_list GuiTheme.init GuiIcons.init
                w0 [("typicons", "Typicons")] env_bare w1) as (_ & _ & C).
    apply C; [exact H3|discriminate].
Defined.
End ListingEntries.

Section Parser.
Import ConfigParser.

Lemma assoc_set_eq {V} k (v : V) l : assoc k (assoc_set k v l) = Some v.
Proof.
  induction l as [|[k' v'] l IH]; cbn [assoc assoc_set].
  - now rewrite String.eqb_refl.
  - destruct (String.eqb k k') eqn:E; cbn [assoc]; rewrite ?String.eqb_refl; [reflexivity|].
    now rewrite E.
Qed.

Lemma assoc_set_ne {V} k k' (v : V) l :
  k <> k' -> assoc k' (assoc_set k v l) = assoc k' l.
Proof.
  intros Hne. induction l as [|[k0 v0] l IH]; cbn [assoc assoc_set].
  - apply String.eqb_neq in Hne. rewrite String.eqb_sym in Hne. now rewrite Hne.
  - destruct (String.eqb k k0) eqn:E; cbn [assoc].
    + apply String.eqb_eq in E. subst k0.
      assert (String.eqb k' k = false) as -> by (apply String.eqb_neq; congruence).
      reflexivity.
    + destruct (String.eqb k' k0); [reflexivity|exact IH].
Qed.

Lemma foldl_last opt os : forall r,
  foldl (fun r kv => if String.eqb opt kv.1 then Some kv.2 else r) r os =
    match last_value opt os with Some v => Some v | None => r end.
Proof.
  unfold last_value. induction os as [|kv os IH]; intros r; cbn [foldl]; [reflexivity|].
  rewrite IH. rewrite (IH (if String.eqb opt kv.1 then Some kv.2 else None)).
  destruct (foldl _ None os); [reflexivity|]. now destruct (String.eqb opt kv.1).
Qed.

Lemma options_after opt os : forall old,
  assoc opt (update old os) =
    match last_value opt os with Some v => Some v | None => assoc opt old end.
Proof.
  unfold update. induction os as [|[k v] os IH]; intros old; cbn [foldl]; [reflexivity|].
  rewrite IH. unfold last_value at 2. cbn [foldl fst snd].
  rewrite (foldl_last opt os (if String.eqb opt k then Some v else None)).
  destruct (last_value opt os); [reflexivity|].
  destruct (String.eqb opt k) eqn:E.
  - apply String.eqb_eq in E. subst k. apply assoc_set_eq.
  - apply assoc_set_ne. apply String.eqb_neq in E. congruence.
Qed.

Lemma lookup_merge_section p sec os s o :
  s <> default_section ->
  conf_lookup (merge_section p sec os) s o =
    if String.eqb s sec then
      match last_value o os with Some v => Some v | None => conf_lookup p s o end
    else conf_lookup p s o.
Proof.
  intros Hs. unfold conf_lookup, merge_section.
  destruct (String.eqb sec default_section) eqn:Ed.
  - apply String.eqb_eq in Ed. subst sec. cbn [sections].
    assert (String.eqb s default_section = false) as -> by now apply String.eqb_neq.
    reflexivity.
  - cbn [sections]. destruct (String.eqb s sec) eqn:E.
    + apply String.eqb_eq in E. subst s. rewrite assoc_set_eq. cbn [mbind option_bind].
      rewrite options_after. destruct (assoc sec (sections p)); reflexivity.
    + rewrite assoc_set_ne; [reflexivity|]. apply String.eqb_neq in E. congruence.
Qed.

(** After a file was read into a parser that had read others before, an
    option of a section other than the default one has the value the file
    gives it, else the value left by the earlier files. *)
Lemma lookup_merge c : forall p s o,
  s <> default_section ->
  conf_lookup (merge p c) s o =
    match conf_lookup (merge empty c) s o with
    | Some v => Some v
    | None => conf_lookup p s o
    end.
Proof.
  unfold merge. induction c as [|[sec os] c IH] using rev_ind; intros p s o Hs.
  - reflexivity.
  - rewrite !foldl_app. cbn [foldl fst snd]. rewrite !lookup_merge_section by exact Hs.
    destruct (String.eqb s sec); [|now apply IH].
    destruct (last_value o os); [reflexivity|now apply IH].
Qed.

(** A value without a percent sign is its own expansion. *)
Lemma interpolate_some_plain map fuel v :
  Py.contains "%"%char v = false -> interpolate_some map (S fuel) None v = Return v.
Proof.
  induction v as [|c v IH]; intros H; [reflexivity|].
  cbn [Py.contains] in H. apply orb_false_iff in H. destruct H as [H1 H2].
  specialize (IH H2). cbn [interpolate_some] in IH |- *. rewrite H1, IH. reflexivity.
Qed.

Lemma interpolate_plain map v :
  Py.contains "%"%char v = false -> interpolate map v = Return v.
Proof. apply interpolate_some_plain. Qed.

(** An option that a section holds with a value without a percent sign. *)
Lemma get_plain p sec opt v :
  conf_lookup p sec (optionxform opt) = Some v -> Py.contains "%"%char v = false ->
  get p sec opt = Return v.
Proof.
  unfold conf_lookup, get, section_dict. intros H Hv.
  destruct (assoc sec (sections p)) as [os|]; [|discriminate H].
  cbn [mbind option_bind] in H. rewrite H. now apply interpolate_plain.
Qed.

Lemma has_section_lookup p s o v : conf_lookup p s o = Some v -> has_section p s = true.
Proof. unfold has_section, conf_lookup. now destruct (assoc s (sections p)). Qed.

Lemma has_option_lookup p s o v :
  String.eqb s "" || String.eqb s default_section = false ->
  conf_lookup p s (optionxform o) = Some v -> has_option p s o = true.
Proof.
  unfold has_option, conf_lookup, has_key. intros -> H.
  destruct (assoc s (sections p)) as [os|] eqn:E; [|discriminate H].
  cbn [mbind option_bind] in H. rewrite H. reflexivity.
Qed.
End Parser.

Section AllNamed.
Import GuiTheme Fixture.

Lemma main_name_own p r n :
  own_name r = Some n -> Py.contains "%"%char n = false ->
  ConfigParser.get (ConfigParser.read_file p r).1 "Main" "name" = Return n /\
  ConfigParser.has_section (ConfigParser.read_file p r).1 "Main"
  && ConfigParser.has_option (ConfigParser.read_file p r).1 "Main" "name" = true.
Proof.
  unfold own_name, ConfigParser.read_file. cbn [fst]. intros H Hn.
  assert (L : conf_lookup (ConfigParser.merge p (ConfigParser.rr_content r)) "Main"
                (ConfigParser.optionxform "name") = Some n).
  { change (ConfigParser.optionxform "name") with "name".
    rewrite lookup_merge, H; [reflexivity|discriminate]. }
  rewrite (get_plain _ _ _ _ L Hn), (has_section_lookup _ _ _ _ L),
    (has_option_lookup _ "Main" _ _ eq_refl L).
  now split.
Qed.

Lemma scan_all_named env (name_of : string -> string) dirs : forall p acc w,
  (forall d, d ∈ dirs ->
     ConfigParser.rr_error (theme_conf env d) = None /\
     own_name (theme_conf env d) = Some (name_of d) /\ name_of d <> "" /\
     Py.contains "%"%char (name_of d) = false) ->
  (scan_themes env p dirs acc w).1
    = (Return tt, (acc ++ map (fun d => (d, name_of d)) dirs)%list).
Proof.
  induction dirs as [|d dirs IH]; intros p acc w H; cbn [scan_themes map].
  - unfold ret. cbn [fst]. now rewrite app_nil_r.
  - destruct (H d (list_elem_of_here _ _)) as (He & Hn & Hne & Hp).
    fold (theme_conf env d).
    destruct (main_name_own p (theme_conf env d) _ Hn Hp) as [Hm Hb].
    unfold ConfigParser.read_file in *. cbn [fst] in Hm, Hb. rewrite He.
    unfold bind. cbn [logger]. rewrite Hb, Hm. cbn [logger].
    assert (String.eqb (name_of d) "" = false) as -> by now apply String.eqb_neq.
    cbn [negb]. rewrite IH; [now rewrite <- app_assoc|].
    intros d' Hd'. apply H. now right.
Qed.

(** X12: when the config of every folder of the themes folder is read
    without an exception and gives, under [Main], a non-empty name that
    holds no percent sign, [listThemes] returns every folder with its own
    name, ascending by name. (A name with a percent sign is expanded by
    [get], or makes it raise: see [stray_percent_raises].) *)
Theorem listThemes_all_named env self w (name_of : string -> string) dirs :
  themeList self = [] ->
  listdir env (Py.join (conf_themeRoot env) guiPath) = Some dirs ->
  (forall d, d ∈ dirs ->
     ConfigParser.rr_error (theme_conf env d) = None /\
     own_name (theme_conf env d) = Some (name_of d) /\ name_of d <> "" /\
     Py.contains "%"%char (name_of d) = false) ->
  (listThemes env self w).1.1
    = Return (Py.sorted snd (map (fun d => (d, name_of d)) dirs)).
Proof.
  intros Hs Hl H. rewrite (listThemes_run _ _ _ _ Hs Hl). cbv zeta.
  rewrite (scan_all_named env name_of dirs ConfigParser.empty [] w H). reflexivity.
Qed.

(** Two named themes. *)
Lemma listThemes_all_named_witness :
  let env := three_themes ["c"; "a"] in
  let name_of := fun d => if String.eqb d "a" then "Alpha" else "Gamma" in
  themeList init = [] /\
  listdir env (Py.join (conf_themeRoot env) guiPath) = Some ["c"; "a"] /\
  (listThemes env init w0).1.1 = Return [("a", "Alpha"); ("c", "Gamma")].
Proof.
  cbv zeta. split; [reflexivity|]. split; [reflexivity|].
  rewrite (listThemes_all_named (three_themes ["c"; "a"]) init w0
             (fun d => if String.eqb d "a" then "Alpha" else "Gamma") ["c"; "a"]);
    [vm_compute; reflexivity | reflexivity | reflexivity |].
  intros d Hd. apply elem_of_cons in Hd. destruct Hd as [->|Hd].
  - split; [vm_compute; reflexivity|]. split; [vm_compute; reflexivity|].
    split; [vm_compute; discriminate|vm_compute; reflexivity].
  - apply list_elem_of_singleton in Hd. subst d.
    split; [vm_compute; reflexivity|]. split; [vm_compute; reflexivity|].
    split; [vm_compute; discriminate|vm_compute; reflexivity].
Defined.
End AllNamed.

(* ===================================================================== *)
(** * What a theme load changes *)
(* ===================================================================== *)

Section ThemeState.
Import GuiTheme Fixture.

Lemma palette_value_sets confParser cnfSec cnfName c :
  palette_value confParser cnfSec cnfName = Return (Some c) ->
  ~ sets_no_colour confParser cnfSec cnfName.
Proof.
  intros H. pose proof (palette_value_written _ _ _ _ H) as (v & x & y & z & Hg & Hw & _).
  unfold palette_value in H. intros [Ho|[[e He]|(v' & Hv & Hu)]].
  - rewrite Ho in H. discriminate H.
  - rewrite Hg in He. discriminate He.
  - rewrite Hg in Hv. injection Hv as <-.
    apply written_triple_unreadable in Hu. rewrite Hu in Hw. discriminate Hw.
Qed.

Lemma Palette_after_role confParser role pal :
  (Palette_after confParser pal).2 role = pal role \/
  exists n c, (n, role) ∈ palette_entries /\
              palette_value confParser "Palette" n = Return (Some c) /\
              (Palette_after confParser pal).2 role = Some c.
Proof.
  unfold Palette_after. destruct (ConfigParser.has_section _ _); [|now left].
  apply palette_after_role.
Qed.

(** X13: [loadTheme], whatever its outcome, never unsets a palette role,
    and a role keeps the colour it had when, for each of its entries, the
    new config has no such option, [get] raises for it, or [get] returns a
    value that cannot be read as a colour: the palette of the object is
    carried from theme to theme. *)
Theorem palette_roles_persist env self w r :
  (is_Some (guiPalette self r) -> is_Some (guiPalette (loadTheme env self w).1.2 r)) /\
  ((forall n, (n, r) ∈ palette_entries ->
      sets_no_colour (theme_parser env self) "Palette" n) ->
   guiPalette (loadTheme env self w).1.2 r = guiPalette self r).
Proof.
  destruct (loadTheme_attrs env self w) as (_ & _ & _ & _ & [E|E] & _); cbv zeta in E;
    rewrite E; [split; [tauto|reflexivity]|].
  destruct (Palette_after_role (theme_parser env self) r (guiPalette self))
    as [K|(n & c & Hin & Hv & K)]; rewrite K.
  - split; [tauto|reflexivity].
  - split; [intros _; now exists c|].
    intros H. destruct (palette_value_sets _ _ _ _ Hv (H n Hin)).
Qed.

(** [windowtext], set by the default theme, after a theme without a
    [Palette] section is loaded. *)
Lemma palette_roles_persist_witness :
  let self := (loadTheme env_theme theme0 w0).1.2 in
  is_Some (guiPalette self WindowText) /\
  (forall n, (n, WindowText) ∈ palette_entries ->
      sets_no_colour (theme_parser env_rgb self) "Palette" n) /\
  QColor_channels <$> guiPalette (loadTheme env_rgb self w0).1.2 WindowText
    = Some [10; 20; 30].
Proof.
  cbv zeta.
  assert (H1 : is_Some (guiPalette (loadTheme env_theme theme0 w0).1.2 WindowText)).
  { eexists. vm_compute; reflexivity. }
  assert (H2 : forall n, (n, WindowText) ∈ palette_entries ->
      sets_no_colour (theme_parser env_rgb (loadTheme env_theme theme0 w0).1.2)
        "Palette" n).
  { intros n _. left. vm_compute; reflexivity. }
  split; [exact H1|]. split; [exact H2|].
  destruct (palette_roles_persist env_rgb (loadTheme env_theme theme0 w0).1.2 w0 WindowText)
    as [_ P].
  rewrite (P H2). vm_compute; reflexivity.
Defined.

Lemma stored_as_missing confParser cnfSec cnfName c :
  ConfigParser.has_option confParser cnfSec cnfName = false ->
  stored_as confParser cnfSec cnfName c -> c = [0; 0; 0].
Proof. unfold stored_as. now intros ->. Qed.

(** X14: after a successful load of a config with a [GUI] (or [Syntax])
    section, every colour of the section that the config does not name is
    [0,0,0], whatever it was before; without the section, the colours stay
    as they were. *)
Theorem missing_colour_is_black env self w i name :
  ((loadTheme env self w).1.1 = Return true ->
   ConfigParser.has_section (theme_parser env self) "GUI" = true ->
   gui_names !! i = Some name ->
   ConfigParser.has_option (theme_parser env self) "GUI" name = false ->
   gui_list (guiCols (loadTheme env self w).1.2) !! i = Some [0; 0; 0]) /\
  ((loadSyntax env self w).1.1 = Return true ->
   ConfigParser.has_section (syntax_parser env self) "Syntax" = true ->
   syntax_names !! i = Some name ->
   ConfigParser.has_option (syntax_parser env self) "Syntax" name = false ->
   syntax_list (syntaxCols (loadSyntax env self w).1.2) !! i = Some [0; 0; 0]) /\
  ((loadTheme env self w).1.1 = Return true ->
   ConfigParser.has_section (theme_parser env self) "GUI" = false ->
   guiCols (loadTheme env self w).1.2 = guiCols self) /\
  ((loadSyntax env self w).1.1 = Return true ->
   ConfigParser.has_section (syntax_parser env self) "Syntax" = false ->
   syntaxCols (loadSyntax env self w).1.2 = syntaxCols self).
Proof.
  destruct (loadTheme_attrs env self w) as (_ & _ & _ & _ & _ & T).
  destruct (loadSyntax_attrs env self w) as (_ & _ & _ & _ & _ & S).
  cbv zeta in T, S. split; [|split; [|split]].
  - intros Hok Hs Hi Ho. destruct (T Hok) as (_ & _ & _ & _ & Hg & ->).
    destruct (Forall2_lookup_l _ _ _ _ _ (GUI_after_stored _ _ Hs Hg) Hi)
      as (c & Hc & Hst).
    now rewrite Hc, (stored_as_missing _ _ _ _ Ho Hst).
  - intros Hok Hs Hi Ho. destruct (S Hok) as (_ & _ & Hg & ->).
    destruct (Forall2_lookup_l _ _ _ _ _ (Syntax_after_stored _ _ Hs Hg) Hi)
      as (c & Hc & Hst).
    now rewrite Hc, (stored_as_missing _ _ _ _ Ho Hst).
  - intros Hok Hs. destruct (T Hok) as (_ & _ & _ & _ & _ & ->).
    unfold GUI_after. now rewrite Hs.
  - intros Hok Hs. destruct (S Hok) as (_ & _ & _ & ->).
    unfold Syntax_after. now rewrite Hs.
Qed.

(** Themes that name one colour of a section, and themes without the
    sections. *)
Lemma missing_colour_is_black_witness :
  (loadTheme env_rgb theme0 w0).1.1 = Return true /\
  (loadSyntax env_rgb theme0 w0).1.1 = Return true /\
  (* the GUI section gives statusnone only: treewordcount turns black *)
  gui_list (guiCols (loadTheme env_rgb theme0 w0).1.2) !! 0%nat = Some [0; 0; 0] /\
  (* the Syntax section gives text only: the white background turns black *)
  colBack (syntaxCols theme0) = [255; 255; 255] /\
  syntax_list (syntaxCols (loadSyntax env_rgb theme0 w0).1.2) !! 0%nat = Some [0; 0; 0] /\
  (* the default theme has no Syntax section, the light scheme no GUI one *)
  guiCols (loadTheme env_bare_theme theme0 w0).1.2 = guiCols theme0.
Proof.
  destruct (missing_colour_is_black env_rgb theme0 w0 0%nat "treewordcount")
    as (H1 & _ & _ & _).
  destruct (missing_colour_is_black env_rgb theme0 w0 0%nat "background")
    as (_ & H2 & _ & _).
  destruct (missing_colour_is_black env_bare_theme theme0 w0 0%nat "")
    as (_ & _ & H3 & _).
  split; [vm_compute; reflexivity|]. split; [vm_compute; reflexivity|].
  split; [apply H1; vm_compute; reflexivity|].
  split; [reflexivity|].
  split; [apply H2; vm_compute; reflexivity|].
  apply H3; vm_compute; reflexivity.
Defined.

(** X15: a successful [loadTheme] makes the palette of the object the
    application palette and the text of the style sheet file the application
    style sheet; when the theme has no style sheet file, the application
    style sheet becomes empty. *)
Theorem loadTheme_applies_style env self w :
  (loadTheme env self w).1.1 = Return true ->
  app_palette (loadTheme env self w).2 = guiPalette (loadTheme env self w).1.2 /\
  Some (app_styleSheet (loadTheme env self w).2) = read_css env self /\
  (forall ps, paths self = Some ps -> isfile env (cssFile ps) = false ->
   app_styleSheet (loadTheme env self w).2 = "").
Proof.
  intros Hok. destruct (loadTheme_world env self w) as (_ & _ & H). cbv zeta in H.
  rewrite Hok in H. destruct H as [Hc Hp].
  split; [exact Hp|]. split; [exact Hc|].
  intros ps Hps Hf. unfold read_css in Hc. rewrite Hps, Hf in Hc. congruence.
Qed.

(** A theme without style sheet, loaded over an earlier style sheet. *)
Lemma loadTheme_applies_style_witness :
  (loadTheme env_bare_theme theme0 w0).1.1 = Return true /\
  paths theme0 = Some theme_paths /\
  isfile env_bare_theme (cssFile theme_paths) = false /\
  app_styleSheet (loadTheme env_bare_theme theme0 w1).2 = "" /\
  app_styleSheet w1 = "QWidget {color: red;}".
Proof.
  split; [vm_compute; reflexivity|]. split; [reflexivity|].
  split; [vm_compute; reflexivity|]. split; [|reflexivity].
  destruct (loadTheme_applies_style env_bare_theme theme0 w1) as (_ & _ & H);
    [vm_compute; reflexivity|].
  apply (H theme_paths); [reflexivity | vm_compute; reflexivity].
Defined.

(** X16: when the config has no [Main] section, a successful [loadTheme],
    [loadSyntax] or [GuiIcons.updateTheme] leaves the metadata (name,
    author, licence, ...) of the theme loaded before in place. *)
Theorem metadata_without_Main env self icons w :
  ((loadTheme env self w).1.1 = Return true ->
   ConfigParser.has_section (theme_parser env self) "Main" = false ->
   themeMeta (loadTheme env self w).1.2 = themeMeta self) /\
  ((loadSyntax env self w).1.1 = Return true ->
   ConfigParser.has_section (syntax_parser env self) "Main" = false ->
   syntaxMeta (loadSyntax env self w).1.2 = syntaxMeta self) /\
  ((GuiIcons.updateTheme env icons w).1.1 = Return true ->
   ConfigParser.has_section (icons_parser env) "Main" = false ->
   GuiIcons.meta (GuiIcons.updateTheme env icons w).1.2 = GuiIcons.meta icons).
Proof.
  destruct (loadTheme_attrs env self w) as (_ & _ & _ & _ & _ & T).
  destruct (loadSyntax_attrs env self w) as (_ & _ & _ & _ & _ & S).
  cbv zeta in T, S. split; [|split].
  - intros Hok Hs. destruct (T Hok) as (_ & -> & _).
    unfold Main_after. now rewrite Hs.
  - intros Hok Hs. destruct (S Hok) as (_ & -> & _).
    unfold Main_after. now rewrite Hs.
  - intros Hok Hs. revert Hok. rewrite icons_updateTheme_run. cbv zeta.
    unfold Main_after. rewrite Hs. cbn [fst snd]. clear Hs.
    destruct (isdir env _); [|discriminate].
    destruct (ConfigParser.rr_error _); [discriminate|].
    destruct (ConfigParser.has_section (icons_parser env) "Map"); [|reflexivity].
    destruct (ConfigParser.items _ _); [reflexivity|discriminate].
Qed.

(** Themes without [Main], loaded after themes that have one. *)
Lemma metadata_without_Main_witness :
  let self := (loadSyntax env_theme (loadTheme env_theme theme0 w0).1.2 w0).1.2 in
  themeName (themeMeta self) = "Default" /\
  themeName (syntaxMeta self) = "Light" /\
  themeName (GuiIcons.meta icons1) = "Typicons" /\
  (loadTheme env_rgb self w0).1.1 = Return true /\
  themeName (themeMeta (loadTheme env_rgb self w0).1.2) = "Default" /\
  (loadSyntax env_rgb self w0).1.1 = Return true /\
  themeName (syntaxMeta (loadSyntax env_rgb self w0).1.2) = "Light" /\
  (GuiIcons.updateTheme env_icons_nomain icons1 w0).1.1 = Return true /\
  themeName (GuiIcons.meta (GuiIcons.updateTheme env_icons_nomain icons1 w0).1.2)
    = "Typicons".
Proof.
  cbv zeta.
  destruct (metadata_without_Main env_rgb
              (loadSyntax env_theme (loadTheme env_theme theme0 w0).1.2 w0).1.2 icons1 w0)
    as (M1 & M2 & _).
  destruct (metadata_without_Main env_icons_nomain theme0 icons1 w0) as (_ & _ & M3).
  do 3 (split; [vm_compute; reflexivity|]).
  split; [vm_compute; reflexivity|].
  split; [rewrite M1; vm_compute; reflexivity|].
  split; [vm_compute; reflexivity|].
  split; [rewrite M2; vm_compute; reflexivity|].
  split; [vm_compute; reflexivity|].
  rewrite M3; vm_compute; reflexivity.
Defined.
End ThemeState.

(* ===================================================================== *)
(** * Fonts *)
(* ===================================================================== *)

Section Fonts.
Import GuiTheme Fixture.

Lemma collect_ttf_spec env dir files : forall acc f,
  f ∈ collect_ttf env dir files acc <->
  f ∈ acc \/ exists file, file ∈ files /\ isfile env (Py.join dir file) = true /\
                          Py.endswith file ".ttf" = true /\ f = Py.join dir file.
Proof.
  induction files as [|x files IH]; intros acc f; cbn [collect_ttf].
  - split; [now left|]. intros [H|(file & H & _)]; [exact H|now apply elem_of_nil in H].
  - destruct (isfile env (Py.join dir x) && Py.endswith x ".ttf") eqn:E.
    + apply andb_true_iff in E. destruct E as [E1 E2].
      rewrite IH, elem_of_app, list_elem_of_singleton. split.
      * intros [[H|H]|(file & H1 & H2)]; [now left| |].
        -- right. exists x. subst f. repeat split; [left|assumption..].
        -- right. exists file. split; [now right|exact H2].
      * intros [H|(file & H1 & H2 & H3 & H4)]; [now left; left|].
        apply elem_of_cons in H1. destruct H1 as [->|H1]; [now left; right|].
        right. exists file. repeat split; assumption.
    + rewrite IH. split.
      * intros [H|(file & H1 & H2)]; [now left|].
        right. exists file. split; [now right|exact H2].
      * intros [H|(file & H1 & H2 & H3 & H4)]; [now left|].
        apply elem_of_cons in H1. destruct H1 as [->|H1].
        -- rewrite H2, H3 in E. discriminate E.
        -- right. exists file. repeat split; assumption.
Qed.

Lemma collect_families_spec env known fams : forall acc l f,
  collect_families env known (Py.join (conf_assetPath env) fontPath) fams acc = Some l ->
  (f ∈ l <-> f ∈ acc \/ font_asset env known fams f).
Proof.
  unfold font_asset.
  induction fams as [|x fams IH]; intros acc l f; cbn [collect_families].
  - intros [= <-]. split; [now left|].
    intros [H|(fam & files & file & H & _)]; [exact H|now apply elem_of_nil in H].
  - assert (Skip : forall acc',
        collect_families env known (Py.join (conf_assetPath env) fontPath) fams acc' = Some l ->
        (isdir env (Py.join (Py.join (conf_assetPath env) fontPath) x) = false \/
         str_in x known = true) ->
        (f ∈ l <-> f ∈ acc' \/ font_asset env known (x :: fams) f)).
    { intros acc' H Hx. unfold font_asset. rewrite (IH _ _ _ H). split.
      - intros [H1|(fam & files & file & H1 & H2)]; [now left|].
        right. exists fam, files, file. split; [now right|exact H2].
      - intros [H1|(fam & files & file & H1 & H2 & H3 & H4)]; [now left|].
        apply elem_of_cons in H1. destruct H1 as [->|H1].
        + destruct Hx as [Hx|Hx]; congruence.
        + right. exists fam, files, file. repeat split; try assumption; apply H4. }
    destruct (isdir env (Py.join (Py.join (conf_assetPath env) fontPath) x)) eqn:Ed.
    2:{ intros H. apply (Skip acc H). now left. }
    destruct (str_in x known) eqn:Ek; cbn [negb].
    { intros H. apply (Skip acc H). now right. }
    destruct (listdir env (Py.join (Py.join (conf_assetPath env) fontPath) x))
      as [files|] eqn:El; [|discriminate].
    intros H. rewrite (IH _ _ _ H), collect_ttf_spec. split.
    + intros [[H1|(file & H1 & H2 & H3 & H4)]|(fam & fs & file & H1 & H2)].
      * now left.
      * right. exists x, files, file. repeat split; try assumption. left.
      * right. exists fam, fs, file. split; [now right|exact H2].
    + intros [H1|(fam & fs & file & H1 & H2 & H3 & H4 & H5 & H6 & H7 & H8)];
        [now left; left|].
      apply elem_of_cons in H1. destruct H1 as [->|H1].
      * left. right. assert (fs = files) by congruence. subst fs.
        exists file. repeat split; assumption.
      * right. exists fam, fs, file. repeat split; assumption.
Qed.

Lemma add_fonts_spec env ff l : forall db w f,
  (f ∈ db_appFonts (add_fonts env ff l db w).1 <->
   f ∈ db_appFonts db \/ (f ∈ l /\ is_Some (ff f))) /\
  (forall fam, fam ∈ db_families db -> fam ∈ db_families (add_fonts env ff l db w).1).
Proof.
  induction l as [|x l IH]; intros db w f; cbn [add_fonts].
  - split; [|now intros].
    split; [now left|]. intros [H|[H _]]; [exact H|now apply elem_of_nil in H].
  - unfold bind. cbn [logger]. unfold addApplicationFont.
    destruct (ff x) as [fams|] eqn:Ex.
    + assert ((Z.of_nat (length (db_appFonts db)) <? 0) = false) as ->
        by (apply Z.ltb_ge; lia).
      unfold ret.
      match goal with |- context [add_fonts env ff l ?db' ?w'] =>
        destruct (IH db' w' f) as [I1 I2] end.
      cbn [db_appFonts db_families] in *. split.
      * rewrite I1, elem_of_app, list_elem_of_singleton. split.
        -- intros [[H|H]|[H1 H2]]; [now left| |].
           ++ right. subst f. split; [left|]. rewrite Ex. eauto.
           ++ right. split; [now right|exact H2].
        -- intros [H|[H1 H2]]; [now left; left|].
           apply elem_of_cons in H1. destruct H1 as [->|H1]; [now left; right|].
           now right.
      * intros fam Hf. apply I2. apply elem_of_app. now left.
    + change (-1 <? 0) with true. cbn [logger].
      match goal with |- context [add_fonts env ff l db ?w'] =>
        destruct (IH db w' f) as [I1 I2] end.
      split; [|exact I2]. rewrite I1. split.
      * intros [H|[H1 H2]]; [now left|]. right. split; [now right|exact H2].
      * intros [H|[H1 H2]]; [now left|].
        apply elem_of_cons in H1. destruct H1 as [->|H1].
        -- rewrite Ex in H2. now destruct H2.
        -- now right.
Qed.

(** X17: when [loadFonts] returns, the application fonts of the database
    are those it had plus exactly the loadable font files among the regular
    files named [*.ttf] in the directories of the fonts folder whose name is
    not a family the database knew at the call; no known family is lost. *)
Theorem loadFonts_registers env ff db w db' :
  (loadFonts env ff db w).1 = Some db' ->
  exists fams,
    listdir env (Py.join (conf_assetPath env) fontPath) = Some fams /\
    (forall f, f ∈ db_appFonts db' <->
       f ∈ db_appFonts db \/
       (font_asset env (db_families db) fams f /\ is_Some (ff f))) /\
    (forall fam, fam ∈ db_families db -> fam ∈ db_families db').
Proof.
  unfold loadFonts.
  destruct (listdir env _) as [fams|]; [|discriminate].
  destruct (collect_families env _ _ fams []) as [l|] eqn:Ec; [|discriminate].
  unfold bind, ret.
  pose proof (add_fonts_spec env ff l db w) as A.
  destruct (add_fonts env ff l db w) as [db1 w1]. cbn [fst] in *.
  intros [= <-]. exists fams. split; [reflexivity|]. split.
  - intros f. destruct (A f) as [A1 _]. rewrite A1.
    rewrite (collect_families_spec _ _ _ _ _ f Ec). split.
    + intros [H|[[H|H] H2]]; [now left|now apply elem_of_nil in H|now right].
    + intros [H|[H1 H2]]; [now left|]. right. split; [now right|exact H2].
  - intros fam. destruct (A fam) as [_ A2]. apply A2.
Qed.

(** When [os.listdir] raises, no font was registered and nothing was
    logged: the folders are scanned before the first font is added. *)
Theorem loadFonts_raises_before_adding env ff db w :
  (loadFonts env ff db w).1 = None -> (loadFonts env ff db w).2 = w.
Proof.
  unfold loadFonts.
  destruct (listdir env _) as [fams|]; [|reflexivity].
  destruct (collect_families env _ _ fams []) as [l|]; [|reflexivity].
  unfold bind, ret. destruct (add_fonts env ff l db w). discriminate.
Qed.

(** Of the fonts folder, only the regular font of the new family is
    registered: not the broken file, not the licence, not the font of the
    family that the database knows. *)
Lemma loadFonts_registers_witness :
  exists db',
    (loadFonts env_fonts font_files db0 w0).1 = Some db' /\
    db_appFonts db' = ["/nw/assets/fonts/Cantarell/Cantarell-Regular.ttf"] /\
    (forall f, f ∈ db_appFonts db' ->
       f ∈ db_appFonts db0 \/ is_Some (font_files f)) /\
    "Known" ∈ db_families db'.
Proof.
  exists {| db_families := ["DejaVu Sans"; "Known"; "Cantarell"];
            db_appFonts := ["/nw/assets/fonts/Cantarell/Cantarell-Regular.ttf"] |}.
  assert (H : (loadFonts env_fonts font_files db0 w0).1
              = Some {| db_families := ["DejaVu Sans"; "Known"; "Cantarell"];
                        db_appFonts := ["/nw/assets/fonts/Cantarell/Cantarell-Regular.ttf"] |})
    by (vm_compute; reflexivity).
  destruct (loadFonts_registers _ _ _ _ _ H) as (fams & _ & R & K).
  split; [exact H|]. split; [reflexivity|]. split.
  - intros f Hf. apply R in Hf. destruct Hf as [Hf|[_ Hf]]; [now left|now right].
  - apply K. right. left.
Defined.
End Fonts.
